(** * isupipe: livecomments, NG words, reports and profile assembly

    A shallow embedding of [go/user_handler.go] and of the livecomment
    handlers that follow it in the same source file: the handlers are
    functions from a request and a database state to a response and a
    database state.  A handler that returns an error leaves the database
    as it found it, as [defer tx.Rollback()] does. *)

From Stdlib Require Import List String Ascii ZArith Bool Lia.
From Stdlib.Strings Require Import Byte.
From Stdlib Require Import Permutation Sorted.
Import ListNotations.

Local Open Scope string_scope.
Local Open Scope list_scope.
Local Open Scope Z_scope.

Set Implicit Arguments.

(** ** HTTP results *)

(** The status codes the handlers pass to [echo.NewHTTPError] and
    [c.JSON]. *)
Inductive Status :=
| StatusOK
| StatusCreated
| StatusBadRequest
| StatusUnauthorized
| StatusForbidden
| StatusNotFound
| StatusInternalServerError.

Definition status_code (s : Status) : Z :=
  match s with
  | StatusOK => 200
  | StatusCreated => 201
  | StatusBadRequest => 400
  | StatusUnauthorized => 401
  | StatusForbidden => 403
  | StatusNotFound => 404
  | StatusInternalServerError => 500
  end.

Record HTTPError := NewHTTPError { Code : Status; Message : string }.

(** ** Go errors

    [sql.ErrNoRows], any other error by its text, and an error wrapped by
    [fmt.Errorf] with [%w]. *)
Inductive error :=
| ErrNoRows
| errorString (s : string)
| wrapError (prefix : string) (err : error).

Fixpoint Error (err : error) : string :=
  match err with
  | ErrNoRows => "sql: no rows in result set"
  | errorString s => s
  | wrapError prefix e => prefix ++ Error e
  end.

(** [errors.Is(err, sql.ErrNoRows)] looks through the wrapping. *)
Fixpoint is_ErrNoRows (err : error) : bool :=
  match err with
  | ErrNoRows => true
  | errorString _ => false
  | wrapError _ e => is_ErrNoRows e
  end.

(** The outcome of a fallible step, Go's [(value, err)]. *)
Inductive Result (E A : Type) :=
| Ok (a : A)
| Err (e : E).
Arguments Ok {E A} a.
Arguments Err {E A} e.

(** ** strconv.Atoi

    An optional sign followed by one or more decimal digits, in the range
    of a 64-bit [int]. *)

Definition is_digit (c : ascii) : bool :=
  let n := Z.of_nat (nat_of_ascii c) in (48 <=? n) && (n <=? 57).

Fixpoint digits_value (acc : Z) (s : string) : option Z :=
  match s with
  | EmptyString => Some acc
  | String c s' =>
      if is_digit c
      then digits_value (10 * acc + (Z.of_nat (nat_of_ascii c) - 48)) s'
      else None
  end.

Definition MinInt : Z := - 2 ^ 63.
Definition MaxInt : Z := 2 ^ 63 - 1.

Definition Atoi (s : string) : option Z :=
  match s with
  | EmptyString => None
  | String c rest =>
      let '(neg, ds) :=
        if (c =? "+")%char then (false, rest)
        else if (c =? "-")%char then (true, rest)
        else (false, s) in
      match ds with
      | EmptyString => None
      | _ =>
          match digits_value 0 ds with
          | None => None
          | Some v =>
              let n := if neg then - v else v in
              if (MinInt <=? n) && (n <=? MaxInt) then Some n else None
          end
      end
  end.

(** ** The SQL [LIKE] operator

    [texts.text LIKE patterns.pattern] as MySQL evaluates it: in the
    pattern [%] stands for any run of characters, [_] for any one
    character, and a backslash takes the character after it literally (a
    backslash that ends the pattern stands for itself).  Every other
    character of the pattern has to equal the character of the text under
    the collation of the comparison, which the connection and the schema
    decide and which is a parameter here.  A character is an element of a
    [string]; text outside ASCII is read byte by byte. *)

Inductive like_token :=
| LikeMany
| LikeOne
| LikeChar (c : ascii).

Fixpoint like_tokens (p : list ascii) : list like_token :=
  match p with
  | [] => []
  | c :: p' =>
      if (c =? "%")%char then LikeMany :: like_tokens p'
      else if (c =? "_")%char then LikeOne :: like_tokens p'
      else if (c =? "\")%char then
        match p' with
        | [] => [LikeChar c]
        | d :: p'' => LikeChar d :: like_tokens p''
        end
      else LikeChar c :: like_tokens p'
  end.

(** A character that [LIKE] reads as something other than itself. *)
Definition like_special (c : ascii) : bool :=
  ((c =? "%") || (c =? "_") || (c =? "\"))%char.

Definition plain (w : string) : bool :=
  forallb (fun c => negb (like_special c)) (list_ascii_of_string w).

Section Like.

(** Equality of two characters under the collation. *)
Variable collate : ascii -> ascii -> bool.

Fixpoint like_match (p : list like_token) : list ascii -> bool :=
  match p with
  | [] => fun s => match s with [] => true | _ :: _ => false end
  | LikeChar c :: p' =>
      fun s => match s with
               | [] => false
               | x :: s' => collate x c && like_match p' s'
               end
  | LikeOne :: p' =>
      fun s => match s with
               | [] => false
               | _ :: s' => like_match p' s'
               end
  | LikeMany :: p' =>
      fix many (s : list ascii) : bool :=
        like_match p' s
        || match s with
           | [] => false
           | _ :: s' => many s'
           end
  end.

Definition LIKE (text pattern : string) : bool :=
  like_match (like_tokens (list_ascii_of_string pattern))
             (list_ascii_of_string text).

(** [CONCAT('%', ?, '%')] *)
Definition CONCAT_pattern (word : string) : string :=
  ("%" ++ word ++ "%")%string.

(** The spam query of [postLivecommentHandler], and the sub-select of the
    [DELETE] in [moderateHandler]:
    [SELECT COUNT( * ) FROM (SELECT ? AS text) AS texts
     INNER JOIN (SELECT CONCAT('%', ?, '%') AS pattern) AS patterns
     ON texts.text LIKE patterns.pattern].
    One row is joined to one row, so the count is 1 or 0. *)
Definition hitSpam (comment word : string) : Z :=
  if LIKE comment (CONCAT_pattern word) then 1 else 0.

(** [hitSpam >= 1] *)
Definition isSpam (comment word : string) : bool :=
  1 <=? hitSpam comment word.

(** Two strings of the same length whose characters are equal under the
    collation, position by position. *)
Fixpoint collate_eq (s t : list ascii) : bool :=
  match s, t with
  | [], [] => true
  | x :: s', c :: t' => collate x c && collate_eq s' t'
  | _, _ => false
  end.

(** [phrase] occurs in [body], up to the collation. *)
Definition occurs_in (phrase body : string) : Prop :=
  exists pre mid post,
    body = (pre ++ mid ++ post)%string /\
    collate_eq (list_ascii_of_string mid) (list_ascii_of_string phrase) = true.

End Like.

(** The binary collation: characters are equal when they are the same. *)
Definition binary : ascii -> ascii -> bool := Ascii.eqb.

(** [phrase] is a substring of [body], every character as it is. *)
Definition substring_of (phrase body : string) : Prop :=
  exists pre post, body = (pre ++ phrase ++ post)%string.

Fixpoint has_prefix (p s : string) : bool :=
  match p, s with
  | EmptyString, _ => true
  | String c p', String d s' => (c =? d)%char && has_prefix p' s'
  | String _ _, EmptyString => false
  end.

(** Go's [strings.Contains]: the literal, case-sensitive containment the
    specification describes. *)
Fixpoint Contains (s substr : string) : bool :=
  has_prefix substr s
  || match s with
     | EmptyString => false
     | String _ s' => Contains s' substr
     end.

(** A collation that does not tell an upper-case letter from its lower-case
    one, as MySQL's [_ci] collations do on ASCII letters. *)
Definition to_lower (c : ascii) : ascii :=
  let n := nat_of_ascii c in
  if ((65 <=? n) && (n <=? 90))%nat then ascii_of_nat (n + 32) else c.

Definition case_insensitive (x c : ascii) : bool :=
  (to_lower x =? to_lower c)%char.

(** ** crypto/sha256 and the [%x] verb

    [sha256.Sum256] after FIPS 180-4, on 32-bit words kept in [Z]. *)

Module SHA256.

Definition add32 (x y : Z) : Z := (x + y) mod 2 ^ 32.

Definition rotr (n x : Z) : Z :=
  Z.lor (Z.shiftr x n) (Z.shiftl x (32 - n) mod 2 ^ 32).

Definition Ch (x y z : Z) : Z :=
  Z.lxor (Z.land x y) (Z.land (Z.lxor x 0xffffffff) z).

Definition Maj (x y z : Z) : Z :=
  Z.lxor (Z.lxor (Z.land x y) (Z.land x z)) (Z.land y z).

Definition Sigma0 (x : Z) : Z :=
  Z.lxor (Z.lxor (rotr 2 x) (rotr 13 x)) (rotr 22 x).

Definition Sigma1 (x : Z) : Z :=
  Z.lxor (Z.lxor (rotr 6 x) (rotr 11 x)) (rotr 25 x).

Definition sigma0 (x : Z) : Z :=
  Z.lxor (Z.lxor (rotr 7 x) (rotr 18 x)) (Z.shiftr x 3).

Definition sigma1 (x : Z) : Z :=
  Z.lxor (Z.lxor (rotr 17 x) (rotr 19 x)) (Z.shiftr x 10).

(** The prime numbers below [n]. *)
Definition primes_below (n : nat) : list Z :=
  filter (fun p => forallb (fun q => negb (p mod q =? 0))
                           (map Z.of_nat (seq 2 (Z.to_nat p - 2))))
         (map Z.of_nat (seq 2 (n - 2))).

(** The integer part of the [k]-th root of [n], for a root below [2 ^ 40]. *)
Definition root (k n : Z) : Z :=
  fold_left (fun r i => if (r + 2 ^ i) ^ k <=? n then r + 2 ^ i else r)
            (map Z.of_nat (rev (seq 0 40))) 0.

(** The round constants: the first 32 bits of the fractional parts of the
    cube roots of the first 64 primes. *)
Definition K : list Z :=
  Eval vm_compute in
    map (fun p => root 3 (p * 2 ^ 96) mod 2 ^ 32) (primes_below 312).

(** The eight working words. *)
Record digest := Digest { a : Z; b : Z; c : Z; d : Z; e : Z; f : Z; g : Z; h : Z }.

(** The initial hash value: the first 32 bits of the fractional parts of
    the square roots of the first 8 primes. *)
Definition init : digest :=
  Eval vm_compute in
    match map (fun p => root 2 (p * 2 ^ 64) mod 2 ^ 32) (primes_below 20) with
    | [h0; h1; h2; h3; h4; h5; h6; h7] => Digest h0 h1 h2 h3 h4 h5 h6 h7
    | _ => Digest 0 0 0 0 0 0 0 0
    end.

(** The message with its padding: a one bit, zeros, and the length in
    bits as 64 bits, to a multiple of 64 bytes. *)
Definition be_bytes (n : nat) (x : Z) : list Z :=
  map (fun i => Z.shiftr x (8 * Z.of_nat i) mod 256) (rev (seq 0 n)).

Definition pad (msg : list Z) : list Z :=
  let len := Z.of_nat (List.length msg) in
  msg ++ [0x80] ++ repeat 0 (Z.to_nat ((55 - len) mod 64))
      ++ be_bytes 8 (8 * len).

Fixpoint be_word (bs : list Z) : Z :=
  match bs with
  | [] => 0
  | x :: bs' => Z.shiftl x (8 * Z.of_nat (List.length bs')) + be_word bs'
  end.

Fixpoint words (n : nat) (bs : list Z) : list Z :=
  match n with
  | O => []
  | S n' => be_word (firstn 4 bs) :: words n' (skipn 4 bs)
  end.

(** The message schedule of one block: 16 words grown to 64. *)
Fixpoint schedule (n : nat) (w : list Z) : list Z :=
  match n with
  | O => w
  | S n' =>
      let t := List.length w in
      let at_ (k : nat) := nth (t - k) w 0 in
      schedule n'
        (w ++ [add32 (add32 (sigma1 (at_ 2%nat)) (at_ 7%nat))
                     (add32 (sigma0 (at_ 15%nat)) (at_ 16%nat))])
  end.

Definition round (s : digest) (kw : Z * Z) : digest :=
  let T1 := add32 (add32 (add32 (h s) (Sigma1 (e s)))
                         (add32 (Ch (e s) (f s) (g s)) (fst kw))) (snd kw) in
  let T2 := add32 (Sigma0 (a s)) (Maj (a s) (b s) (c s)) in
  Digest (add32 T1 T2) (a s) (b s) (c s) (add32 (d s) T1) (e s) (f s) (g s).

Definition block (s : digest) (bs : list Z) : digest :=
  let w := schedule 48 (words 16 bs) in
  let r := fold_left round (combine K w) s in
  Digest (add32 (a s) (a r)) (add32 (b s) (b r)) (add32 (c s) (c r))
         (add32 (d s) (d r)) (add32 (e s) (e r)) (add32 (f s) (f r))
         (add32 (g s) (g r)) (add32 (h s) (h r)).

Fixpoint blocks (n : nat) (s : digest) (bs : list Z) : digest :=
  match n with
  | O => s
  | S n' => blocks n' (block s (firstn 64 bs)) (skipn 64 bs)
  end.

Definition byte_of_Z (x : Z) : byte :=
  match Byte.of_N (Z.to_N (x mod 256)) with
  | Some y => y
  | None => x00
  end.

Definition Z_of_byte (x : byte) : Z := Z.of_N (Byte.to_N x).

(** [func Sum256(data []byte) [Size]byte] *)
Definition Sum256 (data : list byte) : list byte :=
  let m := pad (map Z_of_byte data) in
  let s := blocks (List.length m / 64) init m in
  map byte_of_Z
    (be_bytes 4 (a s) ++ be_bytes 4 (b s) ++ be_bytes 4 (c s) ++
     be_bytes 4 (d s) ++ be_bytes 4 (e s) ++ be_bytes 4 (f s) ++
     be_bytes 4 (g s) ++ be_bytes 4 (h s)).

Definition Size : nat := 32.

End SHA256.

Definition hex_digit (n : Z) : ascii :=
  nth (Z.to_nat n) (list_ascii_of_string "0123456789abcdef") "0"%char.

(** [fmt.Sprintf("%x", bytes)]: two lower-case hexadecimal digits a byte. *)
Fixpoint Sprintf_x (bs : list byte) : string :=
  match bs with
  | [] => EmptyString
  | x :: bs' =>
      let n := SHA256.Z_of_byte x in
      String (hex_digit (n / 16)) (String (hex_digit (n mod 16)) (Sprintf_x bs'))
  end.

(** ** Rows and response values

    One module a Go struct, so that the fields keep their names. *)

Module UserModel.
Record t := mk { ID : Z; Name : string; DisplayName : string;
                 Description : string; HashedPassword : string }.
End UserModel.

Module Theme.
Record t := mk { ID : Z; DarkMode : bool }.
End Theme.

Module User.
Record t := mk { ID : Z; Name : string; DisplayName : string;
                 Description : string; Theme : Theme.t; IconHash : string }.
End User.

Module ThemeModel.
Record t := mk { ID : Z; UserID : Z; DarkMode : bool }.
End ThemeModel.

(** A row of [icons], by the columns the statements name. *)
Module IconModel.
Record t := mk { ID : Z; UserID : Z; Image : list byte }.
End IconModel.

(** Modelled from the spec: [LivestreamModel] is declared in a file of the
    repository that is not at hand.  The specification's stream is "a
    livestream entity owned by one user"; the fields are the columns of
    [livestreams] that the statements of this file read. *)
Module LivestreamModel.
Record t := mk { ID : Z; UserID : Z; Title : string; Description : string;
                 PlaylistUrl : string; ThumbnailUrl : string;
                 StartAt : Z; EndAt : Z }.
End LivestreamModel.

(** Modelled from the spec: [Livestream], the stream as a response shows
    it, is declared next to [LivestreamModel]; the fields are the ones the
    composite literals of this file set. *)
Module Livestream.
Record t := mk { ID : Z; Owner : User.t; Title : string; Description : string;
                 PlaylistUrl : string; ThumbnailUrl : string;
                 StartAt : Z; EndAt : Z }.
End Livestream.

Module PostLivecommentRequest.
Record t := mk { Comment : string; Tip : Z }.
End PostLivecommentRequest.

Module LivecommentModel.
Record t := mk { ID : Z; UserID : Z; LivestreamID : Z; Comment : string;
                 Tip : Z; CreatedAt : Z }.
End LivecommentModel.

Module Livecomment.
Record t := mk { ID : Z; User : User.t; Livestream : Livestream.t;
                 Comment : string; Tip : Z; CreatedAt : Z }.
End Livecomment.

Module LivecommentReport.
Record t := mk { ID : Z; Reporter : User.t; Livecomment : Livecomment.t;
                 CreatedAt : Z }.
End LivecommentReport.

Module LivecommentReportModel.
Record t := mk { ID : Z; UserID : Z; LivestreamID : Z; LivecommentID : Z;
                 CreatedAt : Z }.
End LivecommentReportModel.

Module ModerateRequest.
Record t := mk { NGWord : string }.
End ModerateRequest.

Module NGWord.
Record t := mk { ID : Z; UserID : Z; LivestreamID : Z; Word : string;
                 CreatedAt : Z }.
End NGWord.

Module PostIconRequest.
Record t := mk { Image : list byte }.
End PostIconRequest.

Module PostIconResponse.
Record t := mk { ID : Z }.
End PostIconResponse.

(** ** The database

    The tables the handlers touch, each with the rows in the order the
    engine holds them, and the next value of each AUTO_INCREMENT column
    that a handler reads back through [LastInsertId]. *)
Record DB := mkDB {
  users : list UserModel.t;
  themes : list ThemeModel.t;
  icons : list IconModel.t;
  livestreams : list LivestreamModel.t;
  ng_words : list NGWord.t;
  livecomments : list LivecommentModel.t;
  livecomment_reports : list LivecommentReportModel.t;
  icons_auto_increment : Z;
  ng_words_auto_increment : Z;
  livecomments_auto_increment : Z;
  livecomment_reports_auto_increment : Z
}.

Definition set_icons (l : list IconModel.t) (n : Z) (db : DB) : DB :=
  mkDB (users db) (themes db) l (livestreams db) (ng_words db)
       (livecomments db) (livecomment_reports db)
       n (ng_words_auto_increment db) (livecomments_auto_increment db)
       (livecomment_reports_auto_increment db).

Definition set_ng_words (l : list NGWord.t) (n : Z) (db : DB) : DB :=
  mkDB (users db) (themes db) (icons db) (livestreams db) l
       (livecomments db) (livecomment_reports db)
       (icons_auto_increment db) n (livecomments_auto_increment db)
       (livecomment_reports_auto_increment db).

Definition set_livecomments (l : list LivecommentModel.t) (n : Z) (db : DB) : DB :=
  mkDB (users db) (themes db) (icons db) (livestreams db) (ng_words db)
       l (livecomment_reports db)
       (icons_auto_increment db) (ng_words_auto_increment db) n
       (livecomment_reports_auto_increment db).

Definition set_livecomment_reports (l : list LivecommentReportModel.t) (n : Z)
    (db : DB) : DB :=
  mkDB (users db) (themes db) (icons db) (livestreams db) (ng_words db)
       (livecomments db) l
       (icons_auto_increment db) (ng_words_auto_increment db)
       (livecomments_auto_increment db) n.

(** ** Transactions

    A handler runs its statements in one transaction: a step reads and
    writes the tables and may fail with the HTTP error the handler returns. *)
Definition Tx (A : Type) : Type := DB -> Result HTTPError (A * DB).

Definition ret {A} (a : A) : Tx A := fun db => Ok (a, db).

Definition fail {A} (status : Status) (message : string) : Tx A :=
  fun _ => Err (NewHTTPError status message).

Definition bind {A B} (m : Tx A) (k : A -> Tx B) : Tx B :=
  fun db =>
    match m db with
    | Ok (a, db') => k a db'
    | Err e => Err e
    end.

Notation "x <- m ;; k" := (bind m (fun x => k))
  (at level 61, m at next level, right associativity).
Notation "m ;; k" := (bind m (fun _ => k))
  (at level 61, right associativity).

(** A read of the tables. *)
Definition query {A} (q : DB -> A) : Tx A := fun db => Ok (q db, db).

(** A write to the tables. *)
Definition exec (w : DB -> DB) : Tx unit := fun db => Ok (tt, w db).

(** [for _, x := range l { body }] *)
Fixpoint for_range {A} (l : list A) (body : A -> Tx unit) : Tx unit :=
  match l with
  | [] => ret tt
  | x :: l' => body x ;; for_range l' body
  end.

(** [for i := range l { out[i] = body(l[i]) }] *)
Fixpoint map_range {A B} (l : list A) (body : A -> Tx B) : Tx (list B) :=
  match l with
  | [] => ret []
  | x :: l' => y <- body x ;; ys <- map_range l' body ;; ret (y :: ys)
  end.

(** What the client gets, and the tables after it: the transaction is
    committed when the handler returns its value and rolled back, by the
    deferred [tx.Rollback()], when it returns an error. *)
Definition run {A} (handler : Tx A) (db : DB) : Result HTTPError A * DB :=
  match handler db with
  | Ok (a, db') => (Ok a, db')
  | Err e => (Err e, db)
  end.

(** ** The request *)

Definition defaultSessionExpiresKey : string := "EXPIRES".
Definition defaultUserIDKey : string := "USERID".

(** The session of the request, with its [int64] values by key. *)
Record Session := { Values : string -> option Z }.

(** [echo.Context], as far as the handlers read it; [session] is [None]
    when [session.Get] fails. *)
Record Context := {
  session : option Session;
  Param : string -> string;
  QueryParam : string -> string
}.

Definition verifyUserSession (c : Context) (now : Z) : Tx unit :=
  match session c with
  | None => fail StatusUnauthorized "failed to get session"
  | Some sess =>
      match Values sess defaultSessionExpiresKey with
      | None => fail StatusForbidden "failed to get EXPIRES value from session"
      | Some sessionExpires =>
          match Values sess defaultUserIDKey with
          | None => fail StatusUnauthorized "failed to get USERID value from session"
          | Some _ =>
              if now >? sessionExpires
              then fail StatusUnauthorized "session has expired"
              else ret tt
          end
      end
  end.

(** [sess.Values[defaultUserIDKey].(int64)], read after the check. *)
Definition session_userID (c : Context) : Z :=
  match session c with
  | Some sess =>
      match Values sess defaultUserIDKey with
      | Some userID => userID
      | None => 0
      end
  | None => 0
  end.

(** [strconv.Atoi] of a path or query parameter, or 400. *)
Definition atoi_or_bad_request (s message : string) : Tx Z :=
  match Atoi s with
  | Some n => ret n
  | None => fail StatusBadRequest message
  end.

(** The decoded JSON body, or 400. *)
Definition decode_or_bad_request {A} (body : option A) : Tx A :=
  match body with
  | Some req => ret req
  | None => fail StatusBadRequest "failed to decode the request body as json"
  end.

(** ** Joined rows *)

Module LivecommentResponse.
Record t := mk {
  LivecommentID : Z; LivecommentUserID : Z; Comment : string; Tip : Z;
  LivecommentCreatedAt : Z;
  UserID : Z; Username : string; DisplayName : string;
  UserDescription : string; ThemeID : Z; DarkMode : bool;
  UserImage : list byte;
  LivestreamID : Z; LivestreamTitle : string;
  LivestreamDescription : string; PlaylistURL : string;
  ThumbnailURL : string; StartAt : Z; EndAt : Z }.
End LivecommentResponse.

Module LivecommentReportResponse.
Record t := mk {
  ReportID : Z; ReporterUserID : Z; ReportCreatedAt : Z;
  ReporterID : Z; ReporterName : string; ReporterDisplayName : string;
  ReporterDescription : string; ReporterThemeID : Z;
  ReporterDarkMode : bool; ReporterImage : list byte;
  LivecommentID : Z; LivecommentUserID : Z; Comment : string; Tip : Z;
  LivecommentCreatedAt : Z;
  LCUserID : Z; LCUsername : string; LCUserDisplayName : string;
  LCUserDescription : string; LCUserThemeID : Z; LCUserDarkMode : bool;
  LCUserImage : list byte;
  LivestreamID : Z; LivestreamTitle : string;
  LivestreamDescription : string; PlaylistURL : string;
  ThumbnailURL : string; StartAt : Z; EndAt : Z }.
End LivecommentReportResponse.

(** ** Reading rows

    [GetContext] and [QueryRowx(...).Scan] take the first row of the
    result.  A [LEFT JOIN] that finds no partner gives NULL columns, and
    the scan of a NULL into an [int64] or a [string] field is an error.
    [scan_NULL] stands for that error by its cause: database/sql puts the
    column in front of it ([sql: Scan error on column index ..., name
    ...: ]), which is left out here.  The properties rely on the error
    being another one than [sql.ErrNoRows], not on its text. *)

Definition scan_NULL : error :=
  errorString "converting NULL to int64 is unsupported".

Definition user_by_id (db : DB) (id : Z) : option UserModel.t :=
  find (fun u => UserModel.ID u =? id) (users db).

Definition user_by_name (db : DB) (name : string) : option UserModel.t :=
  find (fun u => String.eqb (UserModel.Name u) name) (users db).

Definition theme_of (db : DB) (userID : Z) : option ThemeModel.t :=
  find (fun t => ThemeModel.UserID t =? userID) (themes db).

Definition icon_of (db : DB) (userID : Z) : option (list byte) :=
  option_map IconModel.Image
    (find (fun i => IconModel.UserID i =? userID) (icons db)).

(** [COALESCE(i.image, '')] *)
Definition COALESCE (image : option (list byte)) : list byte :=
  match image with
  | Some bytes => bytes
  | None => []
  end.

Definition livestream_by_id (db : DB) (id : Z) : option LivestreamModel.t :=
  find (fun ls => LivestreamModel.ID ls =? id) (livestreams db).

Definition livecomment_by_id (db : DB) (id : Z) : option LivecommentModel.t :=
  find (fun lc => LivecommentModel.ID lc =? id) (livecomments db).

Definition report_by_id (db : DB) (id : Z) : option LivecommentReportModel.t :=
  find (fun r => LivecommentReportModel.ID r =? id) (livecomment_reports db).

(** The join of [getLivecommentData]: the comment with its author, the
    author's theme and icon, and its stream.  The rows that the further
    joins to [livestream_tags] and [tags] add carry the same values in these
    columns. *)
Definition join_livecomment (db : DB) (livecommentID : Z)
    : Result error LivecommentResponse.t :=
  match livecomment_by_id db livecommentID with
  | None => Err ErrNoRows
  | Some lc =>
      match user_by_id db (LivecommentModel.UserID lc) with
      | None => Err scan_NULL
      | Some u =>
          match theme_of db (UserModel.ID u) with
          | None => Err scan_NULL
          | Some t =>
              match livestream_by_id db (LivecommentModel.LivestreamID lc) with
              | None => Err scan_NULL
              | Some ls =>
                  Ok (LivecommentResponse.mk
                        (LivecommentModel.ID lc) (LivecommentModel.UserID lc)
                        (LivecommentModel.Comment lc) (LivecommentModel.Tip lc)
                        (LivecommentModel.CreatedAt lc)
                        (UserModel.ID u) (UserModel.Name u)
                        (UserModel.DisplayName u) (UserModel.Description u)
                        (ThemeModel.ID t) (ThemeModel.DarkMode t)
                        (COALESCE (icon_of db (UserModel.ID u)))
                        (LivestreamModel.ID ls) (LivestreamModel.Title ls)
                        (LivestreamModel.Description ls)
                        (LivestreamModel.PlaylistUrl ls)
                        (LivestreamModel.ThumbnailUrl ls)
                        (LivestreamModel.StartAt ls) (LivestreamModel.EndAt ls))
              end
          end
      end
  end.

(** The join of [getLivecommentReportData]: the reporter with theme and
    icon, the comment with its author, the author's theme and icon, and the
    stream of the comment. *)
Definition getLivecommentReportData (db : DB) (reportID : Z)
    : Result error LivecommentReportResponse.t :=
  match report_by_id db reportID with
  | None => Err ErrNoRows
  | Some lr =>
      match user_by_id db (LivecommentReportModel.UserID lr) with
      | None => Err scan_NULL
      | Some ru =>
          match theme_of db (UserModel.ID ru) with
          | None => Err scan_NULL
          | Some rt =>
              match join_livecomment db (LivecommentReportModel.LivecommentID lr) with
              | Err _ => Err scan_NULL
              | Ok lc =>
                  Ok (LivecommentReportResponse.mk
                        (LivecommentReportModel.ID lr)
                        (LivecommentReportModel.UserID lr)
                        (LivecommentReportModel.CreatedAt lr)
                        (UserModel.ID ru) (UserModel.Name ru)
                        (UserModel.DisplayName ru) (UserModel.Description ru)
                        (ThemeModel.ID rt) (ThemeModel.DarkMode rt)
                        (COALESCE (icon_of db (UserModel.ID ru)))
                        (LivecommentResponse.LivecommentID lc)
                        (LivecommentResponse.LivecommentUserID lc)
                        (LivecommentResponse.Comment lc)
                        (LivecommentResponse.Tip lc)
                        (LivecommentResponse.LivecommentCreatedAt lc)
                        (LivecommentResponse.UserID lc)
                        (LivecommentResponse.Username lc)
                        (LivecommentResponse.DisplayName lc)
                        (LivecommentResponse.UserDescription lc)
                        (LivecommentResponse.ThemeID lc)
                        (LivecommentResponse.DarkMode lc)
                        (LivecommentResponse.UserImage lc)
                        (LivecommentResponse.LivestreamID lc)
                        (LivecommentResponse.LivestreamTitle lc)
                        (LivecommentResponse.LivestreamDescription lc)
                        (LivecommentResponse.PlaylistURL lc)
                        (LivecommentResponse.ThumbnailURL lc)
                        (LivecommentResponse.StartAt lc)
                        (LivecommentResponse.EndAt lc))
              end
          end
      end
  end.

Definition fallbackImage : string := "../img/NoImage.jpg".

Section Handlers.

(** The collation under which [LIKE] compares characters. *)
Variable collate : ascii -> ascii -> bool.

(** [os.ReadFile]: the bytes of the file at a path, or an error. *)
Variable ReadFile : string -> Result error (list byte).

(** The rows of a [SELECT ... ORDER BY created_at DESC] in the order the
    engine returns them.  The statement names no second sort key, so the
    order among rows of one [created_at] is the engine's. *)
Variable order_by_created_at_desc :
  list LivecommentModel.t -> list LivecommentModel.t.

(** Whether [dbConn], which is opened in a file that is not at hand, is in
    the unsafe mode of sqlx.  In that mode a scan passes over a column that
    has no field in the destination; otherwise it refuses the result. *)
Variable unsafe : bool.

(** ** Profiles *)

(** [sha256.Sum256(image)] printed with [%x]. *)
Definition iconHash (image : list byte) : string :=
  Sprintf_x (SHA256.Sum256 image).

Definition fillUserResponse (db : DB) (userModel : UserModel.t)
    : Result error User.t :=
  match theme_of db (UserModel.ID userModel) with
  | None => Err ErrNoRows
  | Some themeModel =>
      let image :=
        match icon_of db (UserModel.ID userModel) with
        | Some image => Ok image
        | None => ReadFile fallbackImage
        end in
      match image with
      | Err err => Err err
      | Ok image =>
          Ok (User.mk (UserModel.ID userModel) (UserModel.Name userModel)
                      (UserModel.DisplayName userModel)
                      (UserModel.Description userModel)
                      (Theme.mk (ThemeModel.ID themeModel)
                                (ThemeModel.DarkMode themeModel))
                      (iconHash image))
      end
  end.

(** [SELECT t.id, t.dark_mode, COALESCE(i.image, '') AS image FROM themes t
     LEFT JOIN icons i ON t.user_id = i.user_id WHERE t.user_id = ?],
    scanned into the three variables; the fallback image is read when the
    statement has no row, which is when the user has no theme. *)
Definition fillUserResponseForRegisterHandler (db : DB) (userModel : UserModel.t)
    : Result error User.t :=
  let row :=
    match theme_of db (UserModel.ID userModel) with
    | Some t =>
        Ok (Theme.mk (ThemeModel.ID t) (ThemeModel.DarkMode t),
            COALESCE (icon_of db (ThemeModel.UserID t)))
    | None =>
        match ReadFile fallbackImage with
        | Ok image => Ok (Theme.mk 0 false, image)
        | Err err => Err err
        end
    end in
  match row with
  | Err err => Err err
  | Ok (theme, image) =>
      Ok (User.mk (UserModel.ID userModel) (UserModel.Name userModel)
                  (UserModel.DisplayName userModel)
                  (UserModel.Description userModel)
                  theme (iconHash image))
  end.

(** The tail that [fetchUserDetailsByName] and [fetchUserDetailsByID]
    share: the row of [users] joined to [themes] and [icons], scanned,
    and the hash of the image. *)
Definition fetchUserDetails (db : DB) (row : option UserModel.t)
    : Result error User.t :=
  match row with
  | None => Err (wrapError "failed to scan user details: " ErrNoRows)
  | Some u =>
      match theme_of db (UserModel.ID u) with
      | None => Err (wrapError "failed to scan user details: " scan_NULL)
      | Some t =>
          let image := COALESCE (icon_of db (UserModel.ID u)) in
          let image :=
            if (List.length image =? 0)%nat
            then ReadFile fallbackImage
            else Ok image in
          match image with
          | Err err => Err (wrapError "failed to read fallback image: " err)
          | Ok image =>
              Ok (User.mk (UserModel.ID u) (UserModel.Name u)
                          (UserModel.DisplayName u) (UserModel.Description u)
                          (Theme.mk (ThemeModel.ID t) (ThemeModel.DarkMode t))
                          (iconHash image))
          end
      end
  end.

Definition fetchUserDetailsByName (db : DB) (username : string)
    : Result error User.t :=
  fetchUserDetails db (user_by_name db username).

Definition fetchUserDetailsByID (db : DB) (userID : Z)
    : Result error User.t :=
  fetchUserDetails db (user_by_id db userID).

(** Here the fallback image is read when the query fails with an error
    other than [sql.ErrNoRows], which in this model is the scan of the
    NULL theme of a user without one; the columns of [users] are scanned
    before it.  A row that scans is hashed as it is. *)
Definition fetchUserDetailsByIDForReaction (db : DB) (userID : Z)
    : Result error User.t :=
  match user_by_id db userID with
  | None => Err ErrNoRows
  | Some u =>
      match theme_of db (UserModel.ID u) with
      | None =>
          match ReadFile fallbackImage with
          | Err err => Err err
          | Ok image =>
              Ok (User.mk (UserModel.ID u) (UserModel.Name u)
                          (UserModel.DisplayName u) (UserModel.Description u)
                          (Theme.mk 0 false) (iconHash image))
          end
      | Some t =>
          Ok (User.mk (UserModel.ID u) (UserModel.Name u)
                      (UserModel.DisplayName u) (UserModel.Description u)
                      (Theme.mk (ThemeModel.ID t) (ThemeModel.DarkMode t))
                      (iconHash (COALESCE (icon_of db (UserModel.ID u)))))
      end
  end.

(** [if len(image) == 0 { image, err = os.ReadFile(fallbackImage) }] *)
Definition image_or_fallback (image : list byte) : Result error (list byte) :=
  if (List.length image =? 0)%nat then ReadFile fallbackImage else Ok image.

Definition fillLivecommentResponse (r : LivecommentResponse.t)
    : Result error Livecomment.t :=
  match image_or_fallback (LivecommentResponse.UserImage r) with
  | Err err => Err err
  | Ok image =>
      let commentOwner :=
        User.mk (LivecommentResponse.UserID r) (LivecommentResponse.Username r)
                (LivecommentResponse.DisplayName r)
                (LivecommentResponse.UserDescription r)
                (Theme.mk (LivecommentResponse.ThemeID r)
                          (LivecommentResponse.DarkMode r))
                (iconHash image) in
      let livestream :=
        Livestream.mk (LivecommentResponse.LivestreamID r) commentOwner
                      (LivecommentResponse.LivestreamTitle r)
                      (LivecommentResponse.LivestreamDescription r)
                      (LivecommentResponse.PlaylistURL r)
                      (LivecommentResponse.ThumbnailURL r)
                      (LivecommentResponse.StartAt r)
                      (LivecommentResponse.EndAt r) in
      Ok (Livecomment.mk (LivecommentResponse.LivecommentID r) commentOwner
                         livestream (LivecommentResponse.Comment r)
                         (LivecommentResponse.Tip r)
                         (LivecommentResponse.LivecommentCreatedAt r))
  end.

Definition fillLivecommentReportResponse (r : LivecommentReportResponse.t)
    : Result error LivecommentReport.t :=
  match image_or_fallback (LivecommentReportResponse.ReporterImage r) with
  | Err err => Err err
  | Ok reporterImage =>
      let reporter :=
        User.mk (LivecommentReportResponse.ReporterID r)
                (LivecommentReportResponse.ReporterName r)
                (LivecommentReportResponse.ReporterDisplayName r)
                (LivecommentReportResponse.ReporterDescription r)
                (Theme.mk (LivecommentReportResponse.ReporterThemeID r)
                          (LivecommentReportResponse.ReporterDarkMode r))
                (iconHash reporterImage) in
      match image_or_fallback (LivecommentReportResponse.LCUserImage r) with
      | Err err => Err err
      | Ok lcUserImage =>
          let commentOwner :=
            User.mk (LivecommentReportResponse.LCUserID r)
                    (LivecommentReportResponse.LCUsername r)
                    (LivecommentReportResponse.LCUserDisplayName r)
                    (LivecommentReportResponse.LCUserDescription r)
                    (Theme.mk (LivecommentReportResponse.LCUserThemeID r)
                              (LivecommentReportResponse.LCUserDarkMode r))
                    (iconHash lcUserImage) in
          let livestream :=
            Livestream.mk (LivecommentReportResponse.LivestreamID r)
                          commentOwner
                          (LivecommentReportResponse.LivestreamTitle r)
                          (LivecommentReportResponse.LivestreamDescription r)
                          (LivecommentReportResponse.PlaylistURL r)
                          (LivecommentReportResponse.ThumbnailURL r)
                          (LivecommentReportResponse.StartAt r)
                          (LivecommentReportResponse.EndAt r) in
          let livecomment :=
            Livecomment.mk (LivecommentReportResponse.LivecommentID r)
                           commentOwner livestream
                           (LivecommentReportResponse.Comment r)
                           (LivecommentReportResponse.Tip r)
                           (LivecommentReportResponse.LivecommentCreatedAt r) in
          Ok (LivecommentReport.mk (LivecommentReportResponse.ReportID r)
                                   reporter livecomment
                                   (LivecommentReportResponse.ReportCreatedAt r))
      end
  end.

(** ** Statements *)

(** The statement of [getLivecommentData] selects [tag_id] and [tag_name],
    and [LivecommentResponse] has no field for them. *)
Definition getLivecommentData (db : DB) (livecommentID : Z)
    : Result error LivecommentResponse.t :=
  if unsafe
  then join_livecomment db livecommentID
  else Err (errorString
              "missing destination name tag_id in *main.LivecommentResponse").

(** A Go error of a statement, as the HTTP error of the handler. *)
Definition try {A} (r : Result error A) (on_error : error -> HTTPError)
    : Tx A :=
  fun db =>
    match r with
    | Ok a => Ok (a, db)
    | Err err => Err (on_error err)
    end.

Definition InternalServerError (prefix : string) (err : error) : HTTPError :=
  NewHTTPError StatusInternalServerError (prefix ++ Error err).

(** [SELECT * FROM livestreams WHERE id = ?], one row or 404. *)
Definition get_livestream (livestreamID : Z) : Tx LivestreamModel.t :=
  fun db =>
    match livestream_by_id db livestreamID with
    | Some livestreamModel => Ok (livestreamModel, db)
    | None => Err (NewHTTPError StatusNotFound "livestream not found")
    end.

(** [SELECT * FROM livecomments WHERE id = ?], one row or 404. *)
Definition get_livecomment (livecommentID : Z) : Tx LivecommentModel.t :=
  fun db =>
    match livecomment_by_id db livecommentID with
    | Some livecommentModel => Ok (livecommentModel, db)
    | None => Err (NewHTTPError StatusNotFound "livecomment not found")
    end.

(** [getLivecommentData] and [fillLivecommentResponse] with the error
    returns that follow them in the handlers. *)
Definition livecomment_response (livecommentID : Z) : Tx Livecomment.t :=
  livecommentResponse <-
    (fun db =>
       try (getLivecommentData db livecommentID)
           (fun err =>
              if is_ErrNoRows err
              then NewHTTPError StatusNotFound
                     "not found livecomment with the specified ID"
              else InternalServerError "failed to get livecomment: " err)
           db) ;;
  try (fillLivecommentResponse livecommentResponse)
      (InternalServerError "failed to fill livecomment: ").

(** ** GET /api/livestream/:livestream_id/livecomment *)

(** [SELECT * FROM livecomments WHERE livestream_id = ?
     ORDER BY created_at DESC], with [LIMIT n] appended when the request
    has a limit.  MySQL takes a non-negative integer constant after
    [LIMIT], and a negative one is a syntax error of the statement.  The
    order of rows of one [created_at] is the engine's choice for the
    statement at hand: two statements are two applications of an engine,
    and a property that compares them takes an engine for each. *)
Definition select_livecomments (livestreamID : Z) (limit : option Z)
    (db : DB) : Result error (list LivecommentModel.t) :=
  let rows :=
    order_by_created_at_desc
      (filter (fun lc => LivecommentModel.LivestreamID lc =? livestreamID)
              (livecomments db)) in
  match limit with
  | None => Ok rows
  | Some n =>
      if n <? 0
      then Err (errorString "Error 1064: You have an error in your SQL syntax")
      else Ok (firstn (Z.to_nat n) rows)
  end.

Definition getLivecommentsHandler (c : Context) (now : Z)
    : Tx (Status * list Livecomment.t) :=
  verifyUserSession c now ;;
  livestreamID <- atoi_or_bad_request (Param c "livestream_id")
                    "livestream_id in path must be integer" ;;
  limit <- (if String.eqb (QueryParam c "limit") ""
            then ret None
            else limit <- atoi_or_bad_request (QueryParam c "limit")
                            "limit query parameter must be integer" ;;
                 ret (Some limit)) ;;
  selected <-
    (fun db =>
       match select_livecomments livestreamID limit db with
       | Ok livecommentModels => Ok (Some livecommentModels, db)
       | Err err =>
           if is_ErrNoRows err
           then Ok (None, db)
           else Err (InternalServerError "failed to get livecomments: " err)
       end) ;;
  match selected with
  | None => ret (StatusOK, [])
  | Some livecommentModels =>
      livecomments <-
        map_range livecommentModels
          (fun m => livecomment_response (LivecommentModel.ID m)) ;;
      ret (StatusOK, livecomments)
  end.

(** ** POST /api/livestream/:livestream_id/livecomment *)

(** [SELECT id, user_id, livestream_id, word FROM ng_words
     WHERE user_id = ? AND livestream_id = ?] *)
Definition select_ng_words_of_owner (userID livestreamID : Z) (db : DB)
    : list NGWord.t :=
  filter (fun w => (NGWord.UserID w =? userID)
                   && (NGWord.LivestreamID w =? livestreamID))
         (ng_words db).

Definition insert_livecomment (m : LivecommentModel.t) : Tx Z :=
  fun db =>
    let id := livecomments_auto_increment db in
    Ok (id,
        set_livecomments
          (livecomments db ++
           [LivecommentModel.mk id (LivecommentModel.UserID m)
              (LivecommentModel.LivestreamID m) (LivecommentModel.Comment m)
              (LivecommentModel.Tip m) (LivecommentModel.CreatedAt m)])
          (id + 1) db).

Definition postLivecommentHandler (c : Context)
    (body : option PostLivecommentRequest.t) (now : Z)
    : Tx (Status * Livecomment.t) :=
  verifyUserSession c now ;;
  livestreamID <- atoi_or_bad_request (Param c "livestream_id")
                    "livestream_id in path must be integer" ;;
  let userID := session_userID c in
  req <- decode_or_bad_request body ;;
  livestreamModel <- get_livestream livestreamID ;;
  ngwords <- query (select_ng_words_of_owner
                      (LivestreamModel.UserID livestreamModel)
                      (LivestreamModel.ID livestreamModel)) ;;
  for_range ngwords
    (fun ngword =>
       if 1 <=? hitSpam collate (PostLivecommentRequest.Comment req)
                        (NGWord.Word ngword)
       then fail StatusBadRequest "このコメントがスパム判定されました"
       else ret tt) ;;
  livecommentID <-
    insert_livecomment
      (LivecommentModel.mk 0 userID livestreamID
         (PostLivecommentRequest.Comment req)
         (PostLivecommentRequest.Tip req) now) ;;
  livecomment <- livecomment_response livecommentID ;;
  ret (StatusCreated, livecomment).

(** ** POST /api/livestream/:livestream_id/livecomment/:livecomment_id/report *)

Definition insert_livecomment_report (m : LivecommentReportModel.t) : Tx Z :=
  fun db =>
    let id := livecomment_reports_auto_increment db in
    Ok (id,
        set_livecomment_reports
          (livecomment_reports db ++
           [LivecommentReportModel.mk id (LivecommentReportModel.UserID m)
              (LivecommentReportModel.LivestreamID m)
              (LivecommentReportModel.LivecommentID m)
              (LivecommentReportModel.CreatedAt m)])
          (id + 1) db).

Definition reportLivecommentHandler (c : Context) (now : Z)
    : Tx (Status * LivecommentReport.t) :=
  verifyUserSession c now ;;
  livestreamID <- atoi_or_bad_request (Param c "livestream_id")
                    "livestream_id in path must be integer" ;;
  livecommentID <- atoi_or_bad_request (Param c "livecomment_id")
                     "livecomment_id in path must be integer" ;;
  let userID := session_userID c in
  get_livestream livestreamID ;;
  get_livecomment livecommentID ;;
  reportID <-
    insert_livecomment_report
      (LivecommentReportModel.mk 0 userID livestreamID livecommentID now) ;;
  reportResponse <-
    (fun db =>
       try (getLivecommentReportData db reportID)
           (fun err =>
              if is_ErrNoRows err
              then NewHTTPError StatusNotFound
                     "not found livecomment report with the specified ID"
              else InternalServerError "failed to get livecomment report: " err)
           db) ;;
  report <- try (fillLivecommentReportResponse reportResponse)
                (InternalServerError "failed to fill livecomment report: ") ;;
  ret (StatusCreated, report).

(** ** POST /api/livestream/:livestream_id/moderate *)

(** [SELECT * FROM livestreams WHERE id = ? AND user_id = ?] *)
Definition select_owned_livestreams (livestreamID userID : Z) (db : DB)
    : list LivestreamModel.t :=
  filter (fun ls => (LivestreamModel.ID ls =? livestreamID)
                    && (LivestreamModel.UserID ls =? userID))
         (livestreams db).

Definition insert_ng_word (w : NGWord.t) : Tx Z :=
  fun db =>
    let id := ng_words_auto_increment db in
    Ok (id,
        set_ng_words
          (ng_words db ++
           [NGWord.mk id (NGWord.UserID w) (NGWord.LivestreamID w)
                      (NGWord.Word w) (NGWord.CreatedAt w)])
          (id + 1) db).

(** [SELECT * FROM ng_words WHERE livestream_id = ?] *)
Definition select_ng_words_of_livestream (livestreamID : Z) (db : DB)
    : list NGWord.t :=
  filter (fun w => NGWord.LivestreamID w =? livestreamID) (ng_words db).

(** [DELETE FROM livecomments WHERE id = ? AND livestream_id = ? AND
     (SELECT COUNT( * ) FROM ... ON texts.text LIKE patterns.pattern) >= 1],
    with the text and the word bound from the Go side. *)
Definition delete_livecomment (id livestreamID : Z) (text word : string)
    (db : DB) : DB :=
  set_livecomments
    (filter (fun row =>
               negb ((LivecommentModel.ID row =? id)
                     && (LivecommentModel.LivestreamID row =? livestreamID)
                     && (1 <=? hitSpam collate text word)))
            (livecomments db))
    (livecomments_auto_increment db) db.

Definition moderateHandler (c : Context) (body : option ModerateRequest.t)
    (now : Z) : Tx (Status * list (string * Z)) :=
  verifyUserSession c now ;;
  livestreamID <- atoi_or_bad_request (Param c "livestream_id")
                    "livestream_id in path must be integer" ;;
  let userID := session_userID c in
  req <- decode_or_bad_request body ;;
  ownedLivestreams <- query (select_owned_livestreams livestreamID userID) ;;
  (if (List.length ownedLivestreams =? 0)%nat
   then fail StatusBadRequest
          "A streamer can't moderate livestreams that other streamers own"
   else ret tt) ;;
  wordID <- insert_ng_word
              (NGWord.mk 0 userID livestreamID (ModerateRequest.NGWord req) now) ;;
  ngwords <- query (select_ng_words_of_livestream livestreamID) ;;
  for_range ngwords
    (fun ngword =>
       livecomments <- query livecomments ;;
       for_range livecomments
         (fun livecomment =>
            exec (delete_livecomment (LivecommentModel.ID livecomment)
                    livestreamID (LivecommentModel.Comment livecomment)
                    (NGWord.Word ngword)))) ;;
  ret (StatusCreated, [("word_id", wordID)]).

(** ** POST /api/icon *)

Definition postIconHandler (c : Context) (body : option PostIconRequest.t)
    (now : Z) : Tx (Status * PostIconResponse.t) :=
  verifyUserSession c now ;;
  let userID := session_userID c in
  req <- decode_or_bad_request body ;;
  exec (fun db =>
          set_icons
            (filter (fun i => negb (IconModel.UserID i =? userID)) (icons db))
            (icons_auto_increment db) db) ;;
  iconID <-
    (fun db =>
       let id := icons_auto_increment db in
       Ok (id,
           set_icons
             (icons db ++ [IconModel.mk id userID (PostIconRequest.Image req)])
             (id + 1) db)) ;;
  ret (StatusCreated, PostIconResponse.mk iconID).

(** ** GET /api/user/me and GET /api/user/:username *)

Definition user_details (r : Result error User.t) (not_found : string)
    : Tx (Status * User.t) :=
  user <- try r
            (fun err =>
               if is_ErrNoRows err
               then NewHTTPError StatusNotFound not_found
               else InternalServerError "failed to fetch user details: " err) ;;
  ret (StatusOK, user).

Definition getMeHandler (c : Context) (now : Z) : Tx (Status * User.t) :=
  verifyUserSession c now ;;
  fun db =>
    user_details (fetchUserDetailsByID db (session_userID c))
                 "not found user that has the userid in session" db.

Definition getUserHandler (c : Context) (now : Z) : Tx (Status * User.t) :=
  verifyUserSession c now ;;
  fun db =>
    user_details (fetchUserDetailsByName db (Param c "username"))
                 "not found user that has the given username" db.

End Handlers.

(** ** An engine for [ORDER BY created_at DESC]

    Insertion into a list kept in descending order of [created_at], a row
    going behind the rows of the same [created_at] that came before it. *)
Fixpoint insert_by_created_at (x : LivecommentModel.t)
    (l : list LivecommentModel.t) : list LivecommentModel.t :=
  match l with
  | [] => [x]
  | y :: l' =>
      if LivecommentModel.CreatedAt y <? LivecommentModel.CreatedAt x
      then x :: y :: l'
      else y :: insert_by_created_at x l'
  end.

Definition stable_order (rows : list LivecommentModel.t)
    : list LivecommentModel.t :=
  fold_left (fun sorted row => insert_by_created_at row sorted) rows [].

(** ** Vocabulary of the properties *)

(** The request carries a session that [verifyUserSession] accepts at
    [now], for the user [userID]. *)
Definition authenticated (c : Context) (now userID : Z) : Prop :=
  exists sess expires,
    session c = Some sess /\
    Values sess defaultSessionExpiresKey = Some expires /\
    Values sess defaultUserIDKey = Some userID /\
    now <= expires.

(** [id] is the primary key of [livecomments]. *)
Definition unique_ids (db : DB) : Prop :=
  NoDup (map LivecommentModel.ID (livecomments db)).

(** [userID] owns the stream [livestreamID]. *)
Definition owns (db : DB) (userID livestreamID : Z) : Prop :=
  exists ls, In ls (livestreams db) /\
             LivestreamModel.ID ls = livestreamID /\
             LivestreamModel.UserID ls = userID.

(** Every word is stored under the id of the owner of its stream, as
    [moderateHandler] stores it: the row carries the id of the session,
    after the check that this user owns the stream. *)
Definition registered_by_owner (db : DB) : Prop :=
  forall w, In w (ng_words db) ->
            owns db (NGWord.UserID w) (NGWord.LivestreamID w).

(** The comments of one stream, in the order of the table. *)
Definition comments_of (livestreamID : Z) (db : DB) : list LivecommentModel.t :=
  filter (fun row => LivecommentModel.LivestreamID row =? livestreamID)
         (livecomments db).

(** The comment is of the stream and its body matches one of the words. *)
Definition purged (collate : ascii -> ascii -> bool) (livestreamID : Z)
    (words : list NGWord.t) (row : LivecommentModel.t) : bool :=
  (LivecommentModel.LivestreamID row =? livestreamID)
  && existsb (fun w => isSpam collate (LivecommentModel.Comment row)
                              (NGWord.Word w))
             words.

(** The user has a row in [users] and a theme. *)
Definition has_profile (db : DB) (userID : Z) : Prop :=
  exists u t, user_by_id db userID = Some u /\
              theme_of db (UserModel.ID u) = Some t.

(** The comment joins to its author, the author's theme and its stream. *)
Definition joinable (db : DB) (lc : LivecommentModel.t) : Prop :=
  has_profile db (LivecommentModel.UserID lc) /\
  exists ls, livestream_by_id db (LivecommentModel.LivestreamID lc) = Some ls.

(** Every comment joins to its author and its stream. *)
Definition references_hold (db : DB) : Prop :=
  forall lc, In lc (livecomments db) -> joinable db lc.

(** The row that [postLivecommentHandler] inserts. *)
Definition new_livecomment (db : DB) (userID livestreamID : Z)
    (req : PostLivecommentRequest.t) (now : Z) : LivecommentModel.t :=
  LivecommentModel.mk (livecomments_auto_increment db) userID livestreamID
    (PostLivecommentRequest.Comment req) (PostLivecommentRequest.Tip req) now.

(** The message of the rejection of a comment. *)
Definition spam_message : string := "このコメントがスパム判定されました".

(** The row that [reportLivecommentHandler] inserts. *)
Definition new_report (db : DB) (userID livestreamID livecommentID now : Z)
    : LivecommentReportModel.t :=
  LivecommentReportModel.mk (livecomment_reports_auto_increment db) userID
    livestreamID livecommentID now.

(** [x] may stand before [y] in descending order of [created_at]. *)
Definition created_desc (x y : LivecommentModel.t) : Prop :=
  LivecommentModel.CreatedAt y <= LivecommentModel.CreatedAt x.

(** What [ORDER BY created_at DESC] asks of an engine: the same rows, in
    descending order of [created_at]. *)
Definition orders_by_created_at_desc
    (order : list LivecommentModel.t -> list LivecommentModel.t) : Prop :=
  forall rows,
    Permutation rows (order rows) /\ StronglySorted created_desc (order rows).

(** The order of the specification: later comments first, and of two
    comments of one second the one with the greater id first. *)
Definition newest_first (x y : Livecomment.t) : Prop :=
  Livecomment.CreatedAt y < Livecomment.CreatedAt x \/
  (Livecomment.CreatedAt y = Livecomment.CreatedAt x /\
   Livecomment.ID y < Livecomment.ID x).

(** The response value [r] shows the row [lc]. *)
Definition shows (lc : LivecommentModel.t) (r : Livecomment.t) : Prop :=
  Livecomment.ID r = LivecommentModel.ID lc /\
  Livecomment.Comment r = LivecommentModel.Comment lc /\
  Livecomment.Tip r = LivecommentModel.Tip lc /\
  Livecomment.CreatedAt r = LivecommentModel.CreatedAt lc /\
  User.ID (Livecomment.User r) = LivecommentModel.UserID lc.

(** The bytes the specification has hashed for a user: the avatar, or the
    fallback image when there is no avatar or an empty one. *)
Definition used_avatar (fallback : list byte) (avatar : option (list byte))
    : list byte :=
  match avatar with
  | Some (x :: bytes) => x :: bytes
  | Some [] => fallback
  | None => fallback
  end.

(** ** A small instance

    Two users, a stream each, the three comments of the scenario of the
    specification on the first stream and a comment on the second. *)
Module Sample.

Definition fallback : list byte := [xff; xd8; xff; xe0].

Definition ReadFile (path : string) : Result error (list byte) :=
  if String.eqb path fallbackImage
  then Ok fallback
  else Err (errorString "open: no such file or directory").

Definition lookup (pairs : list (string * string)) (name : string) : string :=
  match find (fun p => String.eqb (fst p) name) pairs with
  | Some p => snd p
  | None => ""
  end.

Definition now : Z := 1000.

(** A request in a session of [userID] that is good until 2000. *)
Definition request (userID : Z) (params queries : list (string * string))
    : Context :=
  {| session :=
       Some {| Values := fun key =>
                 if String.eqb key defaultSessionExpiresKey then Some 2000
                 else if String.eqb key defaultUserIDKey then Some userID
                 else None |};
     Param := lookup params;
     QueryParam := lookup queries |}.

Definition streamer : UserModel.t := UserModel.mk 1 "u" "U" "streamer" "x".
Definition viewer : UserModel.t := UserModel.mk 2 "v" "V" "viewer" "y".

Definition first : LivestreamModel.t :=
  LivestreamModel.mk 1 1 "S" "first" "p1" "t1" 100 5000.
Definition second : LivestreamModel.t :=
  LivestreamModel.mk 2 2 "T" "second" "p2" "t2" 100 5000.

Definition hello : LivecommentModel.t :=
  LivecommentModel.mk 1 2 1 "hello world" 0 900.
Definition free_banana : LivecommentModel.t :=
  LivecommentModel.mk 2 2 1 "free banana today" 0 900.
Definition bananas : LivecommentModel.t :=
  LivecommentModel.mk 3 2 1 "bananas are great" 0 910.
Definition elsewhere : LivecommentModel.t :=
  LivecommentModel.mk 4 1 2 "banana split" 0 920.

Definition db : DB :=
  {| users := [streamer; viewer];
     themes := [ThemeModel.mk 1 1 true; ThemeModel.mk 2 2 false];
     icons := [IconModel.mk 1 1 [x01; x02; x03]];
     livestreams := [first; second];
     ng_words := [];
     livecomments := [hello; free_banana; bananas; elsewhere];
     livecomment_reports := [];
     icons_auto_increment := 2;
     ng_words_auto_increment := 1;
     livecomments_auto_increment := 5;
     livecomment_reports_auto_increment := 1 |}.

(** [userID] registers [word] for stream 1. *)
Definition moderate (userID : Z) (word : string) :=
  run (moderateHandler binary
         (request userID [("livestream_id", "1")] [])
         (Some (ModerateRequest.mk word)) now) db.


(** The tables with one word on stream 1, stored under user 2, who does
    not own the stream. *)
Definition words_db : DB :=
  set_ng_words [NGWord.mk 1 2 1 "spam" 950] 2 db.

(** [userID] submits [comment] to stream 1. *)
Definition post (unsafe : bool) (userID : Z) (comment : string) (db : DB) :=
  run (postLivecommentHandler binary ReadFile unsafe
         (request userID [("livestream_id", "1")] [])
         (Some (PostLivecommentRequest.mk comment 0)) now) db.

(** User 2 lists the comments of a stream, on an engine that keeps rows of
    one timestamp in the order of the table. *)
Definition list (unsafe : bool) (livestream_id limit : string) (db : DB) :=
  run (getLivecommentsHandler ReadFile stable_order unsafe
         (request 2 [("livestream_id", livestream_id)] [("limit", limit)])
         now) db.

(** [userID] reports a comment under a stream. *)
Definition report (userID : Z) (livestream_id livecomment_id : string) :=
  run (reportLivecommentHandler ReadFile
         (request userID [("livestream_id", livestream_id);
                          ("livecomment_id", livecomment_id)] [])
         now) db.

(** The tables after user 1 has posted an icon of no bytes. *)
Definition icon_db : DB :=
  snd (run (postIconHandler (request 1 [] []) (Some (PostIconRequest.mk [])) now)
           db).

End Sample.

(** * The other handlers of the file *)

(** ** GET /api/user/:username/icon

    What the handler hands to echo: the file at a path, for [c.File], or
    bytes with a status and a content type, for [c.Blob].  The handler
    reads no session. *)
Inductive IconResponse :=
| File (path : string)
| Blob (code : Status) (contentType : string) (b : list byte).

Definition getIconHandler (c : Context) : Tx IconResponse :=
  let username := Param c "username" in
  fun db =>
    match user_by_name db username with
    | None =>
        Err (NewHTTPError StatusNotFound
               "not found user that has the given username")
    | Some user =>
        match icon_of db (UserModel.ID user) with
        | None => Ok (File fallbackImage, db)
        | Some image => Ok (Blob StatusOK "image/jpeg" image, db)
        end
    end.

(** ** GET /api/livestream/:livestream_id/ngwords *)

Section Ngwords.

(** The rows of [SELECT * FROM ng_words WHERE user_id = ? AND
    livestream_id = ? ORDER BY created_at DESC] in the order the engine
    returns them. *)
Variable order_ng_words : list NGWord.t -> list NGWord.t.

Definition getNgwords (c : Context) (now : Z) : Tx (Status * list NGWord.t) :=
  verifyUserSession c now ;;
  let userID := session_userID c in
  livestreamID <- atoi_or_bad_request (Param c "livestream_id")
                    "livestream_id in path must be integer" ;;
  ngWords <- query (fun db =>
                      order_ng_words
                        (select_ng_words_of_owner userID livestreamID db)) ;;
  ret (StatusOK, ngWords).

End Ngwords.

Fixpoint insert_word_by_created_at (x : NGWord.t) (l : list NGWord.t)
    : list NGWord.t :=
  match l with
  | [] => [x]
  | y :: l' =>
      if NGWord.CreatedAt y <? NGWord.CreatedAt x
      then x :: y :: l'
      else y :: insert_word_by_created_at x l'
  end.

(** An engine for the order of [getNgwords], as [stable_order] is for
    the comments. *)
Definition stable_word_order (rows : list NGWord.t) : list NGWord.t :=
  fold_left (fun sorted row => insert_word_by_created_at row sorted) rows [].

(** Another engine for the order of the comments: rows of one
    [created_at] come out in the reverse of the order of [stable_order]. *)
Definition reverse_tie_order (rows : list LivecommentModel.t)
    : list LivecommentModel.t :=
  stable_order (rev rows).

(** ** More vocabulary *)

(** A step that, when it succeeds, leaves [view] of the tables as it was. *)
Definition preserves {T A} (view : DB -> T) (m : Tx A) : Prop :=
  forall db a db', m db = Ok (a, db') -> view db' = view db.

(** The answer is a refusal for want of a session, and nothing is written. *)
Definition refused {A} (out : Result HTTPError A * DB) (db : DB) : Prop :=
  exists e, out = (Err e, db) /\
            (Code e = StatusUnauthorized \/ Code e = StatusForbidden).

(** The tables no handler of this file writes. *)
Definition reference_tables (db : DB) :=
  (users db, themes db, livestreams db).

(** All but the comments and their counter. *)
Definition all_but_livecomments (db : DB) :=
  (reference_tables db, icons db, icons_auto_increment db,
   ng_words db, ng_words_auto_increment db,
   livecomment_reports db, livecomment_reports_auto_increment db).

(** All but the reports and their counter. *)
Definition all_but_reports (db : DB) :=
  (reference_tables db, icons db, icons_auto_increment db,
   ng_words db, ng_words_auto_increment db,
   livecomments db, livecomments_auto_increment db).

(** All but the icons and their counter. *)
Definition all_but_icons (db : DB) :=
  (reference_tables db, ng_words db, ng_words_auto_increment db,
   livecomments db, livecomments_auto_increment db,
   livecomment_reports db, livecomment_reports_auto_increment db).

(** All but the NG words, their counter and the comments. *)
Definition all_but_moderation (db : DB) :=
  (reference_tables db, icons db, icons_auto_increment db,
   livecomments_auto_increment db,
   livecomment_reports db, livecomment_reports_auto_increment db).

(** Every id of a comment is below the next AUTO_INCREMENT value. *)
Definition ids_below_counter (db : DB) : Prop :=
  forall lc, In lc (livecomments db) ->
             LivecommentModel.ID lc < livecomments_auto_increment db.

(** Every id of a report is below the next AUTO_INCREMENT value. *)
Definition report_ids_below_counter (db : DB) : Prop :=
  forall r, In r (livecomment_reports db) ->
            LivecommentReportModel.ID r < livecomment_reports_auto_increment db.

(** The comments have distinct ids below the counter and join to their
    author and their stream. *)
Definition consistent (db : DB) : Prop :=
  unique_ids db /\ ids_below_counter db /\ references_hold db.

(** [id] is the primary key of [livestreams]. *)
Definition unique_livestream_ids (db : DB) : Prop :=
  NoDup (map LivestreamModel.ID (livestreams db)).

(** [x] may stand before [y] in descending order of [created_at]. *)
Definition word_created_desc (x y : NGWord.t) : Prop :=
  NGWord.CreatedAt y <= NGWord.CreatedAt x.

Definition orders_words_by_created_at_desc
    (order : list NGWord.t -> list NGWord.t) : Prop :=
  forall rows,
    Permutation rows (order rows) /\
    StronglySorted word_created_desc (order rows).

(** The number of rows of [icons] of one user. *)
Definition icons_of_user (db : DB) (userID : Z) : nat :=
  List.length (filter (fun i => IconModel.UserID i =? userID) (icons db)).

(** A lower-case hexadecimal digit. *)
Definition is_hex (c : ascii) : bool :=
  existsb (Ascii.eqb c) (list_ascii_of_string "0123456789abcdef").

(** A string of 64 lower-case hexadecimal digits. *)
Definition is_sha256_hex (s : string) : Prop :=
  String.length s = 64%nat /\
  forallb is_hex (list_ascii_of_string s) = true.

(** The request without its query parameter [limit]. *)
Definition without_limit (c : Context) : Context :=
  {| session := session c;
     Param := Param c;
     QueryParam := fun name =>
       if String.eqb name "limit" then "" else QueryParam c name |}.

(** More requests on the tables of [Sample]. *)
Module Demo.

(** A moment after the sessions of [Sample.request] have expired. *)
Definition late : Z := 3000.

Definition icon (username : string) (db : DB) :=
  run (getIconHandler (Sample.request 2 [("username", username)] [])) db.

Definition ngwords (userID : Z) (db : DB) :=
  run (getNgwords stable_word_order
         (Sample.request userID [("livestream_id", "1")] []) Sample.now) db.

(** The tables of [Sample] with a comment on stream 1 whose author has no
    row in [users]. *)
Definition orphan_db : DB :=
  set_livecomments
    (livecomments Sample.db ++ [LivecommentModel.mk 5 9 1 "lost" 0 930]) 6
    Sample.db.

(** The tables of [Sample] without the comment "free banana today": the
    comments of stream 1 that are left have timestamps of their own. *)
Definition no_ties_db : DB :=
  set_livecomments [Sample.hello; Sample.bananas; Sample.elsewhere] 5 Sample.db.

(** The tables of [Sample] without the themes: a user row whose
    [LEFT JOIN themes] finds no partner. *)
Definition no_theme_db : DB :=
  {| users := users Sample.db;
     themes := [];
     icons := icons Sample.db;
     livestreams := livestreams Sample.db;
     ng_words := ng_words Sample.db;
     livecomments := livecomments Sample.db;
     livecomment_reports := livecomment_reports Sample.db;
     icons_auto_increment := icons_auto_increment Sample.db;
     ng_words_auto_increment := ng_words_auto_increment Sample.db;
     livecomments_auto_increment := livecomments_auto_increment Sample.db;
     livecomment_reports_auto_increment :=
       livecomment_reports_auto_increment Sample.db |}.

End Demo.

(** * Properties *)

(** ** The spam match *)

Lemma list_ascii_of_string_app (a b : string) :
  list_ascii_of_string (a ++ b) =
  list_ascii_of_string a ++ list_ascii_of_string b.
Proof.
  induction a as [|c a IH]; simpl; [reflexivity | now rewrite IH].
Qed.

Lemma like_tokens_plain_app (w q : list ascii) :
  forallb (fun c => negb (like_special c)) w = true ->
  like_tokens (w ++ q) = map LikeChar w ++ like_tokens q.
Proof.
  induction w as [|c w IH]; simpl; [reflexivity|].
  intros H. apply andb_true_iff in H as [Hc Hw].
  unfold like_special in Hc.
  rewrite !negb_orb in Hc.
  apply andb_true_iff in Hc as [Hc H3].
  apply andb_true_iff in Hc as [H1 H2].
  apply negb_true_iff in H1, H2, H3.
  rewrite H1, H2, H3. now rewrite IH.
Qed.

Section LikeFacts.

Variable collate : ascii -> ascii -> bool.

Lemma like_many_unfold (p : list like_token) (s : list ascii) :
  like_match collate (LikeMany :: p) s =
  like_match collate p s
  || match s with
     | [] => false
     | _ :: s' => like_match collate (LikeMany :: p) s'
     end.
Proof. destruct s; reflexivity. Qed.

Lemma like_many_spec (p : list like_token) (s : list ascii) :
  like_match collate (LikeMany :: p) s = true <->
  exists pre post, s = pre ++ post /\ like_match collate p post = true.
Proof.
  induction s as [|x s IH]; rewrite like_many_unfold.
  - rewrite orb_false_r. split.
    + intros H. now exists [], [].
    + intros (pre & post & E & H).
      symmetry in E. apply app_eq_nil in E as [_ ->]. exact H.
  - rewrite orb_true_iff, IH. split.
    + intros [H | (pre & post & -> & H)].
      * now exists [], (x :: s).
      * now exists (x :: pre), post.
    + intros (pre & post & E & H). destruct pre as [|y pre]; simpl in E.
      * left. now subst post.
      * right. injection E as _ ->. now exists pre, post.
Qed.

Lemma like_chars_spec (w : list ascii) (q : list like_token) (s : list ascii) :
  like_match collate (map LikeChar w ++ q) s = true <->
  exists mid rest,
    s = mid ++ rest /\ collate_eq collate mid w = true /\
    like_match collate q rest = true.
Proof.
  revert s. induction w as [|c w IH]; intros s; simpl.
  - split.
    + intros H. now exists [], s.
    + intros (mid & rest & -> & E & H). destruct mid; [exact H | discriminate].
  - destruct s as [|x s].
    + split; [discriminate|].
      intros (mid & rest & E & Hm & _).
      destruct mid; [discriminate | discriminate].
    + rewrite andb_true_iff, IH. split.
      * intros (Hx & mid & rest & -> & Hm & Hr).
        exists (x :: mid), rest. simpl. now rewrite Hx, Hm.
      * intros (mid & rest & E & Hm & Hr).
        destruct mid as [|y mid]; [discriminate|].
        simpl in E, Hm. injection E as -> ->.
        apply andb_true_iff in Hm as [Hx Hm].
        split; [exact Hx|]. now exists mid, rest.
Qed.

Lemma like_many_last (s : list ascii) :
  like_match collate [LikeMany] s = true.
Proof.
  induction s as [|x s IH]; [reflexivity|].
  rewrite like_many_unfold, IH. apply orb_true_r.
Qed.

Lemma isSpam_LIKE (comment word : string) :
  isSpam collate comment word = LIKE collate comment (CONCAT_pattern word).
Proof.
  unfold isSpam, hitSpam.
  now destruct (LIKE collate comment (CONCAT_pattern word)).
Qed.

(** For a phrase that holds none of [%], [_] and the backslash, the
    pattern [%phrase%] matches the bodies in which the phrase occurs. *)
Lemma isSpam_plain (body phrase : string) :
  plain phrase = true ->
  isSpam collate body phrase = true <-> occurs_in collate phrase body.
Proof.
  intros Hp. rewrite isSpam_LIKE. unfold LIKE, CONCAT_pattern.
  change (list_ascii_of_string ("%" ++ phrase ++ "%"))
    with ("%"%char :: list_ascii_of_string (phrase ++ "%")).
  change (like_tokens ("%"%char :: ?l)) with (LikeMany :: like_tokens l).
  rewrite list_ascii_of_string_app.
  rewrite like_tokens_plain_app by exact Hp.
  change (like_tokens (list_ascii_of_string "%")) with [LikeMany].
  rewrite like_many_spec. unfold occurs_in. split.
  - intros (pre & post & E & H).
    apply like_chars_spec in H as (mid & rest & -> & Hm & _).
    exists (string_of_list_ascii pre), (string_of_list_ascii mid),
           (string_of_list_ascii rest).
    rewrite list_ascii_of_string_of_list_ascii. split; [|exact Hm].
    rewrite <- (string_of_list_ascii_of_string body), E.
    rewrite <- (list_ascii_of_string_of_list_ascii pre) at 1.
    rewrite <- (list_ascii_of_string_of_list_ascii mid) at 1.
    rewrite <- (list_ascii_of_string_of_list_ascii rest) at 1.
    rewrite <- !list_ascii_of_string_app.
    apply string_of_list_ascii_of_string.
  - intros (pre & mid & post & -> & Hm).
    exists (list_ascii_of_string pre),
           (list_ascii_of_string mid ++ list_ascii_of_string post).
    rewrite !list_ascii_of_string_app. split; [reflexivity|].
    apply like_chars_spec.
    exists (list_ascii_of_string mid), (list_ascii_of_string post).
    repeat split; [exact Hm | apply like_many_last].
Qed.

End LikeFacts.

Lemma collate_eq_binary (s t : list ascii) :
  collate_eq binary s t = true <-> s = t.
Proof.
  revert t. induction s as [|x s IH]; intros [|c t]; simpl;
    try (split; [discriminate | discriminate]); [tauto|].
  unfold binary at 1. rewrite andb_true_iff, Ascii.eqb_eq, IH.
  split; [intros [-> ->]; reflexivity | intros E; injection E; auto].
Qed.

Lemma list_ascii_of_string_inj (s t : string) :
  list_ascii_of_string s = list_ascii_of_string t -> s = t.
Proof.
  intros E. rewrite <- (string_of_list_ascii_of_string s), E.
  apply string_of_list_ascii_of_string.
Qed.

Lemma occurs_in_binary (phrase body : string) :
  occurs_in binary phrase body <-> substring_of phrase body.
Proof.
  unfold occurs_in, substring_of. split.
  - intros (pre & mid & post & -> & H).
    apply collate_eq_binary, list_ascii_of_string_inj in H. subst mid.
    now exists pre, post.
  - intros (pre & post & ->). exists pre, phrase, post.
    split; [reflexivity | now apply collate_eq_binary].
Qed.

Lemma has_prefix_spec (p s : string) :
  has_prefix p s = true <-> exists post, s = (p ++ post)%string.
Proof.
  revert s. induction p as [|c p IH]; intros s; simpl.
  - split; [intros _; now exists s | reflexivity].
  - destruct s as [|d s].
    + split; [discriminate | intros [post E]; discriminate].
    + rewrite andb_true_iff, Ascii.eqb_eq, IH. split.
      * intros [-> [post ->]]. now exists post.
      * intros [post E]. injection E as -> ->. split; [reflexivity | now exists post].
Qed.

Lemma Contains_spec (s substr : string) :
  Contains s substr = true <-> substring_of substr s.
Proof.
  unfold substring_of. induction s as [|c s IH].
  - simpl. rewrite orb_false_r, has_prefix_spec. split.
    + intros [post E]. now exists "", post.
    + intros (pre & post & E). destruct pre; [now exists post | discriminate].
  - cbn [Contains]. rewrite orb_true_iff, has_prefix_spec, IH. split.
    + intros [[post E] | (pre & post & E)].
      * now exists "", post.
      * exists (String c pre), post. simpl. now rewrite E.
    + intros (pre & post & E). destruct pre as [|d pre]; simpl in E.
      * left. now exists post.
      * right. injection E as _ ->. now exists pre, post.
Qed.

(** C1, as the code has it: for a phrase that holds none of [%], [_] and
    the backslash, the match of [postLivecommentHandler] and of the purge
    is true exactly when the phrase occurs in the body, the characters
    compared by the collation of the connection; under a binary collation
    that is literal, case-sensitive containment.  The empty phrase is such
    a phrase and occurs in every body. *)
Theorem isSpam_plain_phrase (body phrase : string) :
  plain phrase = true ->
  (forall collate,
      isSpam collate body phrase = true <-> occurs_in collate phrase body) /\
  (isSpam binary body phrase = true <-> substring_of phrase body).
Proof.
  intros Hp. split.
  - intros collate. now apply isSpam_plain.
  - rewrite <- occurs_in_binary. now apply isSpam_plain.
Qed.

Lemma isSpam_plain_phrase_witness :
  isSpam binary "free banana today" "banana" = true <->
  substring_of "banana" "free banana today".
Proof.
  exact (proj2 (@isSpam_plain_phrase "free banana today" "banana" eq_refl)).
Defined.

(** Against C1 as it is written: [a_c] is not a substring of "abc", and the
    match is true. *)
Lemma isSpam_counterexample :
  ~ (forall body phrase,
        isSpam binary body phrase = true <->
        phrase <> "" /\ substring_of phrase body).
Proof.
  intros H. destruct (H "abc" "a_c") as [H1 _].
  destruct (H1 eq_refl) as [_ Hs].
  apply Contains_spec in Hs. vm_compute in Hs. discriminate.
Qed.

(** The empty phrase matches every body. *)
Lemma isSpam_empty_phrase (collate : ascii -> ascii -> bool) (body : string) :
  isSpam collate body "" = true.
Proof.
  apply isSpam_plain; [reflexivity|].
  exists "", "", body. split; reflexivity.
Qed.

(** The near misses of the specification, under the binary collation and
    under one that folds case; a phrase with a backslash that is in the
    body and does not match it. *)
Example isSpam_other_case :
  isSpam binary "free Banana" "banana" = false /\
  isSpam case_insensitive "free Banana" "banana" = true.
Proof. split; vm_compute; reflexivity. Qed.

Example isSpam_split_phrase : isSpam binary "ban ana" "banana" = false.
Proof. vm_compute. reflexivity. Qed.

Example isSpam_backslash :
  Contains "a\b" "a\b" = true /\ isSpam binary "a\b" "a\b" = false.
Proof. split; vm_compute; reflexivity. Qed.

(** ** The content hash *)

Example Sum256_empty :
  Sprintf_x (SHA256.Sum256 []) =
  "e3b0c44298fc1c149afbf4c8996fb92427ae41e4649b934ca495991b7852b855".
Proof. vm_compute. reflexivity. Qed.

Example Sum256_abc :
  Sprintf_x (SHA256.Sum256 (list_byte_of_string "abc")) =
  "ba7816bf8f01cfea414140de5dae2223b00361a396177a9cb410ff61f20015ad".
Proof. vm_compute. reflexivity. Qed.

Example Sum256_two_blocks :
  Sprintf_x (SHA256.Sum256 (list_byte_of_string
    "abcdbcdecdefdefgefghfghighijhijkijkljklmklmnlmnomnopnopq")) =
  "248d6a61d20638b8e5c026930c3e6039a33ce45964ff2167f6ecedd419db06c1".
Proof. vm_compute. reflexivity. Qed.

Lemma Sum256_length (data : list byte) :
  List.length (SHA256.Sum256 data) = SHA256.Size.
Proof. unfold SHA256.Sum256. rewrite length_map. reflexivity. Qed.

Lemma Sprintf_x_length (bs : list byte) :
  String.length (Sprintf_x bs) = (2 * List.length bs)%nat.
Proof. induction bs as [|x bs IH]; simpl; [reflexivity | rewrite IH; lia]. Qed.

(** ** Transactions and the session *)

Lemma bind_Ok {A B} (m : Tx A) (k : A -> Tx B) (db db' : DB) (x : A) :
  m db = Ok (x, db') -> bind m k db = k x db'.
Proof. intros H. unfold bind. now rewrite H. Qed.

Lemma bind_Err {A B} (m : Tx A) (k : A -> Tx B) (db : DB) (e : HTTPError) :
  m db = Err e -> bind m k db = Err e.
Proof. intros H. unfold bind. now rewrite H. Qed.

Lemma run_Ok {A} (m : Tx A) (db db' : DB) (x : A) :
  m db = Ok (x, db') -> run m db = (Ok x, db').
Proof. intros H. unfold run. now rewrite H. Qed.

Lemma run_Err {A} (m : Tx A) (db : DB) (e : HTTPError) :
  m db = Err e -> run m db = (Err e, db).
Proof. intros H. unfold run. now rewrite H. Qed.

(** A handler that fails leaves every table as it was. *)
Lemma run_rollback {A} (m : Tx A) (db db' : DB) (e : HTTPError) :
  run m db = (Err e, db') -> db' = db.
Proof.
  unfold run. destruct (m db) as [[x db1] | e1]; intros H; now inversion H.
Qed.

Lemma verifyUserSession_authenticated (c : Context) (now userID : Z) (db : DB) :
  authenticated c now userID ->
  verifyUserSession c now db = Ok (tt, db) /\ session_userID c = userID.
Proof.
  intros (sess & expires & Hs & He & Hu & Hle).
  unfold verifyUserSession, session_userID. rewrite Hs, He, Hu.
  destruct (now >? expires) eqn:E; [lia | now split].
Qed.

Lemma verifyUserSession_db (c : Context) (now : Z) (db db' : DB) (u : unit) :
  verifyUserSession c now db = Ok (u, db') -> db' = db.
Proof.
  unfold verifyUserSession, fail, ret.
  destruct (session c) as [sess|]; [|discriminate].
  destruct (Values sess defaultSessionExpiresKey) as [expires|]; [|discriminate].
  destruct (Values sess defaultUserIDKey); [|discriminate].
  destruct (now >? expires); [discriminate|]. intros H. now inversion H.
Qed.

Lemma set_livecomments_same (db : DB) :
  set_livecomments (livecomments db) (livecomments_auto_increment db) db = db.
Proof. now destruct db. Qed.

(** ** The purge of [moderateHandler] *)

Lemma filter_filter {A} (f g : A -> bool) (l : list A) :
  filter f (filter g l) = filter (fun x => g x && f x) l.
Proof.
  induction l as [|x l IH]; simpl; [reflexivity|].
  destruct (g x); simpl; [destruct (f x)|]; now rewrite IH.
Qed.

Lemma filter_all {A} (f : A -> bool) (l : list A) :
  (forall x, In x l -> f x = true) -> filter f l = l.
Proof.
  induction l as [|x l IH]; simpl; intros H; [reflexivity|].
  rewrite (H x (or_introl eq_refl)), IH; auto.
Qed.

Lemma NoDup_map_filter {A B} (key : A -> B) (f : A -> bool) (l : list A) :
  NoDup (map key l) -> NoDup (map key (filter f l)).
Proof.
  induction l as [|x l IH]; simpl; intros H; [constructor|].
  inversion H as [|? ? Hx Hl]; subst.
  destruct (f x); simpl; [constructor|]; auto.
  intros Hin. apply Hx. apply in_map_iff in Hin as (y & E & Hy).
  apply in_map_iff. exists y. split; [exact E|].
  now apply filter_In in Hy.
Qed.

(** Among rows with distinct ids, the only row with the id of [row] is
    [row]. *)
Lemma existsb_by_id (P : LivecommentModel.t -> bool)
    (l : list LivecommentModel.t) (row : LivecommentModel.t) :
  NoDup (map LivecommentModel.ID l) -> In row l ->
  existsb (fun lc => (LivecommentModel.ID row =? LivecommentModel.ID lc) && P lc) l
  = P row.
Proof.
  induction l as [|x l IH]; simpl; intros Hnd Hin; [contradiction|].
  inversion Hnd as [|? ? Hx Hl]; subst.
  destruct Hin as [-> | Hin].
  - rewrite Z.eqb_refl. simpl. destruct (P row); [reflexivity|].
    simpl. apply not_true_is_false. intros H.
    apply existsb_exists in H as (y & Hy & H).
    apply andb_true_iff in H as [H _]. apply Z.eqb_eq in H.
    apply Hx. rewrite H. now apply in_map.
  - rewrite IH by assumption.
    destruct (LivecommentModel.ID row =? LivecommentModel.ID x) eqn:E;
      [|reflexivity].
    apply Z.eqb_eq in E. exfalso. apply Hx. rewrite <- E. now apply in_map.
Qed.

Section Purge.

Variable collate : ascii -> ascii -> bool.

(** The inner loop: one [DELETE] a row of the snapshot [lcs]. *)
Lemma purge_one_word (livestreamID : Z) (word : string)
    (lcs : list LivecommentModel.t) (db : DB) :
  for_range lcs
    (fun livecomment =>
       exec (delete_livecomment collate (LivecommentModel.ID livecomment)
               livestreamID (LivecommentModel.Comment livecomment) word)) db
  = Ok (tt,
        set_livecomments
          (filter (fun row =>
                     negb ((LivecommentModel.LivestreamID row =? livestreamID)
                           && existsb
                                (fun lc =>
                                   (LivecommentModel.ID row =? LivecommentModel.ID lc)
                                   && isSpam collate (LivecommentModel.Comment lc) word)
                                lcs))
                  (livecomments db))
          (livecomments_auto_increment db) db).
Proof.
  revert db. induction lcs as [|lc lcs IH]; intros db; simpl.
  - unfold ret. rewrite filter_all.
    + now rewrite set_livecomments_same.
    + intros row _. now rewrite andb_false_r.
  - unfold bind, exec at 1. rewrite IH. do 2 f_equal.
    unfold delete_livecomment, set_livecomments; simpl.
    rewrite filter_filter. f_equal. apply filter_ext. intros row.
    unfold isSpam.
    destruct (LivecommentModel.ID row =? LivecommentModel.ID lc);
      destruct (LivecommentModel.LivestreamID row =? livestreamID);
      destruct (1 <=? hitSpam collate (LivecommentModel.Comment lc) word);
      simpl; try reflexivity.
Qed.

(** The two loops: every word against a fresh snapshot of the table. *)
Lemma purge_all_words (livestreamID : Z) (ngwords : list NGWord.t) (db : DB) :
  unique_ids db ->
  for_range ngwords
    (fun ngword =>
       livecomments <- query livecomments ;;
       for_range livecomments
         (fun livecomment =>
            exec (delete_livecomment collate (LivecommentModel.ID livecomment)
                    livestreamID (LivecommentModel.Comment livecomment)
                    (NGWord.Word ngword)))) db
  = Ok (tt,
        set_livecomments
          (filter (fun row => negb (purged collate livestreamID ngwords row))
                  (livecomments db))
          (livecomments_auto_increment db) db).
Proof.
  revert db. induction ngwords as [|w ws IH]; intros db Hnd; simpl.
  - unfold ret. rewrite filter_all.
    + now rewrite set_livecomments_same.
    + intros row _. unfold purged. simpl. now rewrite andb_false_r.
  - unfold bind at 1. unfold bind at 1, query at 1.
    rewrite purge_one_word. rewrite IH.
    + do 2 f_equal. unfold set_livecomments; simpl.
      rewrite filter_filter. f_equal. apply filter_ext_in. intros row Hin.
      rewrite (existsb_by_id
                 (fun lc => isSpam collate (LivecommentModel.Comment lc)
                                   (NGWord.Word w))) by assumption.
      unfold purged. simpl.
      destruct (LivecommentModel.LivestreamID row =? livestreamID);
        destruct (isSpam collate (LivecommentModel.Comment row) (NGWord.Word w));
        simpl; reflexivity.
    + unfold unique_ids, set_livecomments; simpl.
      now apply NoDup_map_filter.
Qed.

End Purge.

(** ** Registering an NG word *)

Lemma select_owned_livestreams_owns (db : DB) (userID livestreamID : Z) :
  owns db userID livestreamID <->
  select_owned_livestreams livestreamID userID db <> [].
Proof.
  unfold owns, select_owned_livestreams. split.
  - intros (ls & Hin & <- & <-) E.
    assert (H : In ls []); [|exact H].
    rewrite <- E. apply filter_In. split; [exact Hin|].
    now rewrite !Z.eqb_refl.
  - intros H.
    destruct (filter _ (livestreams db)) as [|ls l] eqn:E; [contradiction|].
    assert (Hin : In ls (ls :: l)) by now left.
    rewrite <- E in Hin. apply filter_In in Hin as [Hin Hb].
    apply andb_true_iff in Hb as [H1 H2]. apply Z.eqb_eq in H1, H2.
    now exists ls.
Qed.

Section Moderate.

Variable collate : ascii -> ascii -> bool.

(** The handler on a request of the owner, step by step. *)
Lemma moderateHandler_owner (c : Context) (req : ModerateRequest.t)
    (now userID livestreamID : Z) (db : DB) :
  authenticated c now userID ->
  Atoi (Param c "livestream_id") = Some livestreamID ->
  owns db userID livestreamID ->
  unique_ids db ->
  let wordID := ng_words_auto_increment db in
  let db1 :=
    set_ng_words
      (ng_words db ++
       [NGWord.mk wordID userID livestreamID (ModerateRequest.NGWord req) now])
      (wordID + 1) db in
  moderateHandler collate c (Some req) now db
  = Ok ((StatusCreated, [("word_id", wordID)]),
        set_livecomments
          (filter (fun row =>
                     negb (purged collate livestreamID
                             (select_ng_words_of_livestream livestreamID db1)
                             row))
                  (livecomments db))
          (livecomments_auto_increment db) db1).
Proof.
  intros Hauth Hparam Hown Hnd wordID db1.
  destruct (verifyUserSession_authenticated db Hauth) as [Hv Hu].
  unfold moderateHandler.
  erewrite bind_Ok by exact Hv.
  unfold atoi_or_bad_request. rewrite Hparam.
  unfold bind at 1, ret at 1. rewrite Hu.
  unfold bind at 1, decode_or_bad_request, ret at 1.
  unfold bind at 1, query at 1.
  apply select_owned_livestreams_owns in Hown.
  destruct (select_owned_livestreams livestreamID userID db) as [|ls l];
    [contradiction|].
  simpl List.length. cbv iota beta. simpl Nat.eqb. cbv iota.
  unfold bind at 1, ret at 1.
  unfold bind at 1, insert_ng_word. cbv beta iota zeta.
  fold wordID. simpl NGWord.UserID. simpl NGWord.LivestreamID.
  simpl NGWord.Word. simpl NGWord.CreatedAt. fold db1.
  unfold bind at 1, query at 1.
  unfold bind at 1.
  rewrite purge_all_words by exact Hnd.
  reflexivity.
Qed.

(** A request whose caller does not own the stream is answered with 400
    once the session and the path are read, whatever the body. *)
Lemma moderateHandler_not_owner (c : Context) (body : option ModerateRequest.t)
    (now userID livestreamID : Z) (db : DB) :
  authenticated c now userID ->
  Atoi (Param c "livestream_id") = Some livestreamID ->
  ~ owns db userID livestreamID ->
  moderateHandler collate c body now db
  = Err (NewHTTPError StatusBadRequest
           match body with
           | Some _ =>
               "A streamer can't moderate livestreams that other streamers own"
           | None => "failed to decode the request body as json"
           end).
Proof.
  intros Hauth Hparam Hown.
  destruct (verifyUserSession_authenticated db Hauth) as [Hv Hu].
  unfold moderateHandler.
  erewrite bind_Ok by exact Hv.
  unfold atoi_or_bad_request. rewrite Hparam.
  unfold bind at 1, ret at 1. rewrite Hu.
  destruct body as [req|]; [|reflexivity].
  unfold bind at 1, decode_or_bad_request, ret at 1.
  unfold bind at 1, query at 1.
  destruct (select_owned_livestreams livestreamID userID db) as [|ls l] eqn:E.
  - reflexivity.
  - exfalso. apply Hown. apply select_owned_livestreams_owns.
    rewrite E. discriminate.
Qed.

End Moderate.

Lemma Sample_authenticated (userID : Z) (params queries : list (string * string)) :
  authenticated (Sample.request userID params queries) Sample.now userID.
Proof.
  eexists _, 2000. repeat split. unfold Sample.now. lia.
Qed.

Lemma Sample_unique_ids : unique_ids Sample.db.
Proof.
  unfold unique_ids. simpl.
  repeat (constructor; [simpl; intuition discriminate|]). constructor.
Qed.

Section ModerateClaims.

Variable collate : ascii -> ascii -> bool.

(** C2, as the code has it: when the owner of a stream registers a word,
    the handler answers 201 with the id of the new word and nothing else
    (no count of purged comments); the word joins the words of the stream;
    and the comments that are left are those of before, in their order and
    unchanged, except the comments of that stream whose body matches
    [%word%] under LIKE for some word of the stream, the new one included,
    which are all deleted. *)
Theorem moderateHandler_registers_and_purges (c : Context)
    (req : ModerateRequest.t) (now userID livestreamID : Z) (db : DB) :
  authenticated c now userID ->
  Atoi (Param c "livestream_id") = Some livestreamID ->
  owns db userID livestreamID ->
  unique_ids db ->
  exists db',
    run (moderateHandler collate c (Some req) now) db
    = (Ok (StatusCreated, [("word_id", ng_words_auto_increment db)]), db') /\
    select_ng_words_of_livestream livestreamID db'
    = select_ng_words_of_livestream livestreamID db ++
      [NGWord.mk (ng_words_auto_increment db) userID livestreamID
                 (ModerateRequest.NGWord req) now] /\
    livecomments db'
    = filter (fun row =>
                negb (purged collate livestreamID
                        (select_ng_words_of_livestream livestreamID db') row))
             (livecomments db) /\
    (forall row,
        In row (livecomments db') <->
        In row (livecomments db) /\
        purged collate livestreamID
          (select_ng_words_of_livestream livestreamID db') row = false).
Proof.
  intros Hauth Hparam Hown Hnd.
  eexists. split; [|split; [|split]].
  - apply run_Ok.
    apply moderateHandler_owner
      with (userID := userID) (livestreamID := livestreamID); assumption.
  - unfold select_ng_words_of_livestream, set_livecomments, set_ng_words.
    simpl. rewrite filter_app. simpl. now rewrite Z.eqb_refl.
  - reflexivity.
  - intros row. cbn [livecomments set_livecomments].
    rewrite filter_In, negb_true_iff. reflexivity.
Qed.

(** C3, as the code has it: a caller who does not own the stream gets
    400 Bad Request (not 403), also when the stream exists, and no table
    is changed. *)
Theorem moderateHandler_rejects_non_owner (c : Context)
    (body : option ModerateRequest.t) (now userID livestreamID : Z) (db : DB) :
  authenticated c now userID ->
  Atoi (Param c "livestream_id") = Some livestreamID ->
  ~ owns db userID livestreamID ->
  exists e,
    run (moderateHandler collate c body now) db = (Err e, db) /\
    Code e = StatusBadRequest /\
    (body <> None ->
     Message e = "A streamer can't moderate livestreams that other streamers own").
Proof.
  intros Hauth Hparam Hown.
  eexists. split; [|split].
  - apply run_Err.
    now apply moderateHandler_not_owner with (userID := userID)
                                              (livestreamID := livestreamID).
  - reflexivity.
  - destruct body; [reflexivity | congruence].
Qed.

End ModerateClaims.

Lemma moderateHandler_registers_and_purges_witness :
  exists db',
    Sample.moderate 1 "banana"
    = (Ok (StatusCreated, [("word_id", 1)]), db') /\
    livecomments db' = [Sample.hello; Sample.elsewhere].
Proof.
  destruct (@moderateHandler_registers_and_purges binary
              (Sample.request 1 [("livestream_id", "1")] [])
              (ModerateRequest.mk "banana") Sample.now 1 1 Sample.db)
    as (db' & Hrun & _ & Hl & _).
  - apply Sample_authenticated.
  - reflexivity.
  - exists Sample.first.
    simpl. auto.
  - apply Sample_unique_ids.
  - exists db'. split; [exact Hrun|].
    rewrite Hl.
    assert (E : db' = snd (Sample.moderate 1 "banana"))
      by (unfold Sample.moderate; now rewrite Hrun).
    rewrite E. vm_compute. reflexivity.
Defined.

Lemma moderateHandler_rejects_non_owner_witness :
  exists e,
    Sample.moderate 2 "banana" = (Err e, Sample.db) /\
    Code e = StatusBadRequest.
Proof.
  destruct (@moderateHandler_rejects_non_owner binary
              (Sample.request 2 [("livestream_id", "1")] [])
              (Some (ModerateRequest.mk "banana")) Sample.now 2 1 Sample.db)
    as (e & Hrun & Hcode & _).
  - apply Sample_authenticated.
  - reflexivity.
  - intros (ls & Hin & Hid & Hu). simpl in Hin.
    destruct Hin as [<- | [<- | []]]; simpl in *; discriminate.
  - exists e. split; assumption.
Defined.

(** The scenario of the specification: "banana" deletes comments 2 and 3
    of the stream and keeps comment 1; the comment of the other stream
    stays although it matches. *)
Example moderateHandler_scenario :
  livecomments (snd (Sample.moderate 1 "banana"))
  = [Sample.hello; Sample.elsewhere].
Proof. vm_compute. reflexivity. Qed.

(** Against C2 as it is written: the word [_] deletes "hello world", in
    which it does not occur, and the answer to the registration of "banana"
    is the one entry [word_id], without a count of the purged comments. *)
Lemma moderateHandler_counterexample :
  (Contains "hello world" "_" = false /\
   In Sample.hello (livecomments Sample.db) /\
   ~ In Sample.hello (livecomments (snd (Sample.moderate 1 "_")))) /\
  fst (Sample.moderate 1 "banana") = Ok (StatusCreated, [("word_id", 1)]).
Proof.
  split.
  - split; [vm_compute; reflexivity|]. split; [now left|].
    vm_compute. intros [H | []]. discriminate.
  - vm_compute. reflexivity.
Qed.

(** The word [o\ w] does not occur in "hello world" either; LIKE reads it
    as "o w", and the comment is deleted. *)
Example moderateHandler_backslash :
  Contains "hello world" "o\ w" = false /\
  livecomments (snd (Sample.moderate 1 "o\ w"))
  = [Sample.free_banana; Sample.bananas; Sample.elsewhere].
Proof. split; vm_compute; reflexivity. Qed.

(** Against C3 as it is written: the status of the refusal is 400, and
    403 is another status. *)
Lemma moderateHandler_non_owner_counterexample :
  exists e,
    fst (Sample.moderate 2 "banana") = Err e /\
    status_code (Code e) = 400 /\ Code e <> StatusForbidden.
Proof.
  eexists. split; [vm_compute; reflexivity|]. split; [reflexivity | discriminate].
Qed.

Section ModerateFrame.

Variable collate : ascii -> ascii -> bool.

(** Whatever the ids, the loops only take rows of the stream away. *)
Lemma purge_only_stream (livestreamID : Z) (ngwords : list NGWord.t) (db : DB) :
  exists keep,
    for_range ngwords
      (fun ngword =>
         livecomments <- query livecomments ;;
         for_range livecomments
           (fun livecomment =>
              exec (delete_livecomment collate (LivecommentModel.ID livecomment)
                      livestreamID (LivecommentModel.Comment livecomment)
                      (NGWord.Word ngword)))) db
    = Ok (tt, set_livecomments (filter keep (livecomments db))
                               (livecomments_auto_increment db) db) /\
    forall row, keep row = false ->
                LivecommentModel.LivestreamID row = livestreamID.
Proof.
  revert db. induction ngwords as [|w ws IH]; intros db; simpl.
  - exists (fun _ => true). split; [|discriminate].
    unfold ret. rewrite filter_all by reflexivity.
    now rewrite set_livecomments_same.
  - unfold bind at 1. unfold bind at 1, query at 1.
    rewrite purge_one_word.
    match goal with
    | |- context [for_range ws _ ?d] => destruct (IH d) as (keep & E & Hk)
    end.
    rewrite E. eexists. split.
    + unfold set_livecomments; simpl. rewrite filter_filter. reflexivity.
    + intros row H. apply andb_false_iff in H as [H | H]; [|now apply Hk].
      apply negb_false_iff, andb_true_iff in H as [H _]. now apply Z.eqb_eq.
Qed.

Lemma moderateHandler_frame (c : Context) (body : option ModerateRequest.t)
    (now : Z) (db db' : DB) (r : Status * list (string * Z)) :
  moderateHandler collate c body now db = Ok (r, db') ->
  exists livestreamID keep,
    Atoi (Param c "livestream_id") = Some livestreamID /\
    livecomments db' = filter keep (livecomments db) /\
    forall row, keep row = false ->
                LivecommentModel.LivestreamID row = livestreamID.
Proof.
  unfold moderateHandler. unfold bind at 1.
  destruct (verifyUserSession c now db) as [[u d] | e] eqn:Hv; [|discriminate].
  apply verifyUserSession_db in Hv. subst d.
  unfold atoi_or_bad_request.
  destruct (Atoi (Param c "livestream_id")) as [livestreamID|];
    [|discriminate].
  unfold bind at 1, ret at 1.
  destruct body as [req|]; [|discriminate].
  unfold bind at 1, decode_or_bad_request, ret at 1.
  unfold bind at 1, query at 1.
  destruct (select_owned_livestreams livestreamID (session_userID c) db);
    [discriminate|].
  simpl List.length. cbv iota beta. simpl Nat.eqb. cbv iota.
  unfold bind at 1, ret at 1.
  unfold bind at 1, insert_ng_word. cbv beta iota zeta.
  unfold bind at 1, query at 1.
  unfold bind at 1.
  match goal with
  | |- context [for_range ?ws ?body ?d] =>
      destruct (purge_only_stream livestreamID ws d) as (keep & E & Hk)
  end.
  rewrite E. unfold ret. intros H. inversion H; subst.
  exists livestreamID, keep. repeat split; assumption.
Qed.

(** C5: a registration for one stream leaves the comments of every other
    stream as they were, whatever the request and the tables. *)
Theorem moderateHandler_other_streams (c : Context)
    (body : option ModerateRequest.t) (now other : Z) (db : DB) :
  Atoi (Param c "livestream_id") <> Some other ->
  comments_of other (snd (run (moderateHandler collate c body now) db))
  = comments_of other db.
Proof.
  intros Hother. unfold run.
  destruct (moderateHandler collate c body now db) as [[r db'] | e] eqn:E;
    [|reflexivity].
  apply moderateHandler_frame in E as (livestreamID & keep & Hp & Hl & Hk).
  unfold comments_of. simpl. rewrite Hl, filter_filter.
  apply filter_ext. intros row.
  destruct (keep row) eqn:Ek; [reflexivity|].
  simpl. symmetry. apply Z.eqb_neq. intros Eo. apply Hother.
  rewrite Hp. f_equal. rewrite <- Eo. symmetry. now apply Hk.
Qed.

End ModerateFrame.

Lemma moderateHandler_other_streams_witness :
  comments_of 2 (snd (Sample.moderate 1 "banana")) = [Sample.elsewhere].
Proof.
  unfold Sample.moderate.
  rewrite (@moderateHandler_other_streams binary
             (Sample.request 1 [("livestream_id", "1")] [])
             (Some (ModerateRequest.mk "banana")) Sample.now 2 Sample.db).
  - reflexivity.
  - discriminate.
Defined.

(** ** Submitting a comment *)

Lemma for_range_reject {A} (P : A -> bool) (status : Status) (message : string)
    (l : list A) (db : DB) :
  for_range l (fun x => if P x then fail status message else ret tt) db
  = if existsb P l then Err (NewHTTPError status message) else Ok (tt, db).
Proof.
  induction l as [|x l IH]; simpl; [reflexivity|].
  unfold bind. destruct (P x); simpl; [reflexivity | exact IH].
Qed.

Lemma livestream_by_id_ID (db : DB) (id : Z) (ls : LivestreamModel.t) :
  livestream_by_id db id = Some ls -> LivestreamModel.ID ls = id.
Proof.
  intros H. apply find_some in H as [_ H]. now apply Z.eqb_eq.
Qed.

Lemma user_by_id_ID (db : DB) (id : Z) (u : UserModel.t) :
  user_by_id db id = Some u -> UserModel.ID u = id.
Proof.
  intros H. apply find_some in H as [_ H]. now apply Z.eqb_eq.
Qed.

Lemma livecomment_by_id_ID (db : DB) (id : Z) (lc : LivecommentModel.t) :
  livecomment_by_id db id = Some lc ->
  LivecommentModel.ID lc = id /\ In lc (livecomments db).
Proof.
  intros H. apply find_some in H as [Hin H]. split; [now apply Z.eqb_eq | exact Hin].
Qed.

Lemma find_app {A} (f : A -> bool) (l1 l2 : list A) :
  find f (l1 ++ l2) = match find f l1 with Some x => Some x | None => find f l2 end.
Proof.
  induction l1 as [|x l1 IH]; simpl; [reflexivity|]. now destruct (f x).
Qed.

Section Assembly.

Variable ReadFile : string -> Result error (list byte).
Variable unsafe : bool.
Hypothesis dbConn_unsafe : unsafe = true.

(** The fallback image can be read. *)
Variable fallback : list byte.
Hypothesis ReadFile_fallback : ReadFile fallbackImage = Ok fallback.

Lemma image_or_fallback_Ok (image : list byte) :
  image_or_fallback ReadFile image
  = Ok (if (List.length image =? 0)%nat then fallback else image).
Proof.
  unfold image_or_fallback. now destruct (List.length image =? 0)%nat.
Qed.

(** The response for a comment that joins to its author and its stream. *)
Lemma livecomment_response_Ok (db : DB) (id : Z) (lc : LivecommentModel.t) :
  livecomment_by_id db id = Some lc ->
  joinable db lc ->
  exists r,
    livecomment_response ReadFile unsafe id db = Ok (r, db) /\
    Livecomment.ID r = LivecommentModel.ID lc /\
    Livecomment.Comment r = LivecommentModel.Comment lc /\
    Livecomment.Tip r = LivecommentModel.Tip lc /\
    Livecomment.CreatedAt r = LivecommentModel.CreatedAt lc /\
    User.ID (Livecomment.User r) = LivecommentModel.UserID lc.
Proof.
  intros Hlc ((u & t & Hu & Ht) & ls & Hls).
  unfold livecomment_response, bind, try, getLivecommentData, join_livecomment.
  rewrite dbConn_unsafe, Hlc, Hu, Ht, Hls. unfold fillLivecommentResponse.
  rewrite image_or_fallback_Ok. eexists. split; [reflexivity|].
  simpl. repeat split. now apply user_by_id_ID in Hu.
Qed.

End Assembly.

Section Post.

Variable collate : ascii -> ascii -> bool.
Variable ReadFile : string -> Result error (list byte).
Variable unsafe : bool.

(** The handler up to the insertion: the check against the words that
    carry the id of the stream and the id of its owner, then the row. *)
Lemma postLivecommentHandler_steps (c : Context)
    (req : PostLivecommentRequest.t) (now userID livestreamID : Z)
    (ls : LivestreamModel.t) (db : DB) :
  authenticated c now userID ->
  Atoi (Param c "livestream_id") = Some livestreamID ->
  livestream_by_id db livestreamID = Some ls ->
  postLivecommentHandler collate ReadFile unsafe c (Some req) now db
  = if existsb (fun w => isSpam collate (PostLivecommentRequest.Comment req)
                                (NGWord.Word w))
               (select_ng_words_of_owner (LivestreamModel.UserID ls)
                                         livestreamID db)
    then Err (NewHTTPError StatusBadRequest spam_message)
    else (livecomment <-
            livecomment_response ReadFile unsafe (livecomments_auto_increment db) ;;
          ret (StatusCreated, livecomment))
           (set_livecomments
              (livecomments db ++ [new_livecomment db userID livestreamID req now])
              (livecomments_auto_increment db + 1) db).
Proof.
  intros Hauth Hparam Hls.
  destruct (verifyUserSession_authenticated db Hauth) as [Hv Hu].
  unfold postLivecommentHandler.
  erewrite bind_Ok by exact Hv.
  unfold atoi_or_bad_request. rewrite Hparam.
  unfold bind at 1, ret at 1. rewrite Hu.
  unfold bind at 1, decode_or_bad_request, ret at 1.
  unfold bind at 1, get_livestream. rewrite Hls.
  unfold bind at 1, query at 1.
  rewrite (livestream_by_id_ID _ _ Hls).
  unfold bind at 1.
  rewrite (for_range_reject
             (fun w => 1 <=? hitSpam collate (PostLivecommentRequest.Comment req)
                                     (NGWord.Word w))).
  fold spam_message.
  change (fun w : NGWord.t =>
            1 <=? hitSpam collate (PostLivecommentRequest.Comment req) (NGWord.Word w))
    with (fun w : NGWord.t =>
            isSpam collate (PostLivecommentRequest.Comment req) (NGWord.Word w)).
  destruct (existsb _ _); reflexivity.
Qed.

End Post.

(** The owner of a stream is the owner of its row: with distinct ids the
    row that [livestream_by_id] finds is the row of the stream. *)
Lemma livestream_by_id_unique (db : DB) (ls : LivestreamModel.t) :
  unique_livestream_ids db -> In ls (livestreams db) ->
  livestream_by_id db (LivestreamModel.ID ls) = Some ls.
Proof.
  unfold unique_livestream_ids, livestream_by_id.
  induction (livestreams db) as [|x l IH]; simpl; intros Hnd Hin; [contradiction|].
  inversion Hnd as [|? ? Hx Hl]; subst.
  destruct Hin as [-> | Hin]; [now rewrite Z.eqb_refl|].
  destruct (LivestreamModel.ID x =? LivestreamModel.ID ls) eqn:E; [|now apply IH].
  apply Z.eqb_eq in E. exfalso. apply Hx. rewrite E. now apply in_map.
Qed.


Section PostClaims.

Variable collate : ascii -> ascii -> bool.
Variable ReadFile : string -> Result error (list byte).
Variable unsafe : bool.



End PostClaims.

Lemma Sample_has_profile (userID : Z) :
  userID = 1 \/ userID = 2 -> has_profile Sample.db userID.
Proof.
  intros [-> | ->]; do 2 eexists; split; reflexivity.
Qed.



(** Why the tables have to be as [moderateHandler] writes them: a row of
    stream 1 stored under user 2, who does not own the stream, is a row no
    registration can have written, and the query of the submission does
    not ask for it, while the purge of [moderateHandler] would apply it. *)
Lemma postLivecommentHandler_foreign_row :
  In (NGWord.mk 1 2 1 "spam" 950) (ng_words Sample.words_db) /\
  ~ registered_by_owner Sample.words_db /\
  isSpam binary "spam" "spam" = true /\
  exists livecomment db',
    Sample.post true 2 "spam" Sample.words_db
    = (Ok (StatusCreated, livecomment), db') /\
    In (LivecommentModel.mk 5 2 1 "spam" 0 1000) (livecomments db').
Proof.
  split; [now left|]. split; [|split; [vm_compute; reflexivity|]].
  - intros H. destruct (H (NGWord.mk 1 2 1 "spam" 950)) as (ls & Hin & Hid & Hu);
      [now left|].
    simpl in Hin, Hid, Hu.
    destruct Hin as [<- | [<- | []]]; discriminate.
  - eexists. eexists. split.
    + vm_compute. reflexivity.
    + simpl. auto 10.
Qed.

(** ** Listing the comments of a stream *)

Lemma insert_by_created_at_perm (x : LivecommentModel.t)
    (l : list LivecommentModel.t) :
  Permutation (x :: l) (insert_by_created_at x l).
Proof.
  induction l as [|y l IH]; simpl; [reflexivity|].
  destruct (LivecommentModel.CreatedAt y <? LivecommentModel.CreatedAt x);
    [reflexivity|].
  rewrite perm_swap. now apply perm_skip.
Qed.

Lemma insert_by_created_at_sorted (x : LivecommentModel.t)
    (l : list LivecommentModel.t) :
  StronglySorted created_desc l ->
  StronglySorted created_desc (insert_by_created_at x l).
Proof.
  induction l as [|y l IH]; simpl; intros Hs.
  - constructor; constructor.
  - inversion Hs as [|? ? Hl Hy]; subst.
    destruct (LivecommentModel.CreatedAt y <? LivecommentModel.CreatedAt x) eqn:E.
    + apply Z.ltb_lt in E. constructor; [exact Hs|].
      constructor; [unfold created_desc; lia|].
      eapply Forall_impl; [|exact Hy]. unfold created_desc. intros z Hz. lia.
    + apply Z.ltb_ge in E. constructor; [now apply IH|].
      eapply Permutation_Forall; [apply insert_by_created_at_perm|].
      constructor; [exact E | exact Hy].
Qed.

Lemma stable_order_spec : orders_by_created_at_desc stable_order.
Proof.
  intros rows. unfold stable_order.
  assert (H : forall acc,
             StronglySorted created_desc acc ->
             Permutation (acc ++ rows)
               (fold_left (fun sorted row => insert_by_created_at row sorted) rows acc)
             /\ StronglySorted created_desc
                  (fold_left (fun sorted row => insert_by_created_at row sorted) rows acc)).
  { induction rows as [|x rows IH]; intros acc Hacc; simpl.
    - rewrite app_nil_r. now split.
    - destruct (IH (insert_by_created_at x acc)) as [Hp Hs];
        [now apply insert_by_created_at_sorted|].
      split; [|exact Hs].
      rewrite <- Hp, <- insert_by_created_at_perm.
      symmetry. apply Permutation_middle. }
  apply (H []). constructor.
Qed.

Lemma livecomment_by_id_unique (db : DB) (lc : LivecommentModel.t) :
  unique_ids db -> In lc (livecomments db) ->
  livecomment_by_id db (LivecommentModel.ID lc) = Some lc.
Proof.
  unfold unique_ids, livecomment_by_id.
  induction (livecomments db) as [|x l IH]; simpl; intros Hnd Hin; [contradiction|].
  inversion Hnd as [|? ? Hx Hl]; subst.
  destruct Hin as [-> | Hin]; [now rewrite Z.eqb_refl|].
  destruct (LivecommentModel.ID x =? LivecommentModel.ID lc) eqn:E; [|now apply IH].
  apply Z.eqb_eq in E. exfalso. apply Hx. rewrite E. now apply in_map.
Qed.

Lemma map_range_Ok {A B} (R : A -> B -> Prop) (body : A -> Tx B)
    (l : list A) (db : DB) :
  (forall x, In x l -> exists y, body x db = Ok (y, db) /\ R x y) ->
  exists ys, map_range l body db = Ok (ys, db) /\ Forall2 R l ys.
Proof.
  induction l as [|x l IH]; simpl; intros H.
  - exists []. split; [reflexivity | constructor].
  - destruct (H x (or_introl eq_refl)) as (y & Hy & Hr).
    destruct IH as (ys & Hys & Hf); [intros z Hz; apply H; now right|].
    exists (y :: ys). split; [|now constructor].
    unfold bind. rewrite Hy, Hys. reflexivity.
Qed.

Section List.

Variable ReadFile : string -> Result error (list byte).
Variable order : list LivecommentModel.t -> list LivecommentModel.t.
Variable unsafe : bool.

(** The handler once the session and the parameters are read. *)
Lemma getLivecommentsHandler_steps (c : Context) (now userID livestreamID : Z)
    (limit : option Z) (db : DB) :
  authenticated c now userID ->
  Atoi (Param c "livestream_id") = Some livestreamID ->
  (if String.eqb (QueryParam c "limit") "" then Some None
   else option_map Some (Atoi (QueryParam c "limit"))) = Some limit ->
  getLivecommentsHandler ReadFile order unsafe c now db
  = match select_livecomments order livestreamID limit db with
    | Err err =>
        if is_ErrNoRows err
        then Ok ((StatusOK, []), db)
        else Err (InternalServerError "failed to get livecomments: " err)
    | Ok livecommentModels =>
        (livecomments <-
           map_range livecommentModels
             (fun m => livecomment_response ReadFile unsafe (LivecommentModel.ID m)) ;;
         ret (StatusOK, livecomments)) db
    end.
Proof.
  intros Hauth Hparam Hlimit.
  destruct (verifyUserSession_authenticated db Hauth) as [Hv _].
  unfold getLivecommentsHandler.
  erewrite bind_Ok by exact Hv.
  unfold atoi_or_bad_request at 1. rewrite Hparam.
  unfold bind at 1, ret at 1.
  assert (E : (if String.eqb (QueryParam c "limit") ""
               then ret None
               else limit0 <- atoi_or_bad_request (QueryParam c "limit")
                                "limit query parameter must be integer" ;;
                    ret (Some limit0)) db = Ok (limit, db)).
  { destruct (String.eqb (QueryParam c "limit") "").
    - inversion Hlimit. reflexivity.
    - unfold atoi_or_bad_request, bind, ret.
      destruct (Atoi (QueryParam c "limit")); inversion Hlimit. reflexivity. }
  erewrite bind_Ok by exact E.
  unfold bind at 1.
  destruct (select_livecomments order livestreamID limit db) as [rows | err];
    [reflexivity|].
  destruct (is_ErrNoRows err); reflexivity.
Qed.

End List.

Lemma Sample_references_hold : references_hold Sample.db.
Proof.
  intros lc Hin. simpl in Hin.
  destruct Hin as [<- | [<- | [<- | [<- | []]]]];
    (split; [apply Sample_has_profile; simpl; auto | eexists; reflexivity]).
Qed.

Section ListClaims.

Variable ReadFile : string -> Result error (list byte).
Variable order : list LivecommentModel.t -> list LivecommentModel.t.
Variable unsafe : bool.

(** C6, as the code has it: without a limit the handler returns all the
    comments of the stream, in descending order of the creation timestamp.
    The statement has no second sort key: among comments of one timestamp
    the order is the one the engine gives, and the id does not decide it.
    The answer is assembled on a connection in unsafe mode, from comments
    with unique ids that join to their author and stream. *)
Theorem getLivecommentsHandler_order (c : Context) (now userID livestreamID : Z)
    (fallback : list byte) (db : DB) :
  orders_by_created_at_desc order ->
  unsafe = true ->
  authenticated c now userID ->
  Atoi (Param c "livestream_id") = Some livestreamID ->
  QueryParam c "limit" = "" ->
  unique_ids db ->
  references_hold db ->
  ReadFile fallbackImage = Ok fallback ->
  exists rows livecomments,
    run (getLivecommentsHandler ReadFile order unsafe c now) db
    = (Ok (StatusOK, livecomments), db) /\
    Permutation (comments_of livestreamID db) rows /\
    StronglySorted created_desc rows /\
    Forall2 shows rows livecomments.
Proof.
  intros Horder Hunsafe Hauth Hparam Hlimit Hnd Href Hread.
  destruct (Horder (comments_of livestreamID db)) as [Hperm Hsorted].
  destruct (@map_range_Ok _ _ shows
              (fun m => livecomment_response ReadFile unsafe (LivecommentModel.ID m))
              (order (comments_of livestreamID db)) db) as (L & HL & Hshows).
  { intros m Hm.
    apply (Permutation_in _ (Permutation_sym Hperm)) in Hm.
    apply filter_In in Hm as [Hm _].
    destruct (@livecomment_response_Ok ReadFile unsafe Hunsafe fallback Hread db _ m
                (livecomment_by_id_unique _ Hnd Hm) (Href m Hm))
      as (r & Hr & Hshow).
    now exists r. }
  exists (order (comments_of livestreamID db)), L.
  repeat split; try assumption.
  apply run_Ok.
  rewrite (@getLivecommentsHandler_steps ReadFile order unsafe c now userID
             livestreamID None db Hauth Hparam) by now rewrite Hlimit.
  unfold select_livecomments. fold (comments_of livestreamID db).
  unfold bind. now rewrite HL.
Qed.

(** C7, where the code goes another way: the limit [-1], and every other
    negative integer, passes [strconv.Atoi], reaches the statement as
    [LIMIT -1], and the handler answers 500 with the error of the engine;
    the answer is not the 400 of an invalid argument. *)
Theorem getLivecommentsHandler_negative_limit (c : Context)
    (now userID livestreamID limit : Z) (db : DB) :
  authenticated c now userID ->
  Atoi (Param c "livestream_id") = Some livestreamID ->
  Atoi (QueryParam c "limit") = Some limit ->
  limit < 0 ->
  exists e,
    run (getLivecommentsHandler ReadFile order unsafe c now) db = (Err e, db) /\
    Code e = StatusInternalServerError.
Proof.
  intros Hauth Hparam Hlimit Hneg.
  eexists. split.
  - apply run_Err.
    rewrite (@getLivecommentsHandler_steps ReadFile order unsafe c now userID
               livestreamID (Some limit) db Hauth Hparam).
    + unfold select_livecomments.
      apply Z.ltb_lt in Hneg. rewrite Hneg. reflexivity.
    + destruct (QueryParam c "limit"); [discriminate|].
      rewrite Hlimit. reflexivity.
  - reflexivity.
Qed.

(** On a connection that is not in the unsafe mode the scan of the first
    comment is refused, and the answer is 500. *)
Lemma getLivecommentsHandler_refused_scan (c : Context)
    (now userID livestreamID : Z) (row : LivecommentModel.t) (db : DB) :
  orders_by_created_at_desc order ->
  unsafe = false ->
  authenticated c now userID ->
  Atoi (Param c "livestream_id") = Some livestreamID ->
  QueryParam c "limit" = "" ->
  In row (comments_of livestreamID db) ->
  exists e,
    run (getLivecommentsHandler ReadFile order unsafe c now) db = (Err e, db) /\
    Code e = StatusInternalServerError.
Proof.
  intros Horder Hsafe Hauth Hparam Hlimit Hrow.
  destruct (Horder (comments_of livestreamID db)) as [Hperm _].
  eexists. split; [apply run_Err|].
  - rewrite (@getLivecommentsHandler_steps ReadFile order unsafe c now userID
               livestreamID None db Hauth Hparam) by now rewrite Hlimit.
    unfold select_livecomments. fold (comments_of livestreamID db).
    destruct (order (comments_of livestreamID db)) as [|m rows] eqn:E.
    + apply Permutation_sym, Permutation_nil in Hperm.
      rewrite Hperm in Hrow. destruct Hrow.
    + simpl. unfold bind, livecomment_response, bind, try, getLivecommentData.
      rewrite Hsafe. reflexivity.
  - reflexivity.
Qed.

(** A limit that is not an integer is answered with 400. *)
Lemma getLivecommentsHandler_limit_not_integer (c : Context)
    (now userID livestreamID : Z) (db : DB) :
  authenticated c now userID ->
  Atoi (Param c "livestream_id") = Some livestreamID ->
  QueryParam c "limit" <> "" ->
  Atoi (QueryParam c "limit") = None ->
  run (getLivecommentsHandler ReadFile order unsafe c now) db
  = (Err (NewHTTPError StatusBadRequest "limit query parameter must be integer"),
     db).
Proof.
  intros Hauth Hparam Hne Hlimit.
  destruct (verifyUserSession_authenticated db Hauth) as [Hv _].
  apply run_Err. unfold getLivecommentsHandler.
  erewrite bind_Ok by exact Hv.
  unfold atoi_or_bad_request at 1. rewrite Hparam.
  unfold bind at 1, ret at 1.
  apply String.eqb_neq in Hne. rewrite Hne.
  unfold bind, atoi_or_bad_request. rewrite Hlimit. reflexivity.
Qed.

(** The limit 0 gives the empty sequence. *)
Lemma getLivecommentsHandler_limit_zero (c : Context)
    (now userID livestreamID : Z) (db : DB) :
  authenticated c now userID ->
  Atoi (Param c "livestream_id") = Some livestreamID ->
  Atoi (QueryParam c "limit") = Some 0 ->
  run (getLivecommentsHandler ReadFile order unsafe c now) db = (Ok (StatusOK, []), db).
Proof.
  intros Hauth Hparam Hlimit.
  apply run_Ok.
  rewrite (@getLivecommentsHandler_steps ReadFile order unsafe c now userID
             livestreamID (Some 0) db Hauth Hparam).
  - reflexivity.
  - destruct (QueryParam c "limit"); [discriminate|].
    rewrite Hlimit. reflexivity.
Qed.

(** A stream without comments gives the empty sequence, not an error. *)
Lemma getLivecommentsHandler_no_comments (c : Context)
    (now userID livestreamID : Z) (db : DB) :
  orders_by_created_at_desc order ->
  authenticated c now userID ->
  Atoi (Param c "livestream_id") = Some livestreamID ->
  QueryParam c "limit" = "" ->
  comments_of livestreamID db = [] ->
  run (getLivecommentsHandler ReadFile order unsafe c now) db = (Ok (StatusOK, []), db).
Proof.
  intros Horder Hauth Hparam Hlimit Hnone.
  apply run_Ok.
  rewrite (@getLivecommentsHandler_steps ReadFile order unsafe c now userID
             livestreamID None db Hauth Hparam) by now rewrite Hlimit.
  unfold select_livecomments. fold (comments_of livestreamID db).
  rewrite Hnone.
  destruct (Horder []) as [Hperm _]. apply Permutation_nil in Hperm.
  rewrite Hperm. reflexivity.
Qed.

End ListClaims.

Lemma getLivecommentsHandler_order_witness :
  exists rows livecomments,
    Sample.list true "1" "" Sample.db = (Ok (StatusOK, livecomments), Sample.db) /\
    Permutation (comments_of 1 Sample.db) rows /\
    StronglySorted created_desc rows /\
    Forall2 shows rows livecomments.
Proof.
  apply (@getLivecommentsHandler_order Sample.ReadFile stable_order true
           (Sample.request 2 [("livestream_id", "1")] [("limit", "")])
           Sample.now 2 1 Sample.fallback Sample.db).
  - apply stable_order_spec.
  - reflexivity.
  - apply Sample_authenticated.
  - reflexivity.
  - reflexivity.
  - apply Sample_unique_ids.
  - apply Sample_references_hold.
  - reflexivity.
Defined.

(** Against C6 as it is written: an engine that keeps rows of one timestamp
    in the order of the table returns comment 1 before comment 2, both of
    second 900. *)
Lemma getLivecommentsHandler_counterexample :
  orders_by_created_at_desc stable_order /\
  exists livecomments,
    Sample.list true "1" "" Sample.db = (Ok (StatusOK, livecomments), Sample.db) /\
    map (fun r => (Livecomment.CreatedAt r, Livecomment.ID r)) livecomments
    = [(910, 3); (900, 1); (900, 2)] /\
    ~ StronglySorted newest_first livecomments.
Proof.
  split; [apply stable_order_spec|].
  eexists. split; [vm_compute; reflexivity|]. split; [reflexivity|].
  intros H. inversion H as [|? ? Htail _]; subst.
  inversion Htail as [|? ? _ Hfirst]; subst.
  inversion Hfirst as [|? ? Hnf _]; subst.
  unfold newest_first in Hnf. simpl in Hnf. lia.
Qed.

Lemma getLivecommentsHandler_negative_limit_witness :
  exists e,
    Sample.list true "1" "-1" Sample.db = (Err e, Sample.db) /\
    Code e = StatusInternalServerError.
Proof.
  apply (@getLivecommentsHandler_negative_limit Sample.ReadFile stable_order true
           (Sample.request 2 [("livestream_id", "1")] [("limit", "-1")])
           Sample.now 2 1 (-1) Sample.db).
  - apply Sample_authenticated.
  - reflexivity.
  - reflexivity.
  - lia.
Defined.

(** The answers to some limits, on the three comments of stream 1. *)
Example getLivecommentsHandler_limits :
  fst (Sample.list true "1" "-1" Sample.db)
  = Err (NewHTTPError StatusInternalServerError
           "failed to get livecomments: Error 1064: You have an error in your SQL syntax") /\
  fst (Sample.list true "1" "x" Sample.db)
  = Err (NewHTTPError StatusBadRequest "limit query parameter must be integer") /\
  fst (Sample.list true "1" "0" Sample.db) = Ok (StatusOK, []) /\
  fst (Sample.list true "7" "" Sample.db) = Ok (StatusOK, []).
Proof. repeat split; vm_compute; reflexivity. Qed.

(** ** Reporting a comment *)

Section Report.

Variable ReadFile : string -> Result error (list byte).

(** C8: a report against a comment id that is in no row of [livecomments]
    is answered with 404, and the tables, the table of reports among them,
    are as before. *)
Theorem reportLivecommentHandler_unknown_comment (c : Context)
    (now userID livestreamID livecommentID : Z) (db : DB) :
  authenticated c now userID ->
  Atoi (Param c "livestream_id") = Some livestreamID ->
  Atoi (Param c "livecomment_id") = Some livecommentID ->
  livecomment_by_id db livecommentID = None ->
  exists e,
    run (reportLivecommentHandler ReadFile c now) db = (Err e, db) /\
    Code e = StatusNotFound.
Proof.
  intros Hauth Hls Hlc Hnone.
  destruct (verifyUserSession_authenticated db Hauth) as [Hv _].
  assert (E : exists e, reportLivecommentHandler ReadFile c now db = Err e /\
                        Code e = StatusNotFound).
  { unfold reportLivecommentHandler.
    erewrite bind_Ok by exact Hv.
    unfold atoi_or_bad_request. rewrite Hls, Hlc.
    unfold bind at 1, ret at 1. unfold bind at 1, ret at 1.
    unfold bind at 1, get_livestream.
    destruct (livestream_by_id db livestreamID).
    - unfold bind at 1, get_livecomment. rewrite Hnone.
      eexists. split; reflexivity.
    - eexists. split; reflexivity. }
  destruct E as (e & He & Hcode). exists e. split; [now apply run_Err | exact Hcode].
Qed.

(** C10: a report that names an existing stream and an existing comment is
    accepted whether or not the comment is of that stream, and the row it
    leaves carries the stream id of the request. *)
Theorem reportLivecommentHandler_any_stream (c : Context)
    (now userID livestreamID livecommentID : Z)
    (ls : LivestreamModel.t) (lc : LivecommentModel.t)
    (fallback : list byte) (db : DB) :
  authenticated c now userID ->
  Atoi (Param c "livestream_id") = Some livestreamID ->
  Atoi (Param c "livecomment_id") = Some livecommentID ->
  livestream_by_id db livestreamID = Some ls ->
  livecomment_by_id db livecommentID = Some lc ->
  has_profile db userID ->
  joinable db lc ->
  report_by_id db (livecomment_reports_auto_increment db) = None ->
  ReadFile fallbackImage = Ok fallback ->
  exists report,
    run (reportLivecommentHandler ReadFile c now) db
    = (Ok (StatusCreated, report),
       set_livecomment_reports
         (livecomment_reports db ++
          [new_report db userID livestreamID livecommentID now])
         (livecomment_reports_auto_increment db + 1) db) /\
    LivecommentReport.ID report = livecomment_reports_auto_increment db /\
    Livecomment.ID (LivecommentReport.Livecomment report) = livecommentID /\
    Livestream.ID (Livecomment.Livestream (LivecommentReport.Livecomment report))
    = LivecommentModel.LivestreamID lc.
Proof.
  intros Hauth Hpls Hplc Hls Hlc (u & t & Hu & Ht) ((lu & lt & Hlu & Hlt) & cs & Hcs)
         Hfresh Hread.
  destruct (verifyUserSession_authenticated db Hauth) as [Hv Huid].
  set (row := new_report db userID livestreamID livecommentID now).
  set (db1 := set_livecomment_reports (livecomment_reports db ++ [row])
                (livecomment_reports_auto_increment db + 1) db).
  assert (Hrow : report_by_id db1 (livecomment_reports_auto_increment db) = Some row).
  { unfold report_by_id, db1. cbn [livecomment_reports set_livecomment_reports].
    rewrite find_app.
    fold (report_by_id db (livecomment_reports_auto_increment db)).
    rewrite Hfresh. simpl. now rewrite Z.eqb_refl. }
  eexists. split; [|split; [|split]].
  - apply run_Ok. unfold reportLivecommentHandler.
    erewrite bind_Ok by exact Hv.
    unfold atoi_or_bad_request. rewrite Hpls, Hplc.
    unfold bind at 1, ret at 1. unfold bind at 1, ret at 1.
    unfold bind at 1, get_livestream. rewrite Hls.
    unfold bind at 1, get_livecomment. rewrite Hlc.
    unfold bind at 1, insert_livecomment_report. cbv beta iota zeta.
    rewrite Huid.
    change (LivecommentReportModel.mk _ _ _ _ _) with row. fold db1.
    unfold bind at 1, try at 1, getLivecommentReportData.
    rewrite Hrow.
    change (user_by_id db1) with (user_by_id db).
    change (theme_of db1) with (theme_of db).
    change (LivecommentReportModel.UserID row) with userID.
    change (LivecommentReportModel.LivecommentID row) with livecommentID.
    rewrite Hu, Ht.
    unfold join_livecomment.
    change (livecomment_by_id db1) with (livecomment_by_id db).
    change (user_by_id db1) with (user_by_id db).
    change (theme_of db1) with (theme_of db).
    change (livestream_by_id db1) with (livestream_by_id db).
    rewrite Hlc, Hlu, Hlt, Hcs.
    unfold bind at 1, try at 1, fillLivecommentReportResponse.
    rewrite !(@image_or_fallback_Ok ReadFile fallback Hread).
    reflexivity.
  - reflexivity.
  - simpl. now apply livecomment_by_id_ID in Hlc.
  - simpl. now apply livestream_by_id_ID in Hcs.
Qed.

End Report.

Lemma reportLivecommentHandler_unknown_comment_witness :
  exists e,
    Sample.report 2 "1" "99" = (Err e, Sample.db) /\
    Code e = StatusNotFound.
Proof.
  apply (@reportLivecommentHandler_unknown_comment Sample.ReadFile
           (Sample.request 2 [("livestream_id", "1"); ("livecomment_id", "99")] [])
           Sample.now 2 1 99 Sample.db).
  - apply Sample_authenticated.
  - reflexivity.
  - reflexivity.
  - reflexivity.
Defined.

(** Comment 4 is of stream 2; the report names stream 1 and is stored with
    stream 1. *)
Lemma reportLivecommentHandler_any_stream_witness :
  LivecommentModel.LivestreamID Sample.elsewhere = 2 /\
  exists report db',
    Sample.report 2 "1" "4" = (Ok (StatusCreated, report), db') /\
    livecomment_reports db' = [LivecommentReportModel.mk 1 2 1 4 1000].
Proof.
  split; [reflexivity|].
  destruct (@reportLivecommentHandler_any_stream Sample.ReadFile
              (Sample.request 2 [("livestream_id", "1"); ("livecomment_id", "4")] [])
              Sample.now 2 1 4
              Sample.first
              Sample.elsewhere Sample.fallback Sample.db)
    as (report & Hrun & _).
  - apply Sample_authenticated.
  - reflexivity.
  - reflexivity.
  - reflexivity.
  - reflexivity.
  - apply Sample_has_profile. now right.
  - apply Sample_references_hold. simpl. auto.
  - reflexivity.
  - reflexivity.
  - exists report. eexists. split; [exact Hrun | reflexivity].
Defined.

(** ** Profiles *)

Lemma iconHash_length (image : list byte) :
  String.length (iconHash image) = 64%nat.
Proof.
  unfold iconHash. now rewrite Sprintf_x_length, Sum256_length.
Qed.

Section Profiles.

Variable ReadFile : string -> Result error (list byte).
Variable fallback : list byte.
Hypothesis ReadFile_fallback : ReadFile fallbackImage = Ok fallback.

Lemma image_or_fallback_used (avatar : option (list byte)) :
  image_or_fallback ReadFile (COALESCE avatar) = Ok (used_avatar fallback avatar).
Proof.
  destruct avatar as [[|x bytes]|]; simpl; unfold image_or_fallback; simpl;
    first [exact ReadFile_fallback | reflexivity].
Qed.

(** The author of a comment, on the path of [getLivecommentData] and
    [fillLivecommentResponse]. *)
Lemma comment_author_IconHash (unsafe : bool) (db : DB) (id : Z)
    (r : LivecommentResponse.t) :
  getLivecommentData unsafe db id = Ok r ->
  exists livecomment,
    fillLivecommentResponse ReadFile r = Ok livecomment /\
    User.IconHash (Livecomment.User livecomment)
    = iconHash (used_avatar fallback (icon_of db (LivecommentResponse.UserID r))).
Proof.
  unfold getLivecommentData, join_livecomment.
  destruct unsafe; [|discriminate].
  destruct (livecomment_by_id db id) as [lc|]; [|discriminate].
  destruct (user_by_id db (LivecommentModel.UserID lc)) as [u|]; [|discriminate].
  destruct (theme_of db (UserModel.ID u)) as [t|]; [|discriminate].
  destruct (livestream_by_id db (LivecommentModel.LivestreamID lc)) as [ls|];
    [|discriminate].
  intros H. inversion H; subst; clear H.
  unfold fillLivecommentResponse. cbn [LivecommentResponse.UserImage].
  rewrite image_or_fallback_used. eexists. split; reflexivity.
Qed.

(** The reporter and the author of the reported comment, on the path of
    [getLivecommentReportData] and [fillLivecommentReportResponse]. *)
Lemma report_IconHash (db : DB) (id : Z) (r : LivecommentReportResponse.t) :
  getLivecommentReportData db id = Ok r ->
  exists report,
    fillLivecommentReportResponse ReadFile r = Ok report /\
    User.IconHash (LivecommentReport.Reporter report)
    = iconHash (used_avatar fallback
                  (icon_of db (LivecommentReportResponse.ReporterID r))) /\
    User.IconHash (Livecomment.User (LivecommentReport.Livecomment report))
    = iconHash (used_avatar fallback
                  (icon_of db (LivecommentReportResponse.LCUserID r))).
Proof.
  unfold getLivecommentReportData, join_livecomment.
  destruct (report_by_id db id) as [lr|]; [|discriminate].
  destruct (user_by_id db (LivecommentReportModel.UserID lr)) as [ru|];
    [|discriminate].
  destruct (theme_of db (UserModel.ID ru)) as [rt|]; [|discriminate].
  destruct (livecomment_by_id db (LivecommentReportModel.LivecommentID lr))
    as [lc|]; [|discriminate].
  destruct (user_by_id db (LivecommentModel.UserID lc)) as [u|]; [|discriminate].
  destruct (theme_of db (UserModel.ID u)) as [t|]; [|discriminate].
  destruct (livestream_by_id db (LivecommentModel.LivestreamID lc)) as [ls|];
    [|discriminate].
  intros H. inversion H; subst; clear H.
  unfold fillLivecommentReportResponse.
  cbn [LivecommentReportResponse.ReporterImage
       LivecommentReportResponse.LCUserImage LivecommentResponse.UserImage].
  rewrite !image_or_fallback_used. eexists. repeat split; reflexivity.
Qed.

(** The user of [getMeHandler] and [getUserHandler]. *)
Lemma user_lookup_IconHash (db : DB) (row : option UserModel.t) (user : User.t) :
  fetchUserDetails ReadFile db row = Ok user ->
  User.IconHash user = iconHash (used_avatar fallback (icon_of db (User.ID user))).
Proof.
  unfold fetchUserDetails.
  destruct row as [u|]; [|discriminate].
  destruct (theme_of db (UserModel.ID u)) as [t|]; [|discriminate].
  fold (image_or_fallback ReadFile (COALESCE (icon_of db (UserModel.ID u)))).
  rewrite image_or_fallback_used. intros H. inversion H. reflexivity.
Qed.

Lemma getUserHandler_IconHash (c : Context) (now : Z) (db db' : DB)
    (user : User.t) :
  run (getUserHandler ReadFile c now) db = (Ok (StatusOK, user), db') ->
  User.IconHash user = iconHash (used_avatar fallback (icon_of db (User.ID user))).
Proof.
  unfold run, getUserHandler, bind.
  destruct (verifyUserSession c now db) as [[u d] | e] eqn:Hv; [|discriminate].
  apply verifyUserSession_db in Hv. subst d.
  unfold user_details, bind, try, ret.
  destruct (fetchUserDetailsByName ReadFile db (Param c "username"))
    as [found | err] eqn:E.
  - intros H. inversion H; subst. now apply user_lookup_IconHash in E.
  - destruct (is_ErrNoRows err); discriminate.
Qed.

Lemma getMeHandler_IconHash (c : Context) (now : Z) (db db' : DB)
    (user : User.t) :
  run (getMeHandler ReadFile c now) db = (Ok (StatusOK, user), db') ->
  User.IconHash user = iconHash (used_avatar fallback (icon_of db (User.ID user))).
Proof.
  unfold run, getMeHandler, bind.
  destruct (verifyUserSession c now db) as [[u d] | e] eqn:Hv; [|discriminate].
  apply verifyUserSession_db in Hv. subst d.
  unfold user_details, bind, try, ret.
  destruct (fetchUserDetailsByID ReadFile db (session_userID c))
    as [found | err] eqn:E.
  - intros H. inversion H; subst. now apply user_lookup_IconHash in E.
  - destruct (is_ErrNoRows err); discriminate.
Qed.

(** C9, where the code goes another way: for a user whose row of [icons]
    holds an image of no bytes, [fillUserResponse] hashes the empty image,
    while the lookup of the same user hashes the fallback image, as the
    paths of comments and reports do. *)
Theorem fillUserResponse_empty_icon (db : DB) (u : UserModel.t) (t : ThemeModel.t) :
  user_by_id db (UserModel.ID u) = Some u ->
  theme_of db (UserModel.ID u) = Some t ->
  icon_of db (UserModel.ID u) = Some [] ->
  exists filled looked_up,
    fillUserResponse ReadFile db u = Ok filled /\
    fetchUserDetailsByID ReadFile db (UserModel.ID u) = Ok looked_up /\
    User.IconHash filled = iconHash [] /\
    User.IconHash looked_up = iconHash fallback.
Proof.
  intros Hu Ht Hi.
  unfold fillUserResponse, fetchUserDetailsByID, fetchUserDetails.
  rewrite Hu, Ht, Hi. simpl. rewrite ReadFile_fallback.
  do 2 eexists. repeat split; reflexivity.
Qed.

(** [fillUserResponseForRegisterHandler] hashes what the join returns: for
    a user with a theme and without an icon, the empty image of [COALESCE]. *)
Lemma fillUserResponseForRegisterHandler_no_icon (db : DB) (u : UserModel.t)
    (t : ThemeModel.t) :
  theme_of db (UserModel.ID u) = Some t ->
  icon_of db (ThemeModel.UserID t) = None ->
  exists user,
    fillUserResponseForRegisterHandler ReadFile db u = Ok user /\
    User.IconHash user = iconHash [].
Proof.
  intros Ht Hi. unfold fillUserResponseForRegisterHandler.
  rewrite Ht, Hi. eexists. split; reflexivity.
Qed.

(** [fetchUserDetailsByIDForReaction] hashes what the join returns: for a
    user without an icon, the empty image of [COALESCE]. *)
Lemma fetchUserDetailsByIDForReaction_no_icon (db : DB) (userID : Z)
    (u : UserModel.t) (t : ThemeModel.t) :
  user_by_id db userID = Some u ->
  theme_of db (UserModel.ID u) = Some t ->
  icon_of db (UserModel.ID u) = None ->
  exists user,
    fetchUserDetailsByIDForReaction ReadFile db userID = Ok user /\
    User.IconHash user = iconHash [].
Proof.
  intros Hu Ht Hi. unfold fetchUserDetailsByIDForReaction.
  rewrite Hu, Ht, Hi. eexists. split; reflexivity.
Qed.

End Profiles.

(** After user 1 has posted an icon of no bytes, the two resolutions of
    that user give two hashes. *)
Lemma fillUserResponse_empty_icon_witness :
  icon_of Sample.icon_db 1 = Some [] /\
  exists filled looked_up,
    fillUserResponse Sample.ReadFile Sample.icon_db Sample.streamer = Ok filled /\
    fetchUserDetailsByID Sample.ReadFile Sample.icon_db 1 = Ok looked_up /\
    User.IconHash filled
    = "e3b0c44298fc1c149afbf4c8996fb92427ae41e4649b934ca495991b7852b855" /\
    User.IconHash looked_up <> User.IconHash filled.
Proof.
  split; [reflexivity|].
  destruct (@fillUserResponse_empty_icon Sample.ReadFile Sample.fallback
              eq_refl Sample.icon_db Sample.streamer (ThemeModel.mk 1 1 true)
              eq_refl eq_refl eq_refl)
    as (filled & looked_up & Hf & Hl & Hhf & Hhl).
  exists filled, looked_up.
  split; [exact Hf|]. split; [exact Hl|]. split.
  - rewrite Hhf. vm_compute. reflexivity.
  - intros E. rewrite Hhf, Hhl in E. vm_compute in E. discriminate.
Defined.

(** * Properties of the handlers beyond the claims *)

(** ** What a step leaves alone *)

Section Preserves.

Context {T : Type} (view : DB -> T).

Lemma preserves_ret {A} (a : A) : preserves view (ret a).
Proof. intros db x db' H. now inversion H. Qed.

Lemma preserves_fail {A} (status : Status) (message : string) :
  preserves view (@fail A status message).
Proof. intros db x db' H. discriminate. Qed.

Lemma preserves_query {A} (q : DB -> A) : preserves view (query q).
Proof. intros db x db' H. now inversion H. Qed.

Lemma preserves_bind {A B} (m : Tx A) (k : A -> Tx B) :
  preserves view m -> (forall a, preserves view (k a)) ->
  preserves view (bind m k).
Proof.
  intros Hm Hk db b db2 H. unfold bind in H.
  destruct (m db) as [[a db1] | e] eqn:E; [|discriminate].
  rewrite (Hk a _ _ _ H). exact (Hm _ _ _ E).
Qed.

Lemma preserves_exec (w : DB -> DB) :
  (forall db, view (w db) = view db) -> preserves view (exec w).
Proof. intros Hw db x db' H. inversion H. apply Hw. Qed.

Lemma preserves_try {A} (r : DB -> Result error A) (on_error : error -> HTTPError) :
  preserves view (fun db => try (r db) on_error db).
Proof.
  intros db x db' H. unfold try in H. destruct (r db); now inversion H.
Qed.

Lemma preserves_try_const {A} (r : Result error A) (on_error : error -> HTTPError) :
  preserves view (try r on_error).
Proof. apply (preserves_try (fun _ => r)). Qed.

Lemma preserves_for_range {A} (l : list A) (body : A -> Tx unit) :
  (forall x, preserves view (body x)) -> preserves view (for_range l body).
Proof.
  intros Hb. induction l as [|x l IH]; simpl.
  - apply preserves_ret.
  - apply preserves_bind; [apply Hb | intros _; exact IH].
Qed.

Lemma preserves_map_range {A B} (l : list A) (body : A -> Tx B) :
  (forall x, preserves view (body x)) -> preserves view (map_range l body).
Proof.
  intros Hb. induction l as [|x l IH]; simpl.
  - apply preserves_ret.
  - apply preserves_bind; [apply Hb | intros y].
    apply preserves_bind; [exact IH | intros ys; apply preserves_ret].
Qed.

Lemma preserves_verifyUserSession (c : Context) (now : Z) :
  preserves view (verifyUserSession c now).
Proof. intros db u db' H. apply verifyUserSession_db in H. now subst. Qed.

Lemma preserves_atoi (s message : string) :
  preserves view (atoi_or_bad_request s message).
Proof.
  unfold atoi_or_bad_request.
  destruct (Atoi s); [apply preserves_ret | apply preserves_fail].
Qed.

Lemma preserves_decode {A} (body : option A) :
  preserves view (decode_or_bad_request body).
Proof.
  unfold decode_or_bad_request.
  destruct body; [apply preserves_ret | apply preserves_fail].
Qed.

Lemma preserves_get_livestream (id : Z) : preserves view (get_livestream id).
Proof.
  intros db x db' H. unfold get_livestream in H.
  destruct (livestream_by_id db id); now inversion H.
Qed.

Lemma preserves_get_livecomment (id : Z) : preserves view (get_livecomment id).
Proof.
  intros db x db' H. unfold get_livecomment in H.
  destruct (livecomment_by_id db id); now inversion H.
Qed.

Lemma preserves_livecomment_response (ReadFile : string -> Result error (list byte))
    (unsafe : bool) (id : Z) :
  preserves view (livecomment_response ReadFile unsafe id).
Proof.
  unfold livecomment_response.
  apply preserves_bind; [apply preserves_try | intros r; apply preserves_try_const].
Qed.

Lemma run_preserves {A} (m : Tx A) (db : DB) :
  preserves view m -> view (snd (run m db)) = view db.
Proof.
  intros Hm. unfold run. destruct (m db) as [[a db'] | e] eqn:E; simpl.
  - exact (Hm _ _ _ E).
  - reflexivity.
Qed.

End Preserves.

Ltac preserve :=
  repeat first
    [ progress cbv beta zeta
    | apply preserves_ret
    | apply preserves_fail
    | apply preserves_query
    | apply preserves_verifyUserSession
    | apply preserves_atoi
    | apply preserves_decode
    | apply preserves_get_livestream
    | apply preserves_get_livecomment
    | apply preserves_livecomment_response
    | apply preserves_try
    | apply preserves_try_const
    | apply preserves_bind; [|intros ?]
    | apply preserves_for_range; intros ?
    | apply preserves_map_range; intros ?
    | match goal with
      | |- preserves _ (if ?c then _ else _) => destruct c
      | |- preserves _ (match ?x with _ => _ end) => destruct x
      end ].

Section HandlersPreserve.

Context {T : Type} (view : DB -> T).
Variable collate : ascii -> ascii -> bool.
Variable ReadFile : string -> Result error (list byte).
Variable order : list LivecommentModel.t -> list LivecommentModel.t.
Variable order_ng_words : list NGWord.t -> list NGWord.t.
Variable unsafe : bool.

Lemma preserves_getLivecommentsHandler (c : Context) (now : Z) :
  preserves view (getLivecommentsHandler ReadFile order unsafe c now).
Proof.
  unfold getLivecommentsHandler. preserve.
  all: intros db x db' H;
    match type of H with
    | context [select_livecomments ?o ?s ?l ?d] =>
        destruct (select_livecomments o s l d) as [rows | err];
        [|destruct (is_ErrNoRows err)]
    end; now inversion H.
Qed.

Lemma preserves_getNgwords (c : Context) (now : Z) :
  preserves view (getNgwords order_ng_words c now).
Proof. unfold getNgwords. preserve. Qed.

Lemma preserves_user_details (r : Result error User.t) (not_found : string) :
  preserves view (user_details r not_found).
Proof. unfold user_details. preserve. Qed.

Lemma preserves_getMeHandler (c : Context) (now : Z) :
  preserves view (getMeHandler ReadFile c now).
Proof.
  unfold getMeHandler. preserve.
Qed.

Lemma preserves_getUserHandler (c : Context) (now : Z) :
  preserves view (getUserHandler ReadFile c now).
Proof.
  unfold getUserHandler. preserve.
Qed.

Lemma preserves_getIconHandler (c : Context) :
  preserves view (getIconHandler c).
Proof.
  intros db x db' H. unfold getIconHandler in H.
  destruct (user_by_name db (Param c "username")) as [u|]; [|discriminate].
  destruct (icon_of db (UserModel.ID u)); now inversion H.
Qed.

End HandlersPreserve.

Section ReadOnly.

Variable ReadFile : string -> Result error (list byte).
Variable order : list LivecommentModel.t -> list LivecommentModel.t.
Variable order_ng_words : list NGWord.t -> list NGWord.t.
Variable unsafe : bool.

(** X2: the handlers that list comments and NG words, look a user up and
    serve an icon write to no table, whatever the request and whatever the
    answer. *)
Theorem read_handlers_write_nothing (c : Context) (now : Z) (db : DB) :
  snd (run (getLivecommentsHandler ReadFile order unsafe c now) db) = db /\
  snd (run (getNgwords order_ng_words c now) db) = db /\
  snd (run (getMeHandler ReadFile c now) db) = db /\
  snd (run (getUserHandler ReadFile c now) db) = db /\
  snd (run (getIconHandler c) db) = db.
Proof.
  repeat split; apply run_preserves with (view := fun d : DB => d).
  - apply preserves_getLivecommentsHandler.
  - apply preserves_getNgwords.
  - apply preserves_getMeHandler.
  - apply preserves_getUserHandler.
  - apply preserves_getIconHandler.
Qed.

End ReadOnly.

(** ** The session gate *)

Lemma verifyUserSession_refuses (c : Context) (now : Z) (db : DB) :
  (forall userID, ~ authenticated c now userID) ->
  exists e,
    verifyUserSession c now db = Err e /\
    (Code e = StatusUnauthorized \/ Code e = StatusForbidden).
Proof.
  intros Hno. unfold verifyUserSession.
  destruct (session c) as [sess|] eqn:Hs;
    [|eexists; split; [reflexivity | now left]].
  destruct (Values sess defaultSessionExpiresKey) as [expires|] eqn:He;
    [|eexists; split; [reflexivity | now right]].
  destruct (Values sess defaultUserIDKey) as [userID|] eqn:Hu;
    [|eexists; split; [reflexivity | now left]].
  destruct (now >? expires) eqn:Hn;
    [eexists; split; [reflexivity | now left]|].
  exfalso. apply (Hno userID). exists sess, expires. repeat split; try assumption.
  rewrite Z.gtb_ltb in Hn. now apply Z.ltb_ge.
Qed.

Section Gate.

Variable collate : ascii -> ascii -> bool.
Variable ReadFile : string -> Result error (list byte).
Variable order : list LivecommentModel.t -> list LivecommentModel.t.
Variable order_ng_words : list NGWord.t -> list NGWord.t.
Variable unsafe : bool.

(** X1: a request without a session that [verifyUserSession] accepts (none,
    no EXPIRES, no USERID, or expired) is refused by every handler that
    starts with the check, with 401 or 403, before a parameter or the body
    is read, and nothing is written. *)
Theorem handlers_refuse_without_session (c : Context) (now : Z) (db : DB)
    (comment : option PostLivecommentRequest.t)
    (word : option ModerateRequest.t) (image : option PostIconRequest.t) :
  (forall userID, ~ authenticated c now userID) ->
  refused (run (getLivecommentsHandler ReadFile order unsafe c now) db) db /\
  refused (run (getNgwords order_ng_words c now) db) db /\
  refused (run (postLivecommentHandler collate ReadFile unsafe c comment now) db) db /\
  refused (run (reportLivecommentHandler ReadFile c now) db) db /\
  refused (run (moderateHandler collate c word now) db) db /\
  refused (run (postIconHandler c image now) db) db /\
  refused (run (getMeHandler ReadFile c now) db) db /\
  refused (run (getUserHandler ReadFile c now) db) db.
Proof.
  intros Hno.
  destruct (verifyUserSession_refuses db Hno) as (e & He & Hcode).
  repeat split; exists e; (split; [|exact Hcode]);
    apply run_Err; apply bind_Err; exact He.
Qed.

End Gate.

Lemma Sample_session_expired (userID : Z) (params queries : list (string * string)) :
  forall u, ~ authenticated (Sample.request userID params queries) Demo.late u.
Proof.
  intros u (sess & expires & Hs & He & _ & Hle).
  inversion Hs; subst sess. simpl in He. inversion He; subst expires.
  unfold Demo.late in Hle. lia.
Qed.

Lemma handlers_refuse_without_session_witness :
  refused (run (moderateHandler binary
                  (Sample.request 1 [("livestream_id", "1")] [])
                  (Some (ModerateRequest.mk "banana")) Demo.late) Sample.db)
          Sample.db.
Proof.
  apply (@handlers_refuse_without_session binary Sample.ReadFile stable_order
           stable_word_order true
           (Sample.request 1 [("livestream_id", "1")] []) Demo.late Sample.db
           None (Some (ModerateRequest.mk "banana")) None).
  apply Sample_session_expired.
Defined.

(** ** What the writing handlers leave alone *)

Section Frames.

Variable collate : ascii -> ascii -> bool.
Variable ReadFile : string -> Result error (list byte).
Variable unsafe : bool.

Lemma preserves_postLivecommentHandler (c : Context)
    (body : option PostLivecommentRequest.t) (now : Z) :
  preserves all_but_livecomments
    (postLivecommentHandler collate ReadFile unsafe c body now).
Proof.
  unfold postLivecommentHandler. preserve.
  intros db x db' H. now inversion H.
Qed.

Lemma preserves_reportLivecommentHandler (c : Context) (now : Z) :
  preserves all_but_reports (reportLivecommentHandler ReadFile c now).
Proof.
  unfold reportLivecommentHandler. preserve.
  intros db x db' H. now inversion H.
Qed.

Lemma preserves_moderateHandler (c : Context) (body : option ModerateRequest.t)
    (now : Z) :
  preserves all_but_moderation (moderateHandler collate c body now).
Proof.
  unfold moderateHandler. preserve.
  - intros db x db' H. now inversion H.
  - apply preserves_exec. reflexivity.
Qed.

Lemma preserves_postIconHandler (c : Context) (body : option PostIconRequest.t)
    (now : Z) :
  preserves all_but_icons (postIconHandler c body now).
Proof.
  unfold postIconHandler. preserve.
  - apply preserves_exec. reflexivity.
  - intros db x db' H. now inversion H.
Qed.

(** X3: whatever the request, a submission writes to the comments only, a
    report to the reports only, an icon to the icons only, and a
    registration of an NG word to the NG words and the comments only; the
    users, themes and streams are written by none of them. *)
Theorem writing_handlers_frames (c : Context) (now : Z) (db : DB)
    (comment : option PostLivecommentRequest.t)
    (word : option ModerateRequest.t) (image : option PostIconRequest.t) :
  all_but_livecomments
    (snd (run (postLivecommentHandler collate ReadFile unsafe c comment now) db))
  = all_but_livecomments db /\
  all_but_reports (snd (run (reportLivecommentHandler ReadFile c now) db))
  = all_but_reports db /\
  all_but_moderation (snd (run (moderateHandler collate c word now) db))
  = all_but_moderation db /\
  all_but_icons (snd (run (postIconHandler c image now) db))
  = all_but_icons db.
Proof.
  repeat split; apply run_preserves.
  - apply preserves_postLivecommentHandler.
  - apply preserves_reportLivecommentHandler.
  - apply preserves_moderateHandler.
  - apply preserves_postIconHandler.
Qed.

End Frames.

(** ** The invariant of the comments *)

Lemma verifyUserSession_Ok (c : Context) (now : Z) (db db' : DB) (u : unit) :
  verifyUserSession c now db = Ok (u, db') ->
  authenticated c now (session_userID c).
Proof.
  unfold verifyUserSession, session_userID, authenticated, fail, ret.
  destruct (session c) as [sess|]; [|discriminate].
  destruct (Values sess defaultSessionExpiresKey) as [expires|] eqn:He;
    [|discriminate].
  destruct (Values sess defaultUserIDKey) as [userID|] eqn:Hu; [|discriminate].
  destruct (now >? expires) eqn:Hn; [discriminate|]. intros _.
  exists sess, expires. repeat split; try assumption.
  rewrite Z.gtb_ltb in Hn. now apply Z.ltb_ge.
Qed.

Lemma joinable_same_references (db db' : DB) (lc : LivecommentModel.t) :
  reference_tables db' = reference_tables db ->
  joinable db lc -> joinable db' lc.
Proof.
  unfold reference_tables. intros H. inversion H as [[Hu Ht Hl]].
  unfold joinable, has_profile, user_by_id, theme_of, livestream_by_id.
  now rewrite Hu, Ht, Hl.
Qed.

Section Inversion.

Variable collate : ascii -> ascii -> bool.
Variable ReadFile : string -> Result error (list byte).
Variable unsafe : bool.

(** What a registration that succeeds has done. *)
Lemma moderateHandler_Ok (c : Context) (body : option ModerateRequest.t)
    (now : Z) (db db' : DB) (out : Status * list (string * Z)) :
  moderateHandler collate c body now db = Ok (out, db') ->
  exists livestreamID req keep,
    authenticated c now (session_userID c) /\
    Atoi (Param c "livestream_id") = Some livestreamID /\
    body = Some req /\
    owns db (session_userID c) livestreamID /\
    out = (StatusCreated, [("word_id", ng_words_auto_increment db)]) /\
    ng_words db'
    = ng_words db ++
      [NGWord.mk (ng_words_auto_increment db) (session_userID c) livestreamID
                 (ModerateRequest.NGWord req) now] /\
    ng_words_auto_increment db' = ng_words_auto_increment db + 1 /\
    livecomments db' = filter keep (livecomments db) /\
    (forall row, keep row = false ->
                 LivecommentModel.LivestreamID row = livestreamID).
Proof.
  unfold moderateHandler. unfold bind at 1.
  destruct (verifyUserSession c now db) as [[u d] | e] eqn:Hv; [|discriminate].
  pose proof (verifyUserSession_Ok _ _ _ Hv) as Hauth.
  apply verifyUserSession_db in Hv. subst d.
  unfold atoi_or_bad_request.
  destruct (Atoi (Param c "livestream_id")) as [livestreamID|];
    [|discriminate].
  unfold bind at 1, ret at 1.
  destruct body as [req|]; [|discriminate].
  unfold bind at 1, decode_or_bad_request, ret at 1.
  unfold bind at 1, query at 1.
  destruct (select_owned_livestreams livestreamID (session_userID c) db)
    as [|ls l] eqn:Eo; [discriminate|].
  simpl List.length. cbv iota beta. simpl Nat.eqb. cbv iota.
  unfold bind at 1, ret at 1.
  unfold bind at 1, insert_ng_word. cbv beta iota zeta.
  unfold bind at 1, query at 1.
  unfold bind at 1.
  match goal with
  | |- context [for_range ?ws ?body ?d] =>
      destruct (purge_only_stream collate livestreamID ws d) as (keep & E & Hk)
  end.
  rewrite E. unfold ret. intros H. inversion H; subst.
  exists livestreamID, req, keep. repeat split; try assumption; try reflexivity.
  apply select_owned_livestreams_owns. rewrite Eo. discriminate.
Qed.

(** What a submission that succeeds has done. *)
Lemma postLivecommentHandler_Ok (c : Context)
    (body : option PostLivecommentRequest.t) (now : Z) (db db' : DB)
    (out : Status * Livecomment.t) :
  postLivecommentHandler collate ReadFile unsafe c body now db = Ok (out, db') ->
  exists livestreamID req livecomment,
    authenticated c now (session_userID c) /\
    Atoi (Param c "livestream_id") = Some livestreamID /\
    body = Some req /\
    out = (StatusCreated, livecomment) /\
    db' = set_livecomments
            (livecomments db ++
             [new_livecomment db (session_userID c) livestreamID req now])
            (livecomments_auto_increment db + 1) db /\
    livecomment_response ReadFile unsafe (livecomments_auto_increment db) db'
    = Ok (livecomment, db').
Proof.
  unfold postLivecommentHandler. unfold bind at 1.
  destruct (verifyUserSession c now db) as [[u d] | e] eqn:Hv; [|discriminate].
  pose proof (verifyUserSession_Ok _ _ _ Hv) as Hauth.
  apply verifyUserSession_db in Hv. subst d.
  unfold atoi_or_bad_request.
  destruct (Atoi (Param c "livestream_id")) as [livestreamID|];
    [|discriminate].
  unfold bind at 1, ret at 1.
  destruct body as [req|]; [|discriminate].
  unfold bind at 1, decode_or_bad_request, ret at 1.
  unfold bind at 1, get_livestream.
  destruct (livestream_by_id db livestreamID) as [ls|]; [|discriminate].
  unfold bind at 1, query at 1.
  unfold bind at 1.
  rewrite (for_range_reject
             (fun w => 1 <=? hitSpam collate (PostLivecommentRequest.Comment req)
                                     (NGWord.Word w))).
  destruct (existsb _ _); [discriminate|].
  unfold bind at 1, insert_livecomment. cbv beta iota zeta.
  change (LivecommentModel.mk _ _ _ _ _ _)
    with (new_livecomment db (session_userID c) livestreamID req now).
  unfold bind at 1.
  match goal with
  | |- context [livecomment_response ReadFile unsafe ?i ?d] =>
      destruct (livecomment_response ReadFile unsafe i d) as [[lc d1] | e] eqn:Er;
      [|discriminate]
  end.
  pose proof (preserves_livecomment_response (fun d : DB => d) _ _ _ _ Er) as Hd.
  simpl in Hd. subst d1.
  unfold ret. intros H. inversion H; subst.
  exists livestreamID, req, lc. repeat split; try assumption; reflexivity.
Qed.

End Inversion.

Lemma livecomment_by_id_appended (db : DB) (row : LivecommentModel.t) (n : Z) :
  ids_below_counter db ->
  LivecommentModel.ID row = livecomments_auto_increment db ->
  livecomment_by_id
    (set_livecomments (livecomments db ++ [row]) n db)
    (livecomments_auto_increment db)
  = Some row.
Proof.
  intros Hbelow Hid. unfold livecomment_by_id.
  cbn [livecomments set_livecomments]. rewrite find_app.
  destruct (find _ (livecomments db)) as [x|] eqn:E.
  - apply find_some in E as [Hin Hx]. apply Z.eqb_eq in Hx.
    specialize (Hbelow x Hin). lia.
  - simpl. rewrite Hid, Z.eqb_refl. reflexivity.
Qed.

(** A response for a comment shows that the comment joins. *)
Lemma livecomment_response_joinable (ReadFile : string -> Result error (list byte))
    (unsafe : bool) (db db' : DB) (id : Z) (lc : LivecommentModel.t)
    (r : Livecomment.t) :
  livecomment_by_id db id = Some lc ->
  livecomment_response ReadFile unsafe id db = Ok (r, db') ->
  unsafe = true /\ joinable db lc.
Proof.
  intros Hlc. unfold livecomment_response, bind, try, getLivecommentData.
  destruct unsafe; [|discriminate].
  unfold join_livecomment. rewrite Hlc.
  destruct (user_by_id db (LivecommentModel.UserID lc)) as [u|] eqn:Hu;
    [|discriminate].
  destruct (theme_of db (UserModel.ID u)) as [t|] eqn:Ht; [|discriminate].
  destruct (livestream_by_id db (LivecommentModel.LivestreamID lc)) as [ls|] eqn:Hl;
    [|discriminate].
  intros _. split; [reflexivity|].
  split; [now exists u, t | now exists ls].
Qed.

Section Invariant.

Variable collate : ascii -> ascii -> bool.
Variable ReadFile : string -> Result error (list byte).
Variable unsafe : bool.

(** A submission that is accepted was made on a connection in unsafe
    mode and leaves the comments consistent. *)
Lemma postLivecommentHandler_Ok_consistent (c : Context)
    (body : option PostLivecommentRequest.t) (now : Z) (db db' : DB)
    (out : Status * Livecomment.t) :
  postLivecommentHandler collate ReadFile unsafe c body now db = Ok (out, db') ->
  consistent db ->
  unsafe = true /\ consistent db'.
Proof.
  intros E (Hnd & Hbelow & Href).
  apply postLivecommentHandler_Ok in E
    as (livestreamID & req & lc & _ & _ & _ & _ & Hdb & Hr).
  set (row := new_livecomment db (session_userID c) livestreamID req now) in *.
  assert (Hrow : livecomment_by_id db' (livecomments_auto_increment db) = Some row)
    by (subst db'; now apply livecomment_by_id_appended).
  destruct (@livecomment_response_joinable ReadFile unsafe db' db' _ row lc
              Hrow Hr) as [Hunsafe Hjoin].
  assert (Hrefs : reference_tables db' = reference_tables db)
    by (subst db'; reflexivity).
  split; [exact Hunsafe|].
  subst db'. split; [|split].
  - unfold unique_ids. cbn [livecomments set_livecomments].
    rewrite map_app. simpl.
    apply Permutation_NoDup
      with (l := LivecommentModel.ID row :: map LivecommentModel.ID (livecomments db)).
    + apply Permutation_cons_append.
    + constructor; [|exact Hnd].
      intros Hin. apply in_map_iff in Hin as (x & Hx & Hin).
      specialize (Hbelow x Hin). simpl in Hx. lia.
  - intros x Hin. cbn [livecomments set_livecomments livecomments_auto_increment] in *.
    apply in_app_or in Hin as [Hin | [<- | []]].
    + specialize (Hbelow x Hin). lia.
    + simpl. lia.
  - intros x Hin. cbn [livecomments set_livecomments] in Hin.
    apply in_app_or in Hin as [Hin | [<- | []]].
    + apply joinable_same_references with (db := db); [exact Hrefs | now apply Href].
    + exact Hjoin.
Qed.

(** X4: a submission keeps the comments consistent, whatever the request:
    when it is accepted the new comment has an id that no other comment
    has, below the new counter, and it joins to its author and its stream,
    for the transaction is rolled back when the join finds no author, theme
    or stream. *)
Theorem postLivecommentHandler_consistent (c : Context)
    (body : option PostLivecommentRequest.t) (now : Z) (db : DB) :
  consistent db ->
  consistent
    (snd (run (postLivecommentHandler collate ReadFile unsafe c body now) db)).
Proof.
  intros Hdb. unfold run.
  destruct (postLivecommentHandler collate ReadFile unsafe c body now db)
    as [[out db'] | e] eqn:E; simpl; [|exact Hdb].
  now destruct (postLivecommentHandler_Ok_consistent _ _ _ E Hdb).
Qed.

(** X5: a registration of an NG word keeps the comments consistent,
    whatever the request: the purge takes comments away and changes none. *)
Theorem moderateHandler_consistent (c : Context)
    (body : option ModerateRequest.t) (now : Z) (db : DB) :
  consistent db ->
  consistent (snd (run (moderateHandler collate c body now) db)).
Proof.
  intros (Hnd & Hbelow & Href). unfold run.
  destruct (moderateHandler collate c body now db) as [[out db'] | e] eqn:E;
    simpl; [|exact (conj Hnd (conj Hbelow Href))].
  pose proof (@preserves_moderateHandler collate c body now db out db' E)
    as Hframe.
  apply moderateHandler_Ok in E
    as (livestreamID & req & keep & _ & _ & _ & _ & _ & _ & _ & Hl & _).
  assert (Hcounter : livecomments_auto_increment db' = livecomments_auto_increment db)
    by (unfold all_but_moderation in Hframe; congruence).
  assert (Hrefs : reference_tables db' = reference_tables db)
    by (unfold all_but_moderation in Hframe; congruence).
  split; [|split].
  - unfold unique_ids. rewrite Hl. now apply NoDup_map_filter.
  - intros x Hin. rewrite Hl in Hin. apply filter_In in Hin as [Hin _].
    rewrite Hcounter. now apply Hbelow.
  - intros x Hin. rewrite Hl in Hin. apply filter_In in Hin as [Hin _].
    apply joinable_same_references with (db := db); [exact Hrefs | now apply Href].
Qed.

(** The invariant of the words: a registration stores the word under the
    id of the session, which it has checked to own the stream, and no
    handler writes another row of [ng_words] or a row of [livestreams].  So
    every handler that writes leaves every word registered by the owner of
    its stream. *)
Lemma registered_by_owner_same (db db' : DB) :
  ng_words db' = ng_words db -> livestreams db' = livestreams db ->
  registered_by_owner db -> registered_by_owner db'.
Proof.
  intros Hw Hl Hreg w Hin. rewrite Hw in Hin.
  destruct (Hreg w Hin) as (ls & Hls & H). exists ls. now rewrite Hl.
Qed.

Lemma handlers_keep_registered_by_owner (c : Context) (now : Z) (db : DB)
    (comment : option PostLivecommentRequest.t)
    (word : option ModerateRequest.t) (image : option PostIconRequest.t) :
  registered_by_owner db ->
  registered_by_owner (snd (run (moderateHandler collate c word now) db)) /\
  registered_by_owner
    (snd (run (postLivecommentHandler collate ReadFile unsafe c comment now) db)) /\
  registered_by_owner (snd (run (reportLivecommentHandler ReadFile c now) db)) /\
  registered_by_owner (snd (run (postIconHandler c image now) db)).
Proof.
  intros Hreg. split; [|split; [|split]].
  - unfold run.
    destruct (moderateHandler collate c word now db) as [[out db'] | e] eqn:E;
      simpl; [|exact Hreg].
    pose proof (@preserves_moderateHandler collate c word now db out db' E)
      as Hframe.
    assert (Hl : livestreams db' = livestreams db)
      by (unfold all_but_moderation, reference_tables in Hframe; congruence).
    apply moderateHandler_Ok in E
      as (livestreamID & req & keep & _ & _ & _ & Hown & _ & Hwords & _).
    intros w Hin. rewrite Hwords in Hin. apply in_app_or in Hin as [Hin | Hin].
    + destruct (Hreg w Hin) as (ls & Hls & H). exists ls. now rewrite Hl.
    + destruct Hin as [<- | []]. destruct Hown as (ls & Hls & H).
      exists ls. now rewrite Hl.
  - pose proof (@run_preserves _ all_but_livecomments _ _ db
                  (@preserves_postLivecommentHandler collate ReadFile unsafe c
                     comment now)) as Hframe.
    apply registered_by_owner_same with (db := db); [| |exact Hreg];
      unfold all_but_livecomments, reference_tables in Hframe; congruence.
  - pose proof (@run_preserves _ all_but_reports _ _ db
                  (@preserves_reportLivecommentHandler ReadFile c now)) as Hframe.
    apply registered_by_owner_same with (db := db); [| |exact Hreg];
      unfold all_but_reports, reference_tables in Hframe; congruence.
  - pose proof (@run_preserves _ all_but_icons _ _ db
                  (@preserves_postIconHandler c image now)) as Hframe.
    apply registered_by_owner_same with (db := db); [| |exact Hreg];
      unfold all_but_icons, reference_tables in Hframe; congruence.
Qed.

End Invariant.

Lemma Sample_consistent : consistent Sample.db.
Proof.
  split; [apply Sample_unique_ids | split; [|apply Sample_references_hold]].
  intros lc Hin. simpl in Hin.
  destruct Hin as [<- | [<- | [<- | [<- | []]]]]; simpl; lia.
Qed.

Lemma postLivecommentHandler_consistent_witness :
  consistent (snd (Sample.post true 2 "good evening" Sample.db)).
Proof.
  apply (@postLivecommentHandler_consistent binary Sample.ReadFile true
           (Sample.request 2 [("livestream_id", "1")] [])
           (Some (PostLivecommentRequest.mk "good evening" 0)) Sample.now Sample.db).
  apply Sample_consistent.
Defined.

Lemma moderateHandler_consistent_witness :
  consistent (snd (Sample.moderate 1 "banana")).
Proof.
  apply (@moderateHandler_consistent binary
           (Sample.request 1 [("livestream_id", "1")] [])
           (Some (ModerateRequest.mk "banana")) Sample.now Sample.db).
  apply Sample_consistent.
Defined.

(** ** More on the listing *)

Lemma map_range_firstn {A B} (body : A -> Tx B) (l : list A) (n : nat)
    (db db' : DB) (ys : list B) :
  (forall x, preserves (fun d : DB => d) (body x)) ->
  map_range l body db = Ok (ys, db') ->
  map_range (firstn n l) body db = Ok (firstn n ys, db).
Proof.
  intros Hb. revert n ys db'.
  induction l as [|x l IH]; intros n ys db' H; simpl in H.
  - inversion H. now destruct n.
  - unfold bind in H.
    destruct (body x db) as [[y d1] | e] eqn:Ey; [|discriminate].
    pose proof (Hb x _ _ _ Ey) as Hd. simpl in Hd. subst d1.
    destruct (map_range l body db) as [[ys' d2] | e] eqn:El; [|discriminate].
    destruct n as [|n]; [inversion H; reflexivity|].
    simpl. unfold bind. rewrite Ey, (IH n ys' d2 eq_refl).
    inversion H. reflexivity.
Qed.

(** When no step writes, a loop that meets a failing element fails, with
    an error of the kind every failing element gives. *)
Lemma map_range_Err {A B} (P : HTTPError -> Prop) (body : A -> Tx B)
    (l : list A) (db : DB) :
  (forall x, In x l ->
             (exists y, body x db = Ok (y, db)) \/
             (exists e, body x db = Err e /\ P e)) ->
  (exists x e, In x l /\ body x db = Err e) ->
  exists e, map_range l body db = Err e /\ P e.
Proof.
  induction l as [|x l IH]; intros Hall (z & ez & Hz & Ez); [destruct Hz|].
  simpl. unfold bind.
  destruct (Hall x (or_introl eq_refl)) as [(y & Ey) | (e & Ee & HP)].
  - rewrite Ey.
    destruct IH as (e & He & HP).
    + intros w Hw. apply Hall. now right.
    + destruct Hz as [-> | Hz]; [congruence|]. now exists z, ez.
    + rewrite He. now exists e.
  - rewrite Ee. now exists e.
Qed.

Section Listing.

Variable ReadFile : string -> Result error (list byte).
Variable order : list LivecommentModel.t -> list LivecommentModel.t.
Variable unsafe : bool.

(** A response is assembled, or the error is a 500: the id of a row of the
    table always finds a row. *)
Lemma livecomment_response_cases (db : DB) (m : LivecommentModel.t) :
  In m (livecomments db) ->
  (exists r, livecomment_response ReadFile unsafe (LivecommentModel.ID m) db
             = Ok (r, db)) \/
  (exists e, livecomment_response ReadFile unsafe (LivecommentModel.ID m) db
             = Err e /\ Code e = StatusInternalServerError).
Proof.
  intros Hin. unfold livecomment_response, bind, try, getLivecommentData.
  destruct unsafe; [|right; eexists; split; reflexivity].
  unfold join_livecomment.
  destruct (livecomment_by_id db (LivecommentModel.ID m)) as [lc|] eqn:Hlc.
  - destruct (user_by_id db (LivecommentModel.UserID lc)) as [u|];
      [|right; eexists; split; reflexivity].
    destruct (theme_of db (UserModel.ID u)) as [t|];
      [|right; eexists; split; reflexivity].
    destruct (livestream_by_id db (LivecommentModel.LivestreamID lc)) as [ls|];
      [|right; eexists; split; reflexivity].
    unfold fillLivecommentResponse.
    destruct (image_or_fallback ReadFile _) as [image | err].
    + left. eexists. reflexivity.
    + right. eexists. split; reflexivity.
  - exfalso. unfold livecomment_by_id in Hlc.
    apply (find_none _ _ Hlc) in Hin. now rewrite Z.eqb_refl in Hin.
Qed.

(** Rows with timestamps of their own have one descending order. *)
Lemma created_desc_unique (l1 l2 : list LivecommentModel.t) :
  Permutation l1 l2 ->
  StronglySorted created_desc l1 -> StronglySorted created_desc l2 ->
  NoDup (map LivecommentModel.CreatedAt l1) ->
  l1 = l2.
Proof.
  revert l2. induction l1 as [|x l1 IH]; intros l2 Hp Hs1 Hs2 Hnd.
  - apply Permutation_nil in Hp. now subst.
  - destruct l2 as [|y l2];
      [apply Permutation_sym, Permutation_nil in Hp; discriminate|].
    inversion Hs1 as [|? ? Hs1' Hx]; subst.
    inversion Hs2 as [|? ? Hs2' Hy]; subst.
    inversion Hnd as [|? ? Hnx Hnd']; subst.
    assert (E : x = y).
    { assert (Hxin : In x (y :: l2))
        by (eapply Permutation_in; [exact Hp | now left]).
      assert (Hyin : In y (x :: l1))
        by (eapply Permutation_in; [apply Permutation_sym; exact Hp | now left]).
      destruct Hyin as [E | Hyin]; [exact E|].
      destruct Hxin as [E | Hxin]; [now symmetry|].
      rewrite Forall_forall in Hx, Hy.
      pose proof (Hx y Hyin) as H1. pose proof (Hy x Hxin) as H2.
      unfold created_desc in H1, H2.
      exfalso. apply Hnx.
      replace (LivecommentModel.CreatedAt x) with (LivecommentModel.CreatedAt y)
        by lia.
      now apply in_map. }
    subst y. f_equal.
    apply IH; [now apply Permutation_cons_inv with x | assumption..].
Qed.

(** Two engines agree on rows with timestamps of their own. *)
Lemma engines_agree (order1 order2 : list LivecommentModel.t -> list LivecommentModel.t)
    (rows : list LivecommentModel.t) :
  orders_by_created_at_desc order1 -> orders_by_created_at_desc order2 ->
  NoDup (map LivecommentModel.CreatedAt rows) ->
  order1 rows = order2 rows.
Proof.
  intros H1 H2 Hnd.
  destruct (H1 rows) as [Hp1 Hs1]. destruct (H2 rows) as [Hp2 Hs2].
  apply created_desc_unique; [|exact Hs1 | exact Hs2 |].
  - now rewrite <- Hp1, <- Hp2.
  - eapply Permutation_NoDup; [|exact Hnd]. now apply Permutation_map.
Qed.

(** X6: the statement with [LIMIT n] and the statement without are two
    statements, and the engine may put rows of one [created_at] in another
    order in each.  When the comments of the stream have timestamps of
    their own, a limit [n >= 0] cuts the answer of the same request
    without a limit down to its first [n] comments, whichever engine
    answers each statement. *)
Theorem getLivecommentsHandler_limit_prefix
    (order' : list LivecommentModel.t -> list LivecommentModel.t) (c : Context)
    (now userID livestreamID n : Z) (db db' : DB)
    (livecomments : list Livecomment.t) :
  orders_by_created_at_desc order ->
  orders_by_created_at_desc order' ->
  NoDup (map LivecommentModel.CreatedAt (comments_of livestreamID db)) ->
  authenticated c now userID ->
  Atoi (Param c "livestream_id") = Some livestreamID ->
  Atoi (QueryParam c "limit") = Some n ->
  0 <= n ->
  run (getLivecommentsHandler ReadFile order unsafe (without_limit c) now) db
  = (Ok (StatusOK, livecomments), db') ->
  run (getLivecommentsHandler ReadFile order' unsafe c now) db
  = (Ok (StatusOK, firstn (Z.to_nat n) livecomments), db).
Proof.
  intros Horder Horder' Hties Hauth Hparam Hlimit Hn Hall.
  assert (Hauth' : authenticated (without_limit c) now userID) by exact Hauth.
  unfold run in Hall.
  rewrite (@getLivecommentsHandler_steps ReadFile order unsafe (without_limit c)
             now userID livestreamID None db Hauth' Hparam eq_refl) in Hall.
  unfold select_livecomments in Hall. unfold bind at 1 in Hall.
  destruct (map_range _ _ db) as [[ys d] | e] eqn:Em; [|discriminate].
  unfold ret in Hall. inversion Hall; subst.
  apply run_Ok.
  rewrite (@getLivecommentsHandler_steps ReadFile order' unsafe c now userID
             livestreamID (Some n) db Hauth Hparam).
  - unfold select_livecomments.
    destruct (n <? 0) eqn:E; [apply Z.ltb_lt in E; lia|].
    fold (comments_of livestreamID db) in Em |- *.
    rewrite (@engines_agree order' order _ Horder' Horder Hties).
    unfold bind.
    erewrite map_range_firstn; [reflexivity | | exact Em].
    intros x. apply preserves_livecomment_response.
  - destruct (QueryParam c "limit"); [discriminate|].
    rewrite Hlimit. reflexivity.
Qed.

(** X7: the listing is all or nothing.  When one comment of the stream
    does not join to an author, a theme and a stream, the answer is 500 and
    no comment is returned. *)
Theorem getLivecommentsHandler_all_or_nothing (c : Context)
    (now userID livestreamID : Z) (row : LivecommentModel.t) (db : DB) :
  orders_by_created_at_desc order ->
  authenticated c now userID ->
  Atoi (Param c "livestream_id") = Some livestreamID ->
  QueryParam c "limit" = "" ->
  unique_ids db ->
  In row (comments_of livestreamID db) ->
  ~ joinable db row ->
  exists e,
    run (getLivecommentsHandler ReadFile order unsafe c now) db = (Err e, db) /\
    Code e = StatusInternalServerError.
Proof.
  intros Horder Hauth Hparam Hlimit Hnd Hrow Hbad.
  destruct (Horder (comments_of livestreamID db)) as [Hperm _].
  destruct (@map_range_Err _ _ (fun e => Code e = StatusInternalServerError)
              (fun m => livecomment_response ReadFile unsafe (LivecommentModel.ID m))
              (order (comments_of livestreamID db)) db) as (e & He & Hcode).
  - intros m Hm. apply livecomment_response_cases.
    apply (Permutation_in _ (Permutation_sym Hperm)) in Hm.
    now apply filter_In in Hm.
  - assert (Hin : In row (livecomments db)) by (now apply filter_In in Hrow).
    destruct (livecomment_response_cases db row Hin) as [(r & Hr) | (e & He & _)].
    + exfalso. apply Hbad.
      now apply (@livecomment_response_joinable ReadFile unsafe db db _ row r
                   (livecomment_by_id_unique _ Hnd Hin)).
    + exists row, e. split; [|exact He]. now apply (Permutation_in _ Hperm).
  - exists e. split; [|exact Hcode]. apply run_Err.
    rewrite (@getLivecommentsHandler_steps ReadFile order unsafe c now userID
               livestreamID None db Hauth Hparam) by now rewrite Hlimit.
    unfold select_livecomments. fold (comments_of livestreamID db).
    unfold bind. now rewrite He.
Qed.

End Listing.

Lemma reverse_tie_order_spec : orders_by_created_at_desc reverse_tie_order.
Proof.
  intros rows. unfold reverse_tie_order.
  destruct (stable_order_spec (rev rows)) as [Hp Hs].
  split; [|exact Hs]. now rewrite <- Hp, <- Permutation_rev.
Qed.

Lemma getLivecommentsHandler_limit_prefix_witness :
  exists livecomments,
    run (getLivecommentsHandler Sample.ReadFile reverse_tie_order true
           (Sample.request 2 [("livestream_id", "1")] [("limit", "1")])
           Sample.now) Demo.no_ties_db
    = (Ok (StatusOK, firstn 1 livecomments), Demo.no_ties_db) /\
    Sample.list true "1" "" Demo.no_ties_db
    = (Ok (StatusOK, livecomments), Demo.no_ties_db) /\
    List.length livecomments = 2%nat.
Proof.
  eexists. split; [|split].
  - apply (@getLivecommentsHandler_limit_prefix Sample.ReadFile stable_order true
             reverse_tie_order
             (Sample.request 2 [("livestream_id", "1")] [("limit", "1")])
             Sample.now 2 1 1 Demo.no_ties_db Demo.no_ties_db).
    + apply stable_order_spec.
    + apply reverse_tie_order_spec.
    + simpl. repeat constructor; simpl; intuition discriminate.
    + apply Sample_authenticated.
    + reflexivity.
    + reflexivity.
    + lia.
    + vm_compute. reflexivity.
  - vm_compute. reflexivity.
  - reflexivity.
Defined.

(** Why the timestamps have to differ: "hello world" and "free banana
    today" are of one second, the two engines put them in opposite orders,
    and the answer with limit 2 of one is not the start of the answer
    without a limit of the other. *)
Lemma limit_prefix_with_ties :
  exists all two,
    Sample.list true "1" "" Sample.db = (Ok (StatusOK, all), Sample.db) /\
    run (getLivecommentsHandler Sample.ReadFile reverse_tie_order true
           (Sample.request 2 [("livestream_id", "1")] [("limit", "2")])
           Sample.now) Sample.db
    = (Ok (StatusOK, two), Sample.db) /\
    map Livecomment.ID all = [3; 1; 2] /\
    map Livecomment.ID two = [3; 2].
Proof.
  eexists. eexists. split; [vm_compute; reflexivity|].
  split; [vm_compute; reflexivity|]. split; reflexivity.
Qed.

Lemma getLivecommentsHandler_all_or_nothing_witness :
  exists e,
    Sample.list true "1" "" Demo.orphan_db = (Err e, Demo.orphan_db) /\
    Code e = StatusInternalServerError.
Proof.
  apply (@getLivecommentsHandler_all_or_nothing Sample.ReadFile stable_order true
           (Sample.request 2 [("livestream_id", "1")] [("limit", "")])
           Sample.now 2 1 (LivecommentModel.mk 5 9 1 "lost" 0 930)
           Demo.orphan_db).
  - apply stable_order_spec.
  - apply Sample_authenticated.
  - reflexivity.
  - reflexivity.
  - unfold unique_ids. simpl.
    repeat (constructor; [simpl; intuition discriminate|]). constructor.
  - simpl. auto 10.
  - intros [(u & t & Hu & _) _]. discriminate.
Defined.

Section SafeConnection.

Variable ReadFile : string -> Result error (list byte).
Variable order : list LivecommentModel.t -> list LivecommentModel.t.

(** X8: on a connection that is not in the unsafe mode of sqlx the
    listing of a stream with a comment is answered with 500, without a limit
    and with a positive one: the scan of the first comment stops at the
    column [tag_id], for which [LivecommentResponse] has no field. *)
Theorem getLivecommentsHandler_safe_connection (c : Context)
    (now userID livestreamID : Z) (db : DB) :
  orders_by_created_at_desc order ->
  authenticated c now userID ->
  Atoi (Param c "livestream_id") = Some livestreamID ->
  QueryParam c "limit" = "" \/
  (exists n, Atoi (QueryParam c "limit") = Some n /\ 0 < n) ->
  comments_of livestreamID db <> [] ->
  run (getLivecommentsHandler ReadFile order false c now) db
  = (Err (NewHTTPError StatusInternalServerError
            "failed to get livecomment: missing destination name tag_id in *main.LivecommentResponse"),
     db).
Proof.
  intros Horder Hauth Hparam Hlimit Hsome.
  destruct (Horder (comments_of livestreamID db)) as [Hperm _].
  destruct (order (comments_of livestreamID db)) as [|m rows] eqn:E.
  { apply Permutation_sym, Permutation_nil in Hperm. contradiction. }
  apply run_Err.
  destruct Hlimit as [Hlimit | (n & Hlimit & Hn)].
  - rewrite (@getLivecommentsHandler_steps ReadFile order false c now userID
               livestreamID None db Hauth Hparam) by now rewrite Hlimit.
    unfold select_livecomments. fold (comments_of livestreamID db).
    rewrite E. reflexivity.
  - rewrite (@getLivecommentsHandler_steps ReadFile order false c now userID
               livestreamID (Some n) db Hauth Hparam).
    + unfold select_livecomments. fold (comments_of livestreamID db).
      rewrite E.
      destruct (n <? 0) eqn:En; [apply Z.ltb_lt in En; lia|].
      destruct (Z.to_nat n) as [|k] eqn:Ek; [lia|]. reflexivity.
    + destruct (QueryParam c "limit"); [discriminate|].
      rewrite Hlimit. reflexivity.
Qed.

End SafeConnection.

Lemma getLivecommentsHandler_safe_connection_witness :
  exists e,
    Sample.list false "1" "2" Sample.db = (Err e, Sample.db) /\
    Code e = StatusInternalServerError.
Proof.
  eexists. split.
  - apply (@getLivecommentsHandler_safe_connection Sample.ReadFile stable_order
             (Sample.request 2 [("livestream_id", "1")] [("limit", "2")])
             Sample.now 2 1 Sample.db).
    + apply stable_order_spec.
    + apply Sample_authenticated.
    + reflexivity.
    + right. exists 2. split; [reflexivity | lia].
    + discriminate.
  - reflexivity.
Defined.

(** ** A submission and what follows it *)

Lemma Forall2_In_l {A B} (R : A -> B -> Prop) (l : list A) (l' : list B) (x : A) :
  Forall2 R l l' -> In x l -> exists y, In y l' /\ R x y.
Proof.
  induction 1 as [|a b l l' Hab _ IH]; intros Hin; [destruct Hin|].
  destruct Hin as [-> | Hin].
  - exists b. split; [now left | exact Hab].
  - destruct (IH Hin) as (y & Hy & Hr). exists y. split; [now right | exact Hr].
Qed.

Section PostThenList.

Variable collate : ascii -> ascii -> bool.
Variable ReadFile : string -> Result error (list byte).
Variable order : list LivecommentModel.t -> list LivecommentModel.t.
Variable unsafe : bool.

(** The listing without a limit, element by element. *)
Lemma getLivecommentsHandler_lists (c : Context) (now userID livestreamID : Z)
    (fallback : list byte) (db : DB) :
  orders_by_created_at_desc order ->
  unsafe = true ->
  authenticated c now userID ->
  Atoi (Param c "livestream_id") = Some livestreamID ->
  QueryParam c "limit" = "" ->
  unique_ids db ->
  references_hold db ->
  ReadFile fallbackImage = Ok fallback ->
  exists livecomments,
    run (getLivecommentsHandler ReadFile order unsafe c now) db
    = (Ok (StatusOK, livecomments), db) /\
    Forall2 (fun m r =>
               livecomment_response ReadFile unsafe (LivecommentModel.ID m) db
               = Ok (r, db))
            (order (comments_of livestreamID db)) livecomments.
Proof.
  intros Horder Hunsafe Hauth Hparam Hlimit Hnd Href Hread.
  destruct (Horder (comments_of livestreamID db)) as [Hperm _].
  destruct (@map_range_Ok _ _
              (fun m r =>
                 livecomment_response ReadFile unsafe (LivecommentModel.ID m) db
                 = Ok (r, db))
              (fun m => livecomment_response ReadFile unsafe (LivecommentModel.ID m))
              (order (comments_of livestreamID db)) db) as (L & HL & HF).
  { intros m Hm.
    apply (Permutation_in _ (Permutation_sym Hperm)) in Hm.
    apply filter_In in Hm as [Hm _].
    destruct (@livecomment_response_Ok ReadFile unsafe Hunsafe fallback Hread db _ m
                (livecomment_by_id_unique _ Hnd Hm) (Href m Hm))
      as (r & Hr & _).
    now exists r. }
  exists L. split; [|exact HF].
  apply run_Ok.
  rewrite (@getLivecommentsHandler_steps ReadFile order unsafe c now userID
             livestreamID None db Hauth Hparam) by now rewrite Hlimit.
  unfold select_livecomments. fold (comments_of livestreamID db).
  unfold bind. now rewrite HL.
Qed.

(** X9: a comment that has been accepted is in the next listing of its
    stream, as the value the submission returned, when the tables were
    consistent and the fallback image can be read. *)
Theorem post_then_list (c c' : Context) (body : option PostLivecommentRequest.t)
    (now now' userID' : Z) (fallback : list byte) (db db' : DB)
    (out : Status * Livecomment.t) :
  orders_by_created_at_desc order ->
  consistent db ->
  ReadFile fallbackImage = Ok fallback ->
  run (postLivecommentHandler collate ReadFile unsafe c body now) db
  = (Ok out, db') ->
  authenticated c' now' userID' ->
  Param c' "livestream_id" = Param c "livestream_id" ->
  QueryParam c' "limit" = "" ->
  exists livecomments,
    run (getLivecommentsHandler ReadFile order unsafe c' now') db'
    = (Ok (StatusOK, livecomments), db') /\
    In (snd out) livecomments.
Proof.
  intros Horder Hdb Hread Hrun Hauth' Hsame Hlimit.
  unfold run in Hrun.
  destruct (postLivecommentHandler collate ReadFile unsafe c body now db)
    as [[out1 db1] | e] eqn:E; inversion Hrun; subst out1 db1; clear Hrun.
  destruct (@postLivecommentHandler_Ok_consistent collate ReadFile unsafe c body
              now db db' out E Hdb) as (Hunsafe & Hnd & _ & Href).
  apply postLivecommentHandler_Ok in E
    as (livestreamID & req & lc & _ & Hparam & _ & Hout & Hdb' & Hr).
  rewrite <- Hsame in Hparam.
  destruct (@getLivecommentsHandler_lists c' now' userID' livestreamID fallback db'
              Horder Hunsafe Hauth' Hparam Hlimit Hnd Href Hread)
    as (L & HL & HF).
  exists L. split; [exact HL|].
  destruct (Horder (comments_of livestreamID db')) as [Hperm _].
  set (row := new_livecomment db (session_userID c) livestreamID req now) in *.
  assert (Hin : In row (order (comments_of livestreamID db'))).
  { apply (Permutation_in _ Hperm). apply filter_In. split.
    - rewrite Hdb'. cbn [livecomments set_livecomments].
      apply in_or_app. right. now left.
    - simpl. apply Z.eqb_refl. }
  destruct (@Forall2_In_l _ _ _ _ _ row HF Hin) as (r & Hr_in & Hr').
  change (LivecommentModel.ID row) with (livecomments_auto_increment db) in Hr'.
  rewrite Hr in Hr'. inversion Hr'; subst r. now rewrite Hout.
Qed.

(** X10: a submission with a body that does not decode is answered with
    400, and one to a stream that has no row with 404; in both cases
    nothing is written. *)
Theorem postLivecommentHandler_no_stream (c : Context)
    (body : option PostLivecommentRequest.t) (now userID livestreamID : Z)
    (db : DB) :
  authenticated c now userID ->
  Atoi (Param c "livestream_id") = Some livestreamID ->
  livestream_by_id db livestreamID = None ->
  run (postLivecommentHandler collate ReadFile unsafe c body now) db
  = (Err match body with
         | None => NewHTTPError StatusBadRequest
                     "failed to decode the request body as json"
         | Some _ => NewHTTPError StatusNotFound "livestream not found"
         end,
     db).
Proof.
  intros Hauth Hparam Hnone.
  destruct (verifyUserSession_authenticated db Hauth) as [Hv _].
  apply run_Err. unfold postLivecommentHandler.
  erewrite bind_Ok by exact Hv.
  unfold atoi_or_bad_request. rewrite Hparam.
  unfold bind at 1, ret at 1.
  destruct body as [req|]; [|reflexivity].
  unfold bind at 1, decode_or_bad_request, ret at 1.
  unfold bind at 1, get_livestream. now rewrite Hnone.
Qed.

End PostThenList.

Lemma post_then_list_witness :
  exists out db' livecomments,
    Sample.post true 2 "good evening" Sample.db = (Ok out, db') /\
    Sample.list true "1" "" db' = (Ok (StatusOK, livecomments), db') /\
    In (snd out) livecomments.
Proof.
  assert (Hpost : exists out db',
             Sample.post true 2 "good evening" Sample.db = (Ok out, db'))
    by (do 2 eexists; vm_compute; reflexivity).
  destruct Hpost as (out & db' & Hpost).
  destruct (@post_then_list binary Sample.ReadFile stable_order true
              (Sample.request 2 [("livestream_id", "1")] [])
              (Sample.request 2 [("livestream_id", "1")] [("limit", "")])
              (Some (PostLivecommentRequest.mk "good evening" 0))
              Sample.now Sample.now 2 Sample.fallback Sample.db db' out)
    as (L & HL & Hin).
  - apply stable_order_spec.
  - apply Sample_consistent.
  - reflexivity.
  - exact Hpost.
  - apply Sample_authenticated.
  - reflexivity.
  - reflexivity.
  - exists out, db', L. repeat split; assumption.
Defined.

Lemma postLivecommentHandler_no_stream_witness :
  run (postLivecommentHandler binary Sample.ReadFile true
         (Sample.request 2 [("livestream_id", "7")] [])
         (Some (PostLivecommentRequest.mk "anyone here" 0)) Sample.now) Sample.db
  = (Err (NewHTTPError StatusNotFound "livestream not found"), Sample.db).
Proof.
  apply (@postLivecommentHandler_no_stream binary Sample.ReadFile true
           (Sample.request 2 [("livestream_id", "7")] [])
           (Some (PostLivecommentRequest.mk "anyone here" 0)) Sample.now 2 7
           Sample.db).
  - apply Sample_authenticated.
  - reflexivity.
  - reflexivity.
Defined.

(** ** A registration and what follows it *)

Lemma insert_word_by_created_at_perm (x : NGWord.t) (l : list NGWord.t) :
  Permutation (x :: l) (insert_word_by_created_at x l).
Proof.
  induction l as [|y l IH]; simpl; [reflexivity|].
  destruct (NGWord.CreatedAt y <? NGWord.CreatedAt x); [reflexivity|].
  rewrite perm_swap. now apply perm_skip.
Qed.

Lemma insert_word_by_created_at_sorted (x : NGWord.t) (l : list NGWord.t) :
  StronglySorted word_created_desc l ->
  StronglySorted word_created_desc (insert_word_by_created_at x l).
Proof.
  induction l as [|y l IH]; simpl; intros Hs.
  - constructor; constructor.
  - inversion Hs as [|? ? Hl Hy]; subst.
    destruct (NGWord.CreatedAt y <? NGWord.CreatedAt x) eqn:E.
    + apply Z.ltb_lt in E. constructor; [exact Hs|].
      constructor; [unfold word_created_desc; lia|].
      eapply Forall_impl; [|exact Hy]. unfold word_created_desc. intros z Hz. lia.
    + apply Z.ltb_ge in E. constructor; [now apply IH|].
      eapply Permutation_Forall; [apply insert_word_by_created_at_perm|].
      constructor; [exact E | exact Hy].
Qed.

Lemma stable_word_order_spec : orders_words_by_created_at_desc stable_word_order.
Proof.
  intros rows. unfold stable_word_order.
  assert (H : forall acc,
             StronglySorted word_created_desc acc ->
             Permutation (acc ++ rows)
               (fold_left (fun sorted row => insert_word_by_created_at row sorted)
                          rows acc)
             /\ StronglySorted word_created_desc
                  (fold_left (fun sorted row => insert_word_by_created_at row sorted)
                             rows acc)).
  { induction rows as [|x rows IH]; intros acc Hacc; simpl.
    - rewrite app_nil_r. now split.
    - destruct (IH (insert_word_by_created_at x acc)) as [Hp Hs];
        [now apply insert_word_by_created_at_sorted|].
      split; [|exact Hs].
      rewrite <- Hp, <- insert_word_by_created_at_perm.
      symmetry. apply Permutation_middle. }
  apply (H []). constructor.
Qed.

Section Ngwords.

Variable order_ng_words : list NGWord.t -> list NGWord.t.

Lemma getNgwords_steps (c : Context) (now userID livestreamID : Z) (db : DB) :
  authenticated c now userID ->
  Atoi (Param c "livestream_id") = Some livestreamID ->
  getNgwords order_ng_words c now db
  = Ok ((StatusOK,
         order_ng_words (select_ng_words_of_owner userID livestreamID db)), db).
Proof.
  intros Hauth Hparam.
  destruct (verifyUserSession_authenticated db Hauth) as [Hv Hu].
  unfold getNgwords. erewrite bind_Ok by exact Hv.
  unfold atoi_or_bad_request. rewrite Hparam, Hu. reflexivity.
Qed.

(** X14: the list of NG words of a stream holds the rows stored under
    the caller's user id for that stream and no others, newest first; who
    has registered no word for the stream gets the empty list, whoever owns
    the stream. *)
Theorem getNgwords_own_words (c : Context) (now userID livestreamID : Z) (db : DB) :
  orders_words_by_created_at_desc order_ng_words ->
  authenticated c now userID ->
  Atoi (Param c "livestream_id") = Some livestreamID ->
  exists ngWords,
    run (getNgwords order_ng_words c now) db = (Ok (StatusOK, ngWords), db) /\
    (forall w, In w ngWords <->
               In w (ng_words db) /\
               NGWord.UserID w = userID /\
               NGWord.LivestreamID w = livestreamID) /\
    StronglySorted word_created_desc ngWords.
Proof.
  intros Horder Hauth Hparam.
  destruct (Horder (select_ng_words_of_owner userID livestreamID db))
    as [Hperm Hsorted].
  exists (order_ng_words (select_ng_words_of_owner userID livestreamID db)).
  split; [|split].
  - apply run_Ok. now apply getNgwords_steps.
  - intros w. split.
    + intros Hin. apply (Permutation_in _ (Permutation_sym Hperm)) in Hin.
      apply filter_In in Hin as [Hin Hb].
      apply andb_true_iff in Hb as [Hu Hl]. apply Z.eqb_eq in Hu, Hl. auto.
    + intros (Hin & Hu & Hl). apply (Permutation_in _ Hperm).
      apply filter_In. split; [exact Hin|].
      now rewrite Hu, Hl, !Z.eqb_refl.
  - exact Hsorted.
Qed.

End Ngwords.

Lemma getNgwords_own_words_witness :
  exists ngWords,
    Demo.ngwords 1 Sample.words_db = (Ok (StatusOK, ngWords), Sample.words_db) /\
    (forall w, In w ngWords <->
               In w (ng_words Sample.words_db) /\
               NGWord.UserID w = 1 /\ NGWord.LivestreamID w = 1) /\
    StronglySorted word_created_desc ngWords.
Proof.
  apply (@getNgwords_own_words stable_word_order
           (Sample.request 1 [("livestream_id", "1")] []) Sample.now 1 1
           Sample.words_db).
  - apply stable_word_order_spec.
  - apply Sample_authenticated.
  - reflexivity.
Defined.

Section AfterRegistration.

Variable collate : ascii -> ascii -> bool.
Variable ReadFile : string -> Result error (list byte).
Variable order_ng_words : list NGWord.t -> list NGWord.t.
Variable unsafe : bool.

(** X11: once the owner has registered a word for a stream, a submission
    to that stream whose body matches the word is rejected with 400,
    whoever submits it: the row of the word carries the owner's id, which is
    the id the check of the submission asks for. *)
Theorem registration_blocks_submission (c c' : Context)
    (req : ModerateRequest.t) (comment : PostLivecommentRequest.t)
    (now now' userID' : Z) (db db' : DB) (out : Status * list (string * Z)) :
  unique_livestream_ids db ->
  run (moderateHandler collate c (Some req) now) db = (Ok out, db') ->
  authenticated c' now' userID' ->
  Param c' "livestream_id" = Param c "livestream_id" ->
  isSpam collate (PostLivecommentRequest.Comment comment)
         (ModerateRequest.NGWord req) = true ->
  run (postLivecommentHandler collate ReadFile unsafe c' (Some comment) now') db'
  = (Err (NewHTTPError StatusBadRequest spam_message), db').
Proof.
  intros Hnd Hrun Hauth' Hsame Hspam. unfold run in Hrun.
  destruct (moderateHandler collate c (Some req) now db) as [[out1 db1] | e] eqn:E;
    inversion Hrun; subst out1 db1; clear Hrun.
  pose proof (@preserves_moderateHandler collate c (Some req) now db out db' E)
    as Hframe.
  assert (Hls : livestreams db' = livestreams db)
    by (unfold all_but_moderation, reference_tables in Hframe; congruence).
  apply moderateHandler_Ok in E
    as (livestreamID & req' & keep & _ & Hparam & Hbody & Hown & _ & Hwords & _).
  inversion Hbody; subst req'. clear Hbody.
  destruct Hown as (ls & Hin & Hid & Howner).
  assert (Hfind : livestream_by_id db' livestreamID = Some ls).
  { unfold livestream_by_id. rewrite Hls. rewrite <- Hid.
    now apply livestream_by_id_unique. }
  rewrite <- Hsame in Hparam.
  apply run_Err.
  rewrite (@postLivecommentHandler_steps collate ReadFile unsafe c' comment now'
             userID' livestreamID ls db' Hauth' Hparam Hfind).
  replace (existsb _ _) with true; [reflexivity|].
  symmetry. apply existsb_exists.
  exists (NGWord.mk (ng_words_auto_increment db) (session_userID c) livestreamID
                    (ModerateRequest.NGWord req) now).
  split; [|exact Hspam].
  apply filter_In. split.
  - rewrite Hwords. apply in_or_app. right. now left.
  - simpl. now rewrite Howner, !Z.eqb_refl.
Qed.

(** X12: the empty word is accepted as an NG word, and its registration
    deletes every comment of the stream. *)
Theorem moderateHandler_empty_word (c : Context) (req : ModerateRequest.t)
    (now userID livestreamID : Z) (db : DB) :
  authenticated c now userID ->
  Atoi (Param c "livestream_id") = Some livestreamID ->
  owns db userID livestreamID ->
  unique_ids db ->
  ModerateRequest.NGWord req = "" ->
  exists out db',
    run (moderateHandler collate c (Some req) now) db = (Ok out, db') /\
    comments_of livestreamID db' = [].
Proof.
  intros Hauth Hparam Hown Hnd Hempty.
  do 2 eexists. split.
  - apply run_Ok.
    apply moderateHandler_owner
      with (userID := userID) (livestreamID := livestreamID); assumption.
  - unfold comments_of. cbn [livecomments set_livecomments].
    rewrite filter_filter.
    destruct (filter _ (livecomments db)) as [|row rows] eqn:E; [reflexivity|].
    exfalso.
    assert (Hin : In row (row :: rows)) by now left.
    rewrite <- E in Hin. apply filter_In in Hin as [_ Hb].
    apply andb_true_iff in Hb as [Hkept Hstream].
    apply negb_true_iff in Hkept.
    unfold purged in Hkept. rewrite Hstream in Hkept. simpl in Hkept.
    apply not_true_iff_false in Hkept. apply Hkept.
    apply existsb_exists.
    exists (NGWord.mk (ng_words_auto_increment db) userID livestreamID
                      (ModerateRequest.NGWord req) now).
    split.
    + unfold select_ng_words_of_livestream, set_ng_words.
      cbn [ng_words]. apply filter_In. split.
      * apply in_or_app. right. now left.
      * simpl. apply Z.eqb_refl.
    + simpl. rewrite Hempty. apply isSpam_empty_phrase.
Qed.

(** X13: the id that a registration returns is the id of a row that the
    registrant then finds in the list of the NG words of the stream, with
    the word as it was sent. *)
Theorem registration_then_list (c : Context) (req : ModerateRequest.t)
    (now : Z) (db db' : DB) (out : Status * list (string * Z)) :
  orders_words_by_created_at_desc order_ng_words ->
  run (moderateHandler collate c (Some req) now) db = (Ok out, db') ->
  exists ngWords w,
    run (getNgwords order_ng_words c now) db' = (Ok (StatusOK, ngWords), db') /\
    In w ngWords /\
    snd out = [("word_id", NGWord.ID w)] /\
    NGWord.Word w = ModerateRequest.NGWord req.
Proof.
  intros Horder Hrun. unfold run in Hrun.
  destruct (moderateHandler collate c (Some req) now db) as [[out1 db1] | e] eqn:E;
    inversion Hrun; subst out1 db1; clear Hrun.
  apply moderateHandler_Ok in E
    as (livestreamID & req' & keep & Hauth & Hparam & Hbody & _ & Hout & Hwords & _).
  inversion Hbody; subst req'. clear Hbody.
  set (w := NGWord.mk (ng_words_auto_increment db) (session_userID c) livestreamID
                      (ModerateRequest.NGWord req) now).
  exists (order_ng_words
            (select_ng_words_of_owner (session_userID c) livestreamID db')), w.
  split; [|split; [|split]].
  - apply run_Ok. now apply getNgwords_steps.
  - destruct (Horder (select_ng_words_of_owner (session_userID c) livestreamID db'))
      as [Hperm _].
    apply (Permutation_in _ Hperm). apply filter_In. split.
    + rewrite Hwords. apply in_or_app. right. now left.
    + simpl. now rewrite !Z.eqb_refl.
  - now rewrite Hout.
  - reflexivity.
Qed.

End AfterRegistration.

Lemma Sample_unique_livestream_ids : unique_livestream_ids Sample.db.
Proof.
  unfold unique_livestream_ids. simpl.
  repeat (constructor; [simpl; intuition discriminate|]). constructor.
Qed.

Lemma registration_blocks_submission_witness :
  exists db',
    snd (Sample.moderate 1 "banana") = db' /\
    Sample.post true 2 "one more banana" db'
    = (Err (NewHTTPError StatusBadRequest spam_message), db').
Proof.
  assert (Hrun : exists out db', Sample.moderate 1 "banana" = (Ok out, db'))
    by (do 2 eexists; vm_compute; reflexivity).
  destruct Hrun as (out & db' & Hrun).
  exists db'. split; [now rewrite Hrun|].
  apply (@registration_blocks_submission binary Sample.ReadFile true
           (Sample.request 1 [("livestream_id", "1")] [])
           (Sample.request 2 [("livestream_id", "1")] [])
           (ModerateRequest.mk "banana")
           (PostLivecommentRequest.mk "one more banana" 0)
           Sample.now Sample.now 2 Sample.db db' out).
  - apply Sample_unique_livestream_ids.
  - exact Hrun.
  - apply Sample_authenticated.
  - reflexivity.
  - vm_compute. reflexivity.
Defined.

Lemma Sample_owns_first : owns Sample.db 1 1.
Proof. exists Sample.first. simpl. auto. Qed.

Lemma moderateHandler_empty_word_witness :
  exists out db',
    Sample.moderate 1 "" = (Ok out, db') /\ comments_of 1 db' = [].
Proof.
  apply (@moderateHandler_empty_word binary
           (Sample.request 1 [("livestream_id", "1")] [])
           (ModerateRequest.mk "") Sample.now 1 1 Sample.db).
  - apply Sample_authenticated.
  - reflexivity.
  - apply Sample_owns_first.
  - apply Sample_unique_ids.
  - reflexivity.
Defined.

Lemma registration_then_list_witness :
  exists db' ngWords w,
    snd (Sample.moderate 1 "banana") = db' /\
    Demo.ngwords 1 db' = (Ok (StatusOK, ngWords), db') /\
    In w ngWords /\ NGWord.Word w = "banana".
Proof.
  assert (Hrun : exists out db', Sample.moderate 1 "banana" = (Ok out, db'))
    by (do 2 eexists; vm_compute; reflexivity).
  destruct Hrun as (out & db' & Hrun).
  destruct (@registration_then_list binary stable_word_order
              (Sample.request 1 [("livestream_id", "1")] [])
              (ModerateRequest.mk "banana") Sample.now Sample.db db' out
              stable_word_order_spec Hrun)
    as (ngWords & w & Hlist & Hin & _ & Hword).
  exists db', ngWords, w. repeat split; try assumption. now rewrite Hrun.
Defined.

(** ** More on reports *)

Section Reports.

Variable ReadFile : string -> Result error (list byte).
Variable fallback : list byte.
Hypothesis ReadFile_fallback : ReadFile fallbackImage = Ok fallback.

(** A report that names a stream and a comment that exist, from a
    reporter and on a comment that join, is stored under the next id. *)
Lemma reportLivecommentHandler_stores (c : Context)
    (now userID livestreamID livecommentID : Z)
    (ls : LivestreamModel.t) (lc : LivecommentModel.t) (db : DB) :
  authenticated c now userID ->
  Atoi (Param c "livestream_id") = Some livestreamID ->
  Atoi (Param c "livecomment_id") = Some livecommentID ->
  livestream_by_id db livestreamID = Some ls ->
  livecomment_by_id db livecommentID = Some lc ->
  has_profile db userID ->
  joinable db lc ->
  report_ids_below_counter db ->
  exists report,
    reportLivecommentHandler ReadFile c now db
    = Ok ((StatusCreated, report),
          set_livecomment_reports
            (livecomment_reports db ++
             [new_report db userID livestreamID livecommentID now])
            (livecomment_reports_auto_increment db + 1) db) /\
    LivecommentReport.ID report = livecomment_reports_auto_increment db.
Proof.
  intros Hauth Hpls Hplc Hls Hlc (u & t & Hu & Ht)
         ((lu & lt & Hlu & Hlt) & cs & Hcs) Hbelow.
  destruct (verifyUserSession_authenticated db Hauth) as [Hv Huid].
  set (row := new_report db userID livestreamID livecommentID now).
  set (db1 := set_livecomment_reports (livecomment_reports db ++ [row])
                (livecomment_reports_auto_increment db + 1) db).
  assert (Hrow : report_by_id db1 (livecomment_reports_auto_increment db) = Some row).
  { unfold report_by_id, db1. cbn [livecomment_reports set_livecomment_reports].
    rewrite find_app.
    destruct (find _ (livecomment_reports db)) as [x|] eqn:E.
    - apply find_some in E as [Hin Hx]. apply Z.eqb_eq in Hx.
      specialize (Hbelow x Hin). lia.
    - simpl. now rewrite Z.eqb_refl. }
  eexists. split.
  { unfold reportLivecommentHandler.
    erewrite bind_Ok by exact Hv.
    unfold atoi_or_bad_request. rewrite Hpls, Hplc.
    unfold bind at 1, ret at 1. unfold bind at 1, ret at 1.
    unfold bind at 1, get_livestream. rewrite Hls.
    unfold bind at 1, get_livecomment. rewrite Hlc.
    unfold bind at 1, insert_livecomment_report. cbv beta iota zeta.
    rewrite Huid.
    change (LivecommentReportModel.mk _ _ _ _ _) with row. fold db1.
    unfold bind at 1, try at 1, getLivecommentReportData.
    rewrite Hrow.
    change (user_by_id db1) with (user_by_id db).
    change (theme_of db1) with (theme_of db).
    change (LivecommentReportModel.UserID row) with userID.
    change (LivecommentReportModel.LivecommentID row) with livecommentID.
    rewrite Hu, Ht.
    unfold join_livecomment.
    change (livecomment_by_id db1) with (livecomment_by_id db).
    change (user_by_id db1) with (user_by_id db).
    change (theme_of db1) with (theme_of db).
    change (livestream_by_id db1) with (livestream_by_id db).
    rewrite Hlc, Hlu, Hlt, Hcs.
    unfold bind at 1, try at 1, fillLivecommentReportResponse.
    rewrite !(@image_or_fallback_Ok ReadFile fallback ReadFile_fallback).
    reflexivity. }
  reflexivity.
Qed.

(** X15: nothing keeps a user from reporting a comment again: the second
    report of the same comment under the same stream is accepted like the
    first and stored as a second row, under the next id. *)
Theorem reportLivecommentHandler_repeats (c : Context)
    (now now' userID livestreamID livecommentID : Z)
    (ls : LivestreamModel.t) (lc : LivecommentModel.t) (db : DB) :
  authenticated c now userID ->
  authenticated c now' userID ->
  Atoi (Param c "livestream_id") = Some livestreamID ->
  Atoi (Param c "livecomment_id") = Some livecommentID ->
  livestream_by_id db livestreamID = Some ls ->
  livecomment_by_id db livecommentID = Some lc ->
  has_profile db userID ->
  joinable db lc ->
  report_ids_below_counter db ->
  exists first second db1 db2,
    run (reportLivecommentHandler ReadFile c now) db
    = (Ok (StatusCreated, first), db1) /\
    run (reportLivecommentHandler ReadFile c now') db1
    = (Ok (StatusCreated, second), db2) /\
    livecomment_reports db2
    = livecomment_reports db ++
      [LivecommentReportModel.mk (livecomment_reports_auto_increment db)
         userID livestreamID livecommentID now;
       LivecommentReportModel.mk (livecomment_reports_auto_increment db + 1)
         userID livestreamID livecommentID now'] /\
    LivecommentReport.ID second = LivecommentReport.ID first + 1.
Proof.
  intros Hauth Hauth' Hpls Hplc Hls Hlc Hprof Hjoin Hbelow.
  destruct (reportLivecommentHandler_stores Hauth Hpls Hplc Hls Hlc Hprof Hjoin Hbelow)
    as (r1 & H1 & Hid1).
  set (db1 := set_livecomment_reports
                (livecomment_reports db ++
                 [new_report db userID livestreamID livecommentID now])
                (livecomment_reports_auto_increment db + 1) db) in *.
  assert (Hbelow1 : report_ids_below_counter db1).
  { intros x Hin. unfold db1 in *.
    cbn [livecomment_reports set_livecomment_reports
         livecomment_reports_auto_increment] in *.
    apply in_app_or in Hin as [Hin | [<- | []]].
    - specialize (Hbelow x Hin). lia.
    - simpl. lia. }
  destruct (@reportLivecommentHandler_stores c now' userID livestreamID
              livecommentID ls lc db1 Hauth' Hpls Hplc Hls Hlc Hprof Hjoin Hbelow1)
    as (r2 & H2 & Hid2).
  exists r1, r2, db1. eexists. split; [|split; [|split]].
  - now apply run_Ok.
  - apply run_Ok. exact H2.
  - unfold db1. cbn [livecomment_reports set_livecomment_reports].
    rewrite <- app_assoc. reflexivity.
  - rewrite Hid1, Hid2. reflexivity.
Qed.

(** X16: a report that names a stream without a row is answered with
    404 "livestream not found" and stores nothing, whether or not the
    comment exists. *)
Theorem reportLivecommentHandler_unknown_stream (c : Context)
    (now userID livestreamID livecommentID : Z) (db : DB) :
  authenticated c now userID ->
  Atoi (Param c "livestream_id") = Some livestreamID ->
  Atoi (Param c "livecomment_id") = Some livecommentID ->
  livestream_by_id db livestreamID = None ->
  run (reportLivecommentHandler ReadFile c now) db
  = (Err (NewHTTPError StatusNotFound "livestream not found"), db).
Proof.
  intros Hauth Hpls Hplc Hnone.
  destruct (verifyUserSession_authenticated db Hauth) as [Hv _].
  apply run_Err. unfold reportLivecommentHandler.
  erewrite bind_Ok by exact Hv.
  unfold atoi_or_bad_request. rewrite Hpls, Hplc.
  unfold bind at 1, ret at 1. unfold bind at 1, ret at 1.
  unfold bind at 1, get_livestream. now rewrite Hnone.
Qed.

End Reports.

Lemma reportLivecommentHandler_repeats_witness :
  exists first second db1 db2,
    Sample.report 2 "1" "1" = (Ok (StatusCreated, first), db1) /\
    run (reportLivecommentHandler Sample.ReadFile
           (Sample.request 2 [("livestream_id", "1"); ("livecomment_id", "1")] [])
           Sample.now) db1
    = (Ok (StatusCreated, second), db2) /\
    livecomment_reports db2
    = [LivecommentReportModel.mk 1 2 1 1 1000;
       LivecommentReportModel.mk 2 2 1 1 1000] /\
    LivecommentReport.ID second = LivecommentReport.ID first + 1.
Proof.
  apply (@reportLivecommentHandler_repeats Sample.ReadFile Sample.fallback eq_refl
           (Sample.request 2 [("livestream_id", "1"); ("livecomment_id", "1")] [])
           Sample.now Sample.now 2 1 1 Sample.first Sample.hello Sample.db).
  - apply Sample_authenticated.
  - apply Sample_authenticated.
  - reflexivity.
  - reflexivity.
  - reflexivity.
  - reflexivity.
  - apply Sample_has_profile. now right.
  - apply Sample_references_hold. simpl. auto.
  - intros r Hin. destruct Hin.
Defined.

Lemma reportLivecommentHandler_unknown_stream_witness :
  Sample.report 2 "7" "1"
  = (Err (NewHTTPError StatusNotFound "livestream not found"), Sample.db).
Proof.
  apply (@reportLivecommentHandler_unknown_stream Sample.ReadFile
           (Sample.request 2 [("livestream_id", "7"); ("livecomment_id", "1")] [])
           Sample.now 2 7 1 Sample.db).
  - apply Sample_authenticated.
  - reflexivity.
  - reflexivity.
  - reflexivity.
Defined.

(** ** Icons *)

Lemma find_filter {A} (f g : A -> bool) (l : list A) :
  (forall x, f x = true -> g x = true) ->
  find f (filter g l) = find f l.
Proof.
  intros Hfg. induction l as [|x l IH]; simpl; [reflexivity|].
  destruct (g x) eqn:Eg; simpl.
  - destruct (f x); [reflexivity | exact IH].
  - destruct (f x) eqn:Ef; [|exact IH].
    rewrite (Hfg x Ef) in Eg. discriminate.
Qed.

Lemma filter_filter_none {A} (f : A -> bool) (l : list A) :
  filter f (filter (fun x => negb (f x)) l) = [].
Proof.
  induction l as [|x l IH]; simpl; [reflexivity|].
  destruct (f x) eqn:E; simpl; [exact IH | now rewrite E].
Qed.

Lemma postIconHandler_steps (c : Context) (req : PostIconRequest.t)
    (now userID : Z) (db : DB) :
  authenticated c now userID ->
  postIconHandler c (Some req) now db
  = Ok ((StatusCreated, PostIconResponse.mk (icons_auto_increment db)),
        set_icons
          (filter (fun i => negb (IconModel.UserID i =? userID)) (icons db) ++
           [IconModel.mk (icons_auto_increment db) userID (PostIconRequest.Image req)])
          (icons_auto_increment db + 1) db).
Proof.
  intros Hauth.
  destruct (verifyUserSession_authenticated db Hauth) as [Hv Hu].
  unfold postIconHandler. erewrite bind_Ok by exact Hv.
  rewrite Hu. reflexivity.
Qed.

(** X18: posting an icon replaces the icon of the caller: afterwards the
    caller has one row in [icons], with the image of the request, and the
    rows of every other user are as before. *)
Theorem postIconHandler_replaces (c : Context) (req : PostIconRequest.t)
    (now userID : Z) (db : DB) :
  authenticated c now userID ->
  exists db',
    run (postIconHandler c (Some req) now) db
    = (Ok (StatusCreated, PostIconResponse.mk (icons_auto_increment db)), db') /\
    icon_of db' userID = Some (PostIconRequest.Image req) /\
    icons_of_user db' userID = 1%nat /\
    forall other, other <> userID ->
      filter (fun i => IconModel.UserID i =? other) (icons db')
      = filter (fun i => IconModel.UserID i =? other) (icons db).
Proof.
  intros Hauth.
  exists (set_icons
            (filter (fun i => negb (IconModel.UserID i =? userID)) (icons db) ++
             [IconModel.mk (icons_auto_increment db) userID (PostIconRequest.Image req)])
            (icons_auto_increment db + 1) db).
  split; [|split; [|split]].
  - apply run_Ok. now apply postIconHandler_steps.
  - unfold icon_of. cbn [icons set_icons]. rewrite find_app.
    destruct (find _ (filter _ (icons db))) as [x|] eqn:E.
    + apply find_some in E as [Hin Hx].
      apply filter_In in Hin as [_ Hne]. now rewrite Hx in Hne.
    + simpl. now rewrite Z.eqb_refl.
  - unfold icons_of_user. cbn [icons set_icons].
    rewrite filter_app, filter_filter_none. simpl. now rewrite Z.eqb_refl.
  - intros other Hother. cbn [icons set_icons].
    assert (Hne : (userID =? other) = false) by (apply Z.eqb_neq; congruence).
    rewrite filter_app, filter_filter. simpl. rewrite Hne, app_nil_r.
    apply filter_ext. intros i.
    destruct (IconModel.UserID i =? other) eqn:Eo.
    + apply Z.eqb_eq in Eo. rewrite Eo.
      apply Z.eqb_neq in Hother. now rewrite Hother.
    + apply andb_false_r.
Qed.

(** X17: the icon a user has posted is what [getIconHandler] then serves
    under the name of the user, as a JPEG with status 200, to a request with
    or without a session; this holds for an image of no bytes too, which is
    served as it is and not replaced by the fallback image. *)
Theorem postIcon_then_getIcon (c c' : Context) (req : PostIconRequest.t)
    (now userID : Z) (user : UserModel.t) (db : DB) :
  authenticated c now userID ->
  user_by_name db (Param c' "username") = Some user ->
  UserModel.ID user = userID ->
  let db' := snd (run (postIconHandler c (Some req) now) db) in
  run (getIconHandler c') db'
  = (Ok (Blob StatusOK "image/jpeg" (PostIconRequest.Image req)), db').
Proof.
  intros Hauth Huser Hid db'.
  assert (Hdb' : db' = set_icons
            (filter (fun i => negb (IconModel.UserID i =? userID)) (icons db) ++
             [IconModel.mk (icons_auto_increment db) userID (PostIconRequest.Image req)])
            (icons_auto_increment db + 1) db).
  { unfold db', run. now rewrite (postIconHandler_steps req db Hauth). }
  apply run_Ok. unfold getIconHandler.
  assert (Hu : user_by_name db' (Param c' "username") = Some user)
    by (rewrite Hdb'; exact Huser).
  rewrite Hu, Hid.
  assert (Hi : icon_of db' userID = Some (PostIconRequest.Image req)).
  { rewrite Hdb'. unfold icon_of. cbn [icons set_icons]. rewrite find_app.
    destruct (find _ (filter _ (icons db))) as [x|] eqn:E.
    - apply find_some in E as [Hin Hx].
      apply filter_In in Hin as [_ Hne]. now rewrite Hx in Hne.
    - simpl. now rewrite Z.eqb_refl. }
  now rewrite Hi.
Qed.

Lemma postIconHandler_replaces_witness :
  exists db',
    run (postIconHandler (Sample.request 1 [] [])
           (Some (PostIconRequest.mk [x0a; x0b])) Sample.now) Sample.db
    = (Ok (StatusCreated, PostIconResponse.mk 2), db') /\
    icon_of db' 1 = Some [x0a; x0b] /\
    icons_of_user db' 1 = 1%nat.
Proof.
  destruct (@postIconHandler_replaces (Sample.request 1 [] [])
              (PostIconRequest.mk [x0a; x0b]) Sample.now 1 Sample.db
              (Sample_authenticated 1 [] []))
    as (db' & Hrun & Hicon & Hone & _).
  exists db'. repeat split; assumption.
Defined.

Lemma postIcon_then_getIcon_witness :
  Demo.icon "u" Sample.icon_db = (Ok (Blob StatusOK "image/jpeg" []), Sample.icon_db).
Proof.
  apply (@postIcon_then_getIcon (Sample.request 1 [] [])
           (Sample.request 2 [("username", "u")] [])
           (PostIconRequest.mk []) Sample.now 1 Sample.streamer Sample.db).
  - apply Sample_authenticated.
  - reflexivity.
  - reflexivity.
Defined.

(** ** More on profiles *)

Lemma theme_of_UserID (db : DB) (userID : Z) (t : ThemeModel.t) :
  theme_of db userID = Some t -> ThemeModel.UserID t = userID.
Proof.
  intros H. apply find_some in H as [_ H]. now apply Z.eqb_eq.
Qed.

Lemma hex_digits_of_byte (x : byte) :
  is_hex (hex_digit (SHA256.Z_of_byte x / 16))
  && is_hex (hex_digit (SHA256.Z_of_byte x mod 16)) = true.
Proof. destruct x; vm_compute; reflexivity. Qed.

Lemma Sprintf_x_hex (bs : list byte) :
  forallb is_hex (list_ascii_of_string (Sprintf_x bs)) = true.
Proof.
  induction bs as [|x bs IH]; [reflexivity|].
  cbn [Sprintf_x list_ascii_of_string forallb].
  rewrite IH, andb_true_r. apply hex_digits_of_byte.
Qed.

Lemma iconHash_sha256_hex (image : list byte) : is_sha256_hex (iconHash image).
Proof.
  split; [apply iconHash_length | apply Sprintf_x_hex].
Qed.

Section MoreProfiles.

Variable ReadFile : string -> Result error (list byte).

(** X20: for a user with a theme and an icon of at least one byte, the
    five functions that resolve a user return the same profile, with the
    hash of the icon, and none of them reads the fallback image. *)
Theorem profiles_agree_on_avatar (db : DB) (u : UserModel.t) (t : ThemeModel.t)
    (x : byte) (bytes : list byte) :
  user_by_id db (UserModel.ID u) = Some u ->
  user_by_name db (UserModel.Name u) = Some u ->
  theme_of db (UserModel.ID u) = Some t ->
  icon_of db (UserModel.ID u) = Some (x :: bytes) ->
  let profile :=
    User.mk (UserModel.ID u) (UserModel.Name u) (UserModel.DisplayName u)
            (UserModel.Description u)
            (Theme.mk (ThemeModel.ID t) (ThemeModel.DarkMode t))
            (iconHash (x :: bytes)) in
  fillUserResponse ReadFile db u = Ok profile /\
  fillUserResponseForRegisterHandler ReadFile db u = Ok profile /\
  fetchUserDetailsByID ReadFile db (UserModel.ID u) = Ok profile /\
  fetchUserDetailsByName ReadFile db (UserModel.Name u) = Ok profile /\
  fetchUserDetailsByIDForReaction ReadFile db (UserModel.ID u) = Ok profile.
Proof.
  intros Hu Hn Ht Hi profile.
  pose proof (theme_of_UserID _ _ Ht) as Htu.
  unfold fillUserResponse, fillUserResponseForRegisterHandler,
    fetchUserDetailsByID, fetchUserDetailsByName, fetchUserDetails,
    fetchUserDetailsByIDForReaction.
  rewrite Hu, Hn, Ht, Htu, Hi. simpl. repeat split; reflexivity.
Qed.

(** X19: a session whose user has no row, or a name that no user has, is
    answered with 404: the handlers see [sql.ErrNoRows] through the
    wrapping of the lookup. *)
Theorem user_lookup_not_found (c : Context) (now userID : Z) (db : DB) :
  authenticated c now userID ->
  (user_by_id db userID = None ->
   run (getMeHandler ReadFile c now) db
   = (Err (NewHTTPError StatusNotFound
             "not found user that has the userid in session"), db)) /\
  (user_by_name db (Param c "username") = None ->
   run (getUserHandler ReadFile c now) db
   = (Err (NewHTTPError StatusNotFound
             "not found user that has the given username"), db)).
Proof.
  intros Hauth.
  destruct (verifyUserSession_authenticated db Hauth) as [Hv Hu].
  split; intros Hrow; unfold run, getMeHandler, getUserHandler;
    (erewrite bind_Ok by exact Hv);
    unfold fetchUserDetailsByID, fetchUserDetailsByName;
    rewrite ?Hu, Hrow; reflexivity.
Qed.

(** X22: a user whose row has no row of [themes] cannot be looked up: the
    scan of the NULL theme fails with an error that is not
    [sql.ErrNoRows], and both handlers answer 500, with a message that
    starts with the prefixes of the handler and of the lookup; nothing is
    written. *)
Theorem user_lookup_without_theme (c : Context) (now userID : Z) (db : DB)
    (u : UserModel.t) :
  authenticated c now userID ->
  theme_of db (UserModel.ID u) = None ->
  let answered out :=
    exists cause,
      out = (Err (NewHTTPError StatusInternalServerError
                    ("failed to fetch user details: failed to scan user details: "
                     ++ cause)), db) in
  (user_by_id db userID = Some u ->
   answered (run (getMeHandler ReadFile c now) db)) /\
  (user_by_name db (Param c "username") = Some u ->
   answered (run (getUserHandler ReadFile c now) db)).
Proof.
  intros Hauth Ht answered.
  destruct (verifyUserSession_authenticated db Hauth) as [Hv Hu].
  split; intros Hrow; exists (Error scan_NULL);
    unfold run, getMeHandler, getUserHandler;
    (erewrite bind_Ok by exact Hv);
    unfold fetchUserDetailsByID, fetchUserDetailsByName, fetchUserDetails;
    rewrite ?Hu, Hrow, Ht; reflexivity.
Qed.

(** Each function hashes some image. *)
Lemma fillUserResponse_hashes (db : DB) (u : UserModel.t) (user : User.t) :
  fillUserResponse ReadFile db u = Ok user ->
  exists image, User.IconHash user = iconHash image.
Proof.
  unfold fillUserResponse.
  destruct (theme_of db (UserModel.ID u)); [|discriminate].
  destruct (icon_of db (UserModel.ID u)) as [image|];
    [|destruct (ReadFile fallbackImage) as [image|]];
    intros H; inversion H; now exists image.
Qed.

Lemma fillUserResponseForRegisterHandler_hashes (db : DB) (u : UserModel.t)
    (user : User.t) :
  fillUserResponseForRegisterHandler ReadFile db u = Ok user ->
  exists image, User.IconHash user = iconHash image.
Proof.
  unfold fillUserResponseForRegisterHandler.
  destruct (theme_of db (UserModel.ID u));
    [|destruct (ReadFile fallbackImage) as [image|]];
    intros H; inversion H; eexists; reflexivity.
Qed.

Lemma fetchUserDetails_hashes (db : DB) (row : option UserModel.t) (user : User.t) :
  fetchUserDetails ReadFile db row = Ok user ->
  exists image, User.IconHash user = iconHash image.
Proof.
  unfold fetchUserDetails.
  destruct row as [r|]; [|discriminate].
  destruct (theme_of db (UserModel.ID r)); [|discriminate].
  destruct (List.length _ =? 0)%nat;
    [destruct (ReadFile fallbackImage) as [image|]|];
    intros H; inversion H; eexists; reflexivity.
Qed.

Lemma fetchUserDetailsByIDForReaction_hashes (db : DB) (userID : Z) (user : User.t) :
  fetchUserDetailsByIDForReaction ReadFile db userID = Ok user ->
  exists image, User.IconHash user = iconHash image.
Proof.
  unfold fetchUserDetailsByIDForReaction.
  destruct (user_by_id db userID) as [r|]; [|discriminate].
  destruct (theme_of db (UserModel.ID r));
    [|destruct (ReadFile fallbackImage) as [image|]];
    intros H; inversion H; eexists; reflexivity.
Qed.

Lemma fillLivecommentResponse_hashes (lc : LivecommentResponse.t)
    (livecomment : Livecomment.t) :
  fillLivecommentResponse ReadFile lc = Ok livecomment ->
  exists image, User.IconHash (Livecomment.User livecomment) = iconHash image.
Proof.
  unfold fillLivecommentResponse.
  destruct (image_or_fallback ReadFile _) as [image|];
    intros H; inversion H; now exists image.
Qed.

Lemma fillLivecommentReportResponse_hashes (lr : LivecommentReportResponse.t)
    (report : LivecommentReport.t) :
  fillLivecommentReportResponse ReadFile lr = Ok report ->
  exists reporterImage lcUserImage,
    User.IconHash (LivecommentReport.Reporter report) = iconHash reporterImage /\
    User.IconHash (Livecomment.User (LivecommentReport.Livecomment report))
    = iconHash lcUserImage.
Proof.
  unfold fillLivecommentReportResponse.
  destruct (image_or_fallback ReadFile (LivecommentReportResponse.ReporterImage lr))
    as [reporterImage|]; [|discriminate].
  destruct (image_or_fallback ReadFile (LivecommentReportResponse.LCUserImage lr))
    as [lcUserImage|]; intros H; inversion H.
  exists reporterImage, lcUserImage. split; reflexivity.
Qed.

(** X21: in every profile that a function of the file assembles, for a
    user, the author of a comment, a reporter or the author of a reported
    comment, [IconHash] is a string of 64 lower-case hexadecimal digits. *)
Theorem IconHash_is_sha256_hex :
  (forall db u user,
      fillUserResponse ReadFile db u = Ok user ->
      is_sha256_hex (User.IconHash user)) /\
  (forall db u user,
      fillUserResponseForRegisterHandler ReadFile db u = Ok user ->
      is_sha256_hex (User.IconHash user)) /\
  (forall db row user,
      fetchUserDetails ReadFile db row = Ok user ->
      is_sha256_hex (User.IconHash user)) /\
  (forall db userID user,
      fetchUserDetailsByIDForReaction ReadFile db userID = Ok user ->
      is_sha256_hex (User.IconHash user)) /\
  (forall lc livecomment,
      fillLivecommentResponse ReadFile lc = Ok livecomment ->
      is_sha256_hex (User.IconHash (Livecomment.User livecomment))) /\
  (forall lr report,
      fillLivecommentReportResponse ReadFile lr = Ok report ->
      is_sha256_hex (User.IconHash (LivecommentReport.Reporter report)) /\
      is_sha256_hex
        (User.IconHash (Livecomment.User (LivecommentReport.Livecomment report)))).
Proof.
  split; [|split; [|split; [|split; [|split]]]].
  - intros db u user H. apply fillUserResponse_hashes in H as (image & ->).
    apply iconHash_sha256_hex.
  - intros db u user H.
    apply fillUserResponseForRegisterHandler_hashes in H as (image & ->).
    apply iconHash_sha256_hex.
  - intros db row user H. apply fetchUserDetails_hashes in H as (image & ->).
    apply iconHash_sha256_hex.
  - intros db userID user H.
    apply fetchUserDetailsByIDForReaction_hashes in H as (image & ->).
    apply iconHash_sha256_hex.
  - intros lc livecomment H.
    apply fillLivecommentResponse_hashes in H as (image & ->).
    apply iconHash_sha256_hex.
  - intros lr report H.
    apply fillLivecommentReportResponse_hashes in H as (i1 & i2 & -> & ->).
    split; apply iconHash_sha256_hex.
Qed.

End MoreProfiles.

Lemma profiles_agree_on_avatar_witness :
  fillUserResponse Sample.ReadFile Sample.db Sample.streamer
  = fetchUserDetailsByName Sample.ReadFile Sample.db "u" /\
  fetchUserDetailsByID Sample.ReadFile Sample.db 1
  = fetchUserDetailsByIDForReaction Sample.ReadFile Sample.db 1.
Proof.
  destruct (@profiles_agree_on_avatar Sample.ReadFile Sample.db Sample.streamer
              (ThemeModel.mk 1 1 true) x01 [x02; x03]
              eq_refl eq_refl eq_refl eq_refl)
    as (H1 & _ & H3 & H4 & H5).
  split.
  - exact (eq_trans H1 (eq_sym H4)).
  - exact (eq_trans H3 (eq_sym H5)).
Defined.

Lemma IconHash_is_sha256_hex_witness :
  is_sha256_hex (iconHash [x01; x02; x03]).
Proof.
  exact (proj1 (IconHash_is_sha256_hex Sample.ReadFile) Sample.db Sample.streamer
           (User.mk 1 "u" "U" "streamer" (Theme.mk 1 true)
                    (iconHash [x01; x02; x03]))
           eq_refl).
Defined.

Lemma user_lookup_not_found_witness :
  run (getMeHandler Sample.ReadFile (Sample.request 9 [] []) Sample.now) Sample.db
  = (Err (NewHTTPError StatusNotFound
            "not found user that has the userid in session"), Sample.db) /\
  run (getUserHandler Sample.ReadFile
         (Sample.request 2 [("username", "nobody")] []) Sample.now) Sample.db
  = (Err (NewHTTPError StatusNotFound
            "not found user that has the given username"), Sample.db).
Proof.
  split.
  - apply (proj1 (@user_lookup_not_found Sample.ReadFile (Sample.request 9 [] [])
                    Sample.now 9 Sample.db (Sample_authenticated 9 [] []))).
    reflexivity.
  - apply (proj2 (@user_lookup_not_found Sample.ReadFile
                    (Sample.request 2 [("username", "nobody")] [])
                    Sample.now 2 Sample.db
                    (Sample_authenticated 2 [("username", "nobody")] []))).
    reflexivity.
Defined.

Lemma user_lookup_without_theme_witness :
  exists e,
    run (getMeHandler Sample.ReadFile (Sample.request 1 [] []) Sample.now)
        Demo.no_theme_db
    = (Err e, Demo.no_theme_db) /\
    Code e = StatusInternalServerError.
Proof.
  destruct (proj1 (@user_lookup_without_theme Sample.ReadFile
                     (Sample.request 1 [] []) Sample.now 1 Demo.no_theme_db
                     Sample.streamer (Sample_authenticated 1 [] []) eq_refl)
              eq_refl) as [cause H].
  eexists. split; [exact H | reflexivity].
Defined.

(** ** More on the spam match *)

Section MoreLike.

Variable collate : ascii -> ascii -> bool.

(** X23: the pattern is not anchored at the start, whatever the word
    holds: a body that matches still matches with any text before it. *)
Theorem isSpam_prefix (pre body word : string) :
  isSpam collate body word = true ->
  isSpam collate (pre ++ body) word = true.
Proof.
  rewrite !isSpam_LIKE. unfold LIKE, CONCAT_pattern.
  change (list_ascii_of_string ("%" ++ word ++ "%"))
    with ("%"%char :: list_ascii_of_string (word ++ "%")).
  change (like_tokens ("%"%char :: ?l)) with (LikeMany :: like_tokens l).
  rewrite !like_many_spec. intros (before & rest & E & H).
  exists (list_ascii_of_string pre ++ before), rest.
  split; [|exact H].
  now rewrite list_ascii_of_string_app, E, app_assoc.
Qed.

(** X24: a word that ends in a backslash takes the closing [%] of the
    pattern literally.  For [w] without special characters the word
    [w\] matches the bodies that end in an occurrence of [w] and a
    character equal to [%] under the collation, and no others: here the
    pattern is anchored at the end. *)
Theorem isSpam_trailing_backslash (body w : string) :
  plain w = true ->
  isSpam collate body (w ++ "\") = true <->
  exists pre mid x,
    body = (pre ++ mid ++ String x "")%string /\
    collate_eq collate (list_ascii_of_string mid) (list_ascii_of_string w) = true /\
    collate x "%"%char = true.
Proof.
  intros Hp. rewrite isSpam_LIKE. unfold LIKE, CONCAT_pattern.
  change (list_ascii_of_string ("%" ++ (w ++ "\") ++ "%"))
    with ("%"%char :: list_ascii_of_string ((w ++ "\") ++ "%")).
  change (like_tokens ("%"%char :: ?l)) with (LikeMany :: like_tokens l).
  rewrite !list_ascii_of_string_app, <- app_assoc.
  rewrite like_tokens_plain_app by exact Hp.
  change (like_tokens (list_ascii_of_string "\" ++ list_ascii_of_string "%"))
    with [LikeChar "%"%char].
  rewrite like_many_spec. split.
  - intros (pre & post & E & H).
    apply like_chars_spec in H as (mid & rest & -> & Hm & Hr).
    destruct rest as [|x [|y rest]]; simpl in Hr;
      try discriminate;
      [|now rewrite andb_false_r in Hr].
    rewrite andb_true_r in Hr.
    exists (string_of_list_ascii pre), (string_of_list_ascii mid), x.
    rewrite list_ascii_of_string_of_list_ascii.
    split; [|split; assumption].
    apply list_ascii_of_string_inj.
    rewrite !list_ascii_of_string_app, !list_ascii_of_string_of_list_ascii.
    exact E.
  - intros (pre & mid & x & -> & Hm & Hx).
    exists (list_ascii_of_string pre), (list_ascii_of_string mid ++ [x]).
    rewrite !list_ascii_of_string_app. split; [reflexivity|].
    apply like_chars_spec. exists (list_ascii_of_string mid), [x].
    split; [reflexivity|]. split; [exact Hm|].
    simpl. now rewrite Hx.
Qed.

End MoreLike.

Lemma isSpam_prefix_witness :
  isSpam binary ("xyz" ++ "abc") "a_c" = true.
Proof.
  apply (@isSpam_prefix binary "xyz" "abc" "a_c"). reflexivity.
Defined.

Lemma isSpam_trailing_backslash_witness :
  isSpam binary "50%" "0\" = true /\ isSpam binary "50% off" "0\" = false.
Proof.
  split.
  - apply (proj2 (@isSpam_trailing_backslash binary "50%" "0" eq_refl)).
    exists "5", "0", "%"%char. repeat split.
  - reflexivity.
Defined.
